(** * Odoo 18 JSON-RPC client and its update scripts: a shallow embedding

    The development follows the Python sources

    - [odoo_jsonrpc_client.py]  (class [OdooJSONRPCClient]),
    - [update_data.py]          ([normalize_updates], [bulk_update_records]),
    - [update_picking_status.py] ([verify_picking_updates]),
    - [validate_picking.py]     ([validate_picking]).

    Python values that travel over the wire are JSON documents; the remote
    server is a script of replies that the transport consumes one reply
    per HTTP request; Python exceptions are values of the type [exn] and
    every effectful function is a function on the state [world]. *)

From Stdlib Require Import List String Ascii ZArith Lia Bool Arith.
From Stdlib Require Import DecimalString.
From Stdlib Require Import Permutation Sorted.
Import ListNotations.
Local Open Scope string_scope.
Local Open Scope list_scope.
Set Warnings "-register-all".

(** ** JSON documents as Python sees them

    [json.loads] yields [None], [bool], [int], [str], [list] and [dict]
    (with [str] keys, in document order).  Numbers with a fractional part
    are left out of the embedding, and a character of a [string] stands
    for the code point of the same number (0 to 255). *)

Inductive json : Type :=
| JNone : json
| JBool : bool -> json
| JInt : Z -> json
| JStr : string -> json
| JList : list json -> json
| JDict : list (string * json) -> json.

(** A Python [dict] with [str] keys: insertion-ordered, one entry per key. *)
Definition pydict : Type := list (string * json).

Module Py.

(** [d.get(k)] as an option: [None] stands for the absent key. *)
Fixpoint lookup (k : string) (d : pydict) : option json :=
  match d with
  | [] => None
  | (k', v) :: d' => if String.eqb k k' then Some v else lookup k d'
  end.

(** [k in d]. *)
Definition has_key (k : string) (d : pydict) : bool :=
  match lookup k d with Some _ => true | None => false end.

(** [d.get(k, default)]. *)
Definition get_default (k : string) (d : pydict) (default : json) : json :=
  match lookup k d with Some v => v | None => default end.

(** [d.get(k)]: Python's [None] for an absent key. *)
Definition get (k : string) (d : pydict) : json := get_default k d JNone.

(** [d[k] = v]: the value is replaced in place when the key is there,
    and the entry is added at the end otherwise. *)
Fixpoint set (k : string) (v : json) (d : pydict) : pydict :=
  match d with
  | [] => [(k, v)]
  | (k', v') :: d' =>
      if String.eqb k k' then (k', v) :: d' else (k', v') :: set k v d'
  end.

(** [{k: v for k, v in d.items() if k != key}]. *)
Definition without (key : string) (d : pydict) : pydict :=
  filter (fun kv => negb (String.eqb (fst kv) key)) d.

(** [list(d.keys())]. *)
Definition keys (d : pydict) : list string := map fst d.

(** [bool(v)]. *)
Definition truthy (v : json) : bool :=
  match v with
  | JNone => false
  | JBool b => b
  | JInt z => negb (Z.eqb z 0)
  | JStr s => negb (String.eqb s "")
  | JList l => match l with [] => false | _ => true end
  | JDict d => match d with [] => false | _ => true end
  end.

(** [v is True]. *)
Definition is_True (v : json) : bool :=
  match v with JBool true => true | _ => false end.

(** [isinstance(v, bool)]. *)
Definition is_bool (v : json) : bool :=
  match v with JBool _ => true | _ => false end.

(** [a == b].  [bool] is a subclass of [int] ([True == 1]); lists are
    compared element by element, dicts entry by entry whatever their
    order; values of different kinds are unequal. *)
Fixpoint eq (a b : json) {struct a} : bool :=
  match a, b with
  | JNone, JNone => true
  | JBool x, JBool y => Bool.eqb x y
  | JBool x, JInt y => Z.eqb (Z.b2z x) y
  | JInt x, JBool y => Z.eqb x (Z.b2z y)
  | JInt x, JInt y => Z.eqb x y
  | JStr s, JStr t => String.eqb s t
  | JList l, JList m =>
      (fix go (l m : list json) {struct l} : bool :=
         match l, m with
         | [], [] => true
         | x :: l', y :: m' => eq x y && go l' m'
         | _, _ => false
         end) l m
  | JDict d, JDict e =>
      Nat.eqb (List.length d) (List.length e) &&
      (fix go (d : pydict) {struct d} : bool :=
         match d with
         | [] => true
         | (k, v) :: d' =>
             match lookup k e with
             | Some v' => eq v v'
             | None => false
             end && go d'
         end) d
  | _, _ => false
  end.

(** [needle in haystack] for two [str]: substring search. *)
Fixpoint is_prefix (p s : string) : bool :=
  match p, s with
  | EmptyString, _ => true
  | String a p', String b s' => Ascii.eqb a b && is_prefix p' s'
  | String _ _, EmptyString => false
  end.

Fixpoint substring_of (needle s : string) : bool :=
  is_prefix needle s ||
  match s with
  | EmptyString => false
  | String _ s' => substring_of needle s'
  end.

End Py.

(** ** [str()], [repr()] and [json.dumps] *)

Module Render.

Local Open Scope string_scope.

Definition hex_digit (n : nat) : ascii :=
  ascii_of_nat (if Nat.ltb n 10 then 48 + n else 87 + n).

(** Two lower-case hexadecimal digits of a code point below 256. *)
Definition hex2 (c : ascii) : string :=
  let n := nat_of_ascii c in
  String (hex_digit (n / 16)) (String (hex_digit (n mod 16)) EmptyString).

(** [str(n)] of an [int]. *)
Definition of_Z (z : Z) : string := NilZero.string_of_int (Z.to_int z).

Definition chr (n : nat) : string := String (ascii_of_nat n) EmptyString.
Definition backslash : string := chr 92.
Definition dquote : string := chr 34.
Definition squote : string := chr 39.

(** [str.isprintable] on the code points 0 to 255. *)
Definition printable (c : ascii) : bool :=
  let n := nat_of_ascii c in
  (Nat.leb 32 n && Nat.ltb n 127) || (Nat.ltb 160 n && negb (Nat.eqb n 173)).

Fixpoint contains_char (c : ascii) (s : string) : bool :=
  match s with
  | EmptyString => false
  | String a s' => Ascii.eqb a c || contains_char c s'
  end.

(** The body of [repr(s)] between the quotes, [q] being the quote. *)
Fixpoint repr_chars (q : ascii) (s : string) : string :=
  match s with
  | EmptyString => EmptyString
  | String c s' =>
      let n := nat_of_ascii c in
      (if Ascii.eqb c q || Nat.eqb n 92 then backslash ++ String c EmptyString
       else if Nat.eqb n 9 then backslash ++ "t"
       else if Nat.eqb n 10 then backslash ++ "n"
       else if Nat.eqb n 13 then backslash ++ "r"
       else if printable c then String c EmptyString
       else backslash ++ "x" ++ hex2 c)
      ++ repr_chars q s'
  end.

(** [repr(s)] of a [str]: single quotes, unless the text has a single
    quote and no double quote. *)
Definition repr_str (s : string) : string :=
  let q := if contains_char "'"%char s && negb (contains_char (ascii_of_nat 34) s)
           then ascii_of_nat 34 else "'"%char in
  String q (repr_chars q s) ++ String q EmptyString.

Fixpoint join (sep : string) (l : list string) : string :=
  match l with
  | [] => EmptyString
  | [x] => x
  | x :: l' => x ++ sep ++ join sep l'
  end.

(** [repr(v)]. *)
Fixpoint repr (v : json) : string :=
  match v with
  | JNone => "None"
  | JBool true => "True"
  | JBool false => "False"
  | JInt z => of_Z z
  | JStr s => repr_str s
  | JList l => "[" ++ join ", " (map repr l) ++ "]"
  | JDict d =>
      "{" ++ join ", " (map (fun kv => repr_str (fst kv) ++ ": " ++ repr (snd kv)) d) ++ "}"
  end.

(** [str(v)], also what an f-string puts in place of [{v}]. *)
Definition str (v : json) : string :=
  match v with
  | JStr s => s
  | _ => repr v
  end.

(** [json.dumps] of a [str] (the default [ensure_ascii=True]). *)
Fixpoint dumps_chars (s : string) : string :=
  match s with
  | EmptyString => EmptyString
  | String c s' =>
      let n := nat_of_ascii c in
      (if Nat.eqb n 34 then backslash ++ dquote
       else if Nat.eqb n 92 then backslash ++ backslash
       else if Nat.eqb n 10 then backslash ++ "n"
       else if Nat.eqb n 13 then backslash ++ "r"
       else if Nat.eqb n 9 then backslash ++ "t"
       else if Nat.eqb n 8 then backslash ++ "b"
       else if Nat.eqb n 12 then backslash ++ "f"
       else if Nat.leb 32 n && Nat.leb n 126 then String c EmptyString
       else backslash ++ "u00" ++ hex2 c)
      ++ dumps_chars s'
  end.

Definition dumps_str (s : string) : string :=
  dquote ++ dumps_chars s ++ dquote.

(** [sorted(d.items())] on a dict with [str] keys: insertion sort by
    key, code point by code point (keys are distinct, so the values
    never take part in the comparison). *)
Fixpoint insert_sorted {V : Type} (kv : string * V) (d : list (string * V))
  : list (string * V) :=
  match d with
  | [] => [kv]
  | kv' :: d' =>
      if String.leb (fst kv) (fst kv') then kv :: kv' :: d'
      else kv' :: insert_sorted kv d'
  end.

Definition sort_items {V : Type} (d : list (string * V)) : list (string * V) :=
  fold_right insert_sorted [] d.

Definition dumps_item (kv : string * string) : string :=
  dumps_str (fst kv) ++ ": " ++ snd kv.

(** [json.dumps(v, sort_keys=True)] with the default separators: the
    values of a dict are rendered, then the items are put in key order. *)
Fixpoint dumps_sorted (v : json) : string :=
  match v with
  | JNone => "null"
  | JBool true => "true"
  | JBool false => "false"
  | JInt z => of_Z z
  | JStr s => dumps_str s
  | JList l => "[" ++ join ", " (map dumps_sorted l) ++ "]"
  | JDict d =>
      "{" ++ join ", "
               (map dumps_item
                    (sort_items (map (fun kv => (fst kv, dumps_sorted (snd kv))) d)))
          ++ "}"
  end.

End Render.

(** ** Exceptions, the remote server and the state of a client *)

(** The exceptions the code raises or lets through.  A [ValueError] is
    told apart by the message template it is built from, whose
    interpolated values are kept as arguments; the transport errors keep
    their class (their text is rewritten by the handlers of
    [_make_request], their class is not). *)
Inductive exn : Type :=
| JsonRpcError (error_msg error_debug : json)
    (* ValueError(f"JSON-RPC Error: {error_msg} - {error_debug}") *)
| JsonRpcErrorAfterReauth (message data : json)
    (* ValueError(f"JSON-RPC Error after re-auth: {message} - {data}") *)
| FailedToReauthenticate (error_msg : json)
    (* ValueError(f"JSON-RPC Error: {error_msg} - Failed to re-authenticate") *)
| AuthenticationFailed
    (* ValueError("Authentication failed: No UID returned") *)
| NotAuthenticated
    (* ValueError("Not authenticated. Call authenticate() first.") *)
| FieldsRequired
    (* ValueError("Fields list is required. No default fields will be fetched.") *)
| RecordNotFound (record_id : Z) (model : string)
    (* ValueError(f"Record {record_id} not found in model {model}") *)
| HTTPError (code : Z)
| URLError
| PyTypeError
| PyAttributeError
| PyKeyError.

(** The error kinds of the specification, by message template. *)
Inductive error_kind : Type :=
| RemoteError | AuthenticationError | NotAuthenticatedError
| InvalidArgumentError | NotFoundError | ProtocolError | ConnectionError
| InterpreterError.

Definition kind_of (e : exn) : error_kind :=
  match e with
  | JsonRpcError _ _ | JsonRpcErrorAfterReauth _ _ | FailedToReauthenticate _ => RemoteError
  | AuthenticationFailed => AuthenticationError
  | NotAuthenticated => NotAuthenticatedError
  | FieldsRequired => InvalidArgumentError
  | RecordNotFound _ _ => NotFoundError
  | HTTPError _ => ProtocolError
  | URLError => ConnectionError
  | PyTypeError | PyAttributeError | PyKeyError => InterpreterError
  end.

Inductive result (A : Type) : Type :=
| Ok : A -> result A
| Raise : exn -> result A.
Arguments Ok {A} _.
Arguments Raise {A} _.

Definition kind_of_result {A : Type} (r : result A) : option error_kind :=
  match r with
  | Ok _ => None
  | Raise e => Some (kind_of e)
  end.

(** What one HTTP request gets back: a decoded JSON body, a status
    outside 2xx, or no answer at all.  (A body that is not a JSON
    document, which makes [json.loads] raise, is not among the answers
    considered.) *)
Inductive response : Type :=
| Reply (body : json)
| HttpFail (code : Z)
| NetFail.

(** The client object together with the server it talks to.  [server] is
    the list of answers still to come, one per HTTP request (a server with
    no answer left is unreachable); [sent] and [calls] are histories: the
    requests posted so far (endpoint and [params]) and the invocations of
    [call_kw] so far (model, method, args, kwargs). *)
Record world : Type := mkWorld {
  db : string;
  username : string;
  password : string;
  uid : json;
  session_id : json;
  server : list response;
  sent : list (string * json);
  calls : list (string * string * json * json)
}.

Definition set_server (srv : list response) (w : world) : world :=
  mkWorld (db w) (username w) (password w) (uid w) (session_id w) srv (sent w) (calls w).

Definition set_session (u s : json) (w : world) : world :=
  mkWorld (db w) (username w) (password w) u s (server w) (sent w) (calls w).

Definition log_request (endpoint : string) (params : json) (w : world) : world :=
  mkWorld (db w) (username w) (password w) (uid w) (session_id w) (server w)
          (sent w ++ [(endpoint, params)]) (calls w).

Definition log_call (model method : string) (args kwargs : json) (w : world) : world :=
  mkWorld (db w) (username w) (password w) (uid w) (session_id w) (server w)
          (sent w) (calls w ++ [(model, method, args, kwargs)]).

(** [OdooJSONRPCClient(url, db, username, password)] facing a server. *)
Definition new_client (d u p : string) (srv : list response) : world :=
  mkWorld d u p JNone JNone srv [] [].

(** Computations of the client: state passing with exceptions. *)
Definition M (A : Type) : Type := world -> result A * world.

Definition ret {A : Type} (a : A) : M A := fun w => (Ok a, w).
Definition raise {A : Type} (e : exn) : M A := fun w => (Raise e, w).
Definition bind {A B : Type} (m : M A) (k : A -> M B) : M B :=
  fun w => match m w with
           | (Ok a, w') => k a w'
           | (Raise e, w') => (Raise e, w')
           end.

(** [try: m except Exception as e: h e]. *)
Definition try_except {A : Type} (m : M A) (h : exn -> M A) : M A :=
  fun w => match m w with
           | (Ok a, w') => (Ok a, w')
           | (Raise e, w') => h e w'
           end.

Declare Scope client_scope.
Delimit Scope client_scope with client.
Notation "x <- m ;; k" := (bind m (fun x => k))
  (at level 100, m at next level, right associativity) : client_scope.
Local Open Scope client_scope.

(** ** [OdooJSONRPCClient] *)

(** [needle in container] where [needle] is a [str]: key membership in a
    dict, membership in a list, substring of a [str]; [None] is the
    [TypeError] of a container that cannot be searched. *)
Definition py_in (needle : string) (container : json) : option bool :=
  match container with
  | JDict d => Some (Py.has_key needle d)
  | JList l => Some (existsb (fun x => Py.eq (JStr needle) x) l)
  | JStr s => Some (Py.substring_of needle s)
  | JNone | JBool _ | JInt _ => None
  end.

(** ['Session expired' in error_msg or 'Session expired' in str(error_debug)]. *)
Definition session_expired (error_msg error_debug : json) : option bool :=
  match py_in "Session expired" error_msg with
  | None => None
  | Some true => Some true
  | Some false => Some (Py.substring_of "Session expired" (Render.str error_debug))
  end.

(** [self.opener.open(request, timeout=30)] followed by [json.loads]: the
    request is posted and the next answer of the server is taken. *)
Definition open_request (endpoint : string) (params : json) : M json :=
  fun w =>
    let w := log_request endpoint params w in
    match server w with
    | [] => (Raise URLError, w)
    | Reply body :: rest => (Ok body, set_server rest w)
    | HttpFail code :: rest => (Raise (HTTPError code), set_server rest w)
    | NetFail :: rest => (Raise URLError, set_server rest w)
    end.

(** [return result.get('result', {})]. *)
Definition return_result (result : json) : M json :=
  match result with
  | JDict d => ret (Py.get_default "result" d (JDict []))
  | _ => raise PyAttributeError
  end.

Definition auth_params (w : world) : json :=
  JDict [("db", JStr (db w)); ("login", JStr (username w)); ("password", JStr (password w))].

(** The body of [authenticate], given the [_make_request] it calls. *)
Definition authenticate_with (make_request : string -> json -> M json) : M bool :=
  fun w =>
    (result <- make_request "/web/session/authenticate" (auth_params w) ;;
     if Py.truthy result then
       match result with
       | JDict d =>
           if Py.has_key "uid" d then
             fun w' => (Ok true, set_session (Py.get "uid" d) (Py.get "session_id" d) w')
           else raise AuthenticationFailed
       | _ =>
           match py_in "uid" result with
           | None | Some true => raise PyTypeError
           | Some false => raise AuthenticationFailed
           end
       end
     else raise AuthenticationFailed) w.

(** The retry of [_make_request] after a successful re-authentication. *)
Definition retry_request (endpoint : string) (params : json) : M json :=
  result <- open_request endpoint params ;;
  match py_in "error" result with
  | None => raise PyTypeError
  | Some false => return_result result
  | Some true =>
      match result with
      | JDict d =>
          match Py.get "error" d with
          | JDict error_data =>
              raise (JsonRpcErrorAfterReauth
                       (Py.get_default "message" error_data (JStr "Unknown error"))
                       (Py.get_default "data" error_data (JDict [])))
          | _ => raise PyAttributeError
          end
      | _ => raise PyTypeError
      end
  end.

(** [_make_request], by recursion on the answers of the server: each
    request takes one, and the re-authentication runs on those that
    remain.  [srv] is [server w]. *)
Fixpoint request_on (srv : list response) (endpoint : string) (params : json)
         (w : world) {struct srv} : result json * world :=
  let w0 := log_request endpoint params w in
  match srv with
  | [] => (Raise URLError, w0)
  | r :: srv' =>
      let w1 := set_server srv' w0 in
      match r with
      | NetFail => (Raise URLError, w1)
      | HttpFail code => (Raise (HTTPError code), w1)
      | Reply result =>
          match py_in "error" result with
          | None => (Raise PyTypeError, w1)
          | Some false => return_result result w1
          | Some true =>
              match result with
              | JDict d =>
                  match Py.get "error" d with
                  | JDict error_data =>
                      let error_msg := Py.get_default "message" error_data (JStr "Unknown error") in
                      let error_debug := Py.get_default "data" error_data (JDict []) in
                      match session_expired error_msg error_debug with
                      | None => (Raise PyTypeError, w1)
                      | Some false => (Raise (JsonRpcError error_msg error_debug), w1)
                      | Some true =>
                          match authenticate_with (request_on srv') w1 with
                          | (Ok true, w2) => retry_request endpoint params w2
                          | (Ok false, w2) => (Raise (FailedToReauthenticate error_msg), w2)
                          | (Raise e, w2) => (Raise e, w2)
                          end
                      end
                  | _ => (Raise PyAttributeError, w1)
                  end
              | _ => (Raise PyTypeError, w1)
              end
          end
      end
  end.

Definition _make_request (endpoint : string) (params : json) : M json :=
  fun w => request_on (server w) endpoint params w.

Definition authenticate : M bool := authenticate_with _make_request.

(** [call_kw(self, model, method, args, kwargs)]. *)
Definition call_kw (model method : string) (args kwargs : json) : M json :=
  fun w =>
    let w := log_call model method args kwargs w in
    if negb (Py.truthy (uid w)) then (Raise NotAuthenticated, w)
    else
      _make_request "/web/dataset/call_kw"
        (JDict [("model", JStr model); ("method", JStr method);
                ("args", args); ("kwargs", kwargs); ("context", JDict [])]) w.

Definition fields_kwargs (fields : list string) : json :=
  JDict [("fields", JList (map JStr fields))].

(** [read_record(self, model, record_id, fields)]. *)
Definition read_record (model : string) (record_id : Z) (fields : list string) : M json :=
  match fields with
  | [] => raise FieldsRequired
  | _ =>
      result <- call_kw model "read" (JList [JList [JInt record_id]]) (fields_kwargs fields) ;;
      if Py.truthy result then
        (* [len(result) > 0] holds for every truthy value that has a length *)
        match result with
        | JList (first :: _) => ret first
        | JStr (String c _) => ret (JStr (String c EmptyString))
        | JDict _ => raise PyKeyError
        | _ => raise PyTypeError
        end
      else raise (RecordNotFound record_id model)
  end.

(** [search_read(self, model, domain, fields)]. *)
Definition search_read (model : string) (domain : json) (fields : list string) : M json :=
  match fields with
  | [] => raise FieldsRequired
  | _ =>
      result <- call_kw model "search_read" (JList [domain]) (fields_kwargs fields) ;;
      ret (if Py.truthy result then result else JList [])
  end.

(** [get_fields(self, model)]. *)
Definition get_fields (model : string) : M json :=
  call_kw model "fields_get" (JList []) (JDict []).

(** [read_all_records(self, model, fields, domain=None)]. *)
Definition read_all_records (model : string) (fields : list string) (domain : option json)
  : M json :=
  match fields with
  | [] => raise FieldsRequired
  | _ =>
      let domain := match domain with None => JList [] | Some d => d end in
      result <- call_kw model "search_read" (JList [domain]) (fields_kwargs fields) ;;
      ret (if Py.truthy result then result else JList [])
  end.

(** [write_record(self, model, record_id, values)]. *)
Definition write_record (model : string) (record_id : Z) (values : pydict) : M bool :=
  result <- call_kw model "write" (JList [JList [JInt record_id]; JDict values]) (JDict []) ;;
  ret (Py.is_True result).

(** [list(fields_info.keys())]: only a dict has [keys]. *)
Definition field_names (fields_info : json) : result (list string) :=
  match fields_info with
  | JDict d => Ok (Py.keys d)
  | _ => Raise PyAttributeError
  end.

(** [read_record_all_fields(self, model, record_id)]. *)
Definition read_record_all_fields (model : string) (record_id : Z) : M json :=
  fields_info <- get_fields model ;;
  match field_names fields_info with
  | Ok fields => read_record model record_id fields
  | Raise e => raise e
  end.

(** [search_read_all_fields(self, model, domain)]. *)
Definition search_read_all_fields (model : string) (domain : json) : M json :=
  fields_info <- get_fields model ;;
  match field_names fields_info with
  | Ok fields => search_read model domain fields
  | Raise e => raise e
  end.

(** A call site [client.call_kw(model=..., method=..., args=..., kwargs=...)]
    that may also pass [context=...].  The signature of [call_kw] is
    [(self, model, method, args, kwargs)]: Python binds the keywords to it
    before the body runs, and a keyword that names no parameter is a
    [TypeError] (call_kw() got an unexpected keyword argument 'context'). *)
Definition call_kw_keywords (model method : string) (args kwargs : json)
           (context : option json) : M json :=
  match context with
  | Some _ => raise PyTypeError
  | None => call_kw model method args kwargs
  end.

(** ** [update_data.py] *)

Module UpdateData.

(** [normalize_updates(updates, model)]. *)
Definition normalize_update (model : string) (update : pydict) : pydict :=
  let field_updates := Py.without "id" update in
  if String.eqb model "stock.move" && Py.has_key "quantity" field_updates
  then Py.set "product_uom_qty" (Py.get "quantity" field_updates) update
  else update.

Definition normalize_updates (updates : list pydict) (model : string) : list pydict :=
  map (normalize_update model) updates.

(** The entries of [results["errors"]], by message template. *)
Inductive bulk_error : Type :=
| MissingId (update : pydict)
    (* f"Missing 'id' in update: {update}" *)
| NoFields (record_id : json)
    (* f"No fields to update for record {record_id}" *)
| ReturnedFalse (record_ids : list json)
    (* f"Update returned False for IDs: {record_ids}" *)
| ErrorUpdating (record_ids : list json) (e : exn).
    (* f"Error updating IDs {record_ids}: {str(e)}" *)

(** The dict that [bulk_update_records] returns; the early return has
    a ["message"] and no ["errors"]. *)
Record results : Type := mkResults {
  success : bool;
  message : option string;
  updated : nat;
  failed : nat;
  errors : option (list bulk_error)
}.

Definition errors_of (r : results) : list bulk_error :=
  match errors r with Some l => l | None => [] end.

(** [results["errors"].append(e); results["failed"] += n]. *)
Definition fail (e : bulk_error) (n : nat) (r : results) : results :=
  mkResults (success r) (message r) (updated r) (failed r + n)
            (Some (errors_of r ++ [e])).

(** [results["updated"] += n]. *)
Definition succeed (n : nat) (r : results) : results :=
  mkResults (success r) (message r) (updated r + n) (failed r) (errors r).

(** One entry of [value_groups]: the key, then ["values"] and ["ids"]. *)
Definition group : Type := string * (pydict * list json).
Definition group_key (g : group) : string := fst g.
Definition group_values (g : group) : pydict := fst (snd g).
Definition group_ids (g : group) : list json := snd (snd g).

(** [update_key in value_groups]. *)
Definition has_group (key : string) (value_groups : list group) : bool :=
  existsb (fun g => String.eqb key (group_key g)) value_groups.

(** [value_groups[update_key]["ids"].append(record_id)]. *)
Fixpoint append_id (key : string) (record_id : json) (value_groups : list group)
  : list group :=
  match value_groups with
  | [] => []
  | g :: gs =>
      if String.eqb key (group_key g)
      then (group_key g, (group_values g, group_ids g ++ [record_id])) :: gs
      else g :: append_id key record_id gs
  end.

(** [json.dumps(field_updates, sort_keys=True)]. *)
Definition update_key_of (field_updates : pydict) : string :=
  Render.dumps_sorted (JDict field_updates).

(** The body of the first loop of [bulk_update_records]. *)
Definition group_step (acc : results * list group) (update : pydict)
  : results * list group :=
  let '(res, value_groups) := acc in
  let record_id := Py.get "id" update in
  if negb (Py.truthy record_id) then (fail (MissingId update) 1 res, value_groups)
  else
    let field_updates := Py.without "id" update in
    match field_updates with
    | [] => (fail (NoFields record_id) 1 res, value_groups)
    | _ =>
        let update_key := update_key_of field_updates in
        let value_groups :=
          if has_group update_key value_groups then value_groups
          else value_groups ++ [(update_key, (field_updates, []))] in
        (res, append_id update_key record_id value_groups)
    end.

(** The body of the second loop: one [write] for the ids of a group. *)
Definition write_group (model : string) (res : results) (g : group) : M results :=
  let record_ids := group_ids g in
  let values := group_values g in
  try_except
    (result <- call_kw model "write" (JList [JList record_ids; JDict values]) (JDict []) ;;
     ret (if Py.is_True result then succeed (List.length record_ids) res
          else fail (ReturnedFalse record_ids) (List.length record_ids) res))
    (fun e => ret (fail (ErrorUpdating record_ids e) (List.length record_ids) res)).

Fixpoint write_groups (model : string) (value_groups : list group) (res : results)
  : M results :=
  match value_groups with
  | [] => ret res
  | g :: gs => res' <- write_group model res g ;; write_groups model gs res'
  end.

Definition initial_results : results := mkResults true None 0 0 (Some []).

(** [bulk_update_records(client, model, updates)]. *)
Definition bulk_update_records (model : string) (updates : list pydict) : M results :=
  match updates with
  | [] => ret (mkResults false (Some "No records to update") 0 0 None)
  | _ =>
      let normalized_updates := normalize_updates updates model in
      let '(res, value_groups) :=
        fold_left group_step normalized_updates (initial_results, []) in
      res <- write_groups model value_groups res ;;
      ret (if Nat.ltb 0 (failed res)
           then mkResults false (message res) (updated res) (failed res) (errors res)
           else res)
  end.

(** The entries of [results["errors"]] of [update_stock_pickings]. *)
Inductive pickings_error : Type :=
| PickingsReturnedFalse (picking_ids : list Z)
    (* f"Update returned False for IDs: {picking_ids}" *)
| ErrorUpdatingPickings (e : exn).
    (* f"Error updating pickings: {str(e)}" *)

(** The dict that [update_stock_pickings] returns; the two early
    returns have a ["message"] and no ["errors"]. *)
Record pickings_results : Type := mkPickingsResults {
  p_success : bool;
  p_message : option string;
  p_updated : nat;
  p_failed : nat;
  p_errors : option (list pickings_error)
}.

(** [update_stock_pickings(client, field_updates, picking_ids)]. *)
Definition update_stock_pickings (field_updates : pydict) (picking_ids : list Z)
  : M pickings_results :=
  match field_updates with
  | [] => ret (mkPickingsResults false (Some "No fields to update") 0 0 None)
  | _ =>
      match picking_ids with
      | [] => ret (mkPickingsResults false (Some "No picking IDs provided") 0 0 None)
      | _ =>
          try_except
            (result <- call_kw "stock.picking" "write"
                         (JList [JList (map JInt picking_ids); JDict field_updates])
                         (JDict []) ;;
             ret (if Py.is_True result
                  then mkPickingsResults true None (List.length picking_ids) 0 (Some [])
                  else mkPickingsResults false None 0 (List.length picking_ids)
                         (Some [PickingsReturnedFalse picking_ids])))
            (fun e => ret (mkPickingsResults false None 0 (List.length picking_ids)
                             (Some [ErrorUpdatingPickings e])))
      end
  end.

End UpdateData.

(** ** [update_picking_status.py] *)

Module UpdatePickingStatus.

(** The entries of [verification_results["errors"]], by message template. *)
Inductive verify_error : Type :=
| PickingNotFound (picking_id : Z)
    (* f"Picking {picking_id} not found" *)
| FieldMismatch (picking_id : Z) (field : string) (actual expected : json)
    (* f"Picking {picking_id}: {field} = {actual} (expected {expected_value})" *)
| VerificationError (e : exn).
    (* f"Verification error: {str(e)}" *)

Record verification_results : Type := mkVerification {
  verified : nat;
  failed : nat;
  errors : list verify_error
}.

(** [record['id']] used as a dict key: it has to be hashable. *)
Definition hashable (v : json) : bool :=
  match v with
  | JList _ | JDict _ => false
  | _ => true
  end.

(** [records_map[key] = record]. *)
Fixpoint map_set (key record : json) (records_map : list (json * json))
  : list (json * json) :=
  match records_map with
  | [] => [(key, record)]
  | (k, r) :: rest =>
      if Py.eq key k then (k, record) :: rest else (k, r) :: map_set key record rest
  end.

(** [records_map.get(key)]. *)
Fixpoint map_get (key : json) (records_map : list (json * json)) : option json :=
  match records_map with
  | [] => None
  | (k, r) :: rest => if Py.eq key k then Some r else map_get key rest
  end.

(** [{record['id']: record for record in records}] over a list. *)
Fixpoint build_records_map (records : list json) (acc : list (json * json))
  : result (list (json * json)) :=
  match records with
  | [] => Ok acc
  | record :: rest =>
      match record with
      | JDict d =>
          match Py.lookup "id" d with
          | Some key =>
              if hashable key then build_records_map rest (map_set key record acc)
              else Raise PyTypeError
          | None => Raise PyKeyError
          end
      | _ => Raise PyTypeError
      end
  end.

(** The comprehension over whatever [search_read] returned: a value
    that is not a list either cannot be iterated or yields [str]
    items, which cannot be indexed by ['id']. *)
Definition records_map_of (records : json) : result (list (json * json)) :=
  match records with
  | JList l => build_records_map l []
  | _ => Raise PyTypeError
  end.

(** [record.get(field)], [record] being one of the dicts of the map. *)
Definition actual_of (record : json) (field : string) : json :=
  match record with JDict d => Py.get field d | _ => JNone end.

(** The comparison of one field: [None] when it matches, the error
    appended to the list when it does not. *)
Definition check_field (picking_id : Z) (record : json) (field : string)
           (expected_value : json) : option verify_error :=
  let actual_value := actual_of record field in
  if Py.is_bool expected_value then
    let actual_bool :=
      match actual_value with JNone => false | _ => Py.truthy actual_value end in
    if negb (Py.eq (JBool actual_bool) expected_value)
    then Some (FieldMismatch picking_id field (JBool actual_bool) expected_value)
    else None
  else
    match actual_value with
    | JList (actual_id :: _) =>
        if negb (Py.eq actual_id expected_value)
        then Some (FieldMismatch picking_id field actual_id expected_value)
        else None
    | _ =>
        if negb (Py.eq actual_value expected_value)
        then Some (FieldMismatch picking_id field actual_value expected_value)
        else None
    end.

(** The loop over [expected_fields.items()]: [all_match] and the errors. *)
Definition check_fields (picking_id : Z) (record : json) (expected_fields : pydict)
  : bool * list verify_error :=
  fold_left
    (fun (acc : bool * list verify_error) (kv : string * json) =>
       match check_field picking_id record (fst kv) (snd kv) with
       | Some e => (false, snd acc ++ [e])
       | None => acc
       end)
    expected_fields (true, []).

(** The body of the loop over [picking_ids]. *)
Definition verify_one (records_map : list (json * json)) (expected_fields : pydict)
           (res : verification_results) (picking_id : Z) : verification_results :=
  match map_get (JInt picking_id) records_map with
  | None =>
      mkVerification (verified res) (failed res + 1)
                     (errors res ++ [PickingNotFound picking_id])
  | Some record =>
      if negb (Py.truthy record) then
        mkVerification (verified res) (failed res + 1)
                       (errors res ++ [PickingNotFound picking_id])
      else
        let '(all_match, errs) := check_fields picking_id record expected_fields in
        if all_match
        then mkVerification (verified res + 1) (failed res) (errors res ++ errs)
        else mkVerification (verified res) (failed res + 1) (errors res ++ errs)
  end.

Definition picking_domain (picking_ids : list Z) : json :=
  JList [JList [JStr "id"; JStr "in"; JList (map JInt picking_ids)]].

(** [verify_picking_updates(client, picking_ids, expected_fields)]. *)
Definition verify_picking_updates (picking_ids : list Z) (expected_fields : pydict)
  : M verification_results :=
  let verification_results := mkVerification 0 0 [] in
  match picking_ids with
  | [] => ret verification_results
  | _ =>
      let fields_to_read := Py.keys expected_fields in
      try_except
        (records <- search_read "stock.picking" (picking_domain picking_ids) fields_to_read ;;
         match records_map_of records with
         | Ok records_map =>
             ret (fold_left (verify_one records_map expected_fields) picking_ids
                            verification_results)
         | Raise e => raise e
         end)
        (fun e => ret (mkVerification 0 0 [VerificationError e]))
  end.

(** The entries of [results["errors"]] of [update_stock_picking_status]. *)
Inductive update_error : Type :=
| UpdateReturnedFalse (picking_ids : list Z)
    (* f"Update returned False for IDs: {picking_ids}" *)
| ErrorUpdatingPickings (e : exn).
    (* f"Error updating pickings: {str(e)}" *)

(** The dict that [update_stock_picking_status] returns; ["picking_ids"]
    is absent from the two early returns, which have a ["message"]. *)
Record update_results : Type := mkUpdateResults {
  u_success : bool;
  u_message : option string;
  u_updated : nat;
  u_failed : nat;
  u_errors : list update_error;
  u_picking_ids : option (list Z)
}.

(** [update_stock_picking_status(client, field_updates, picking_ids)]. *)
Definition update_stock_picking_status (field_updates : pydict) (picking_ids : list Z)
  : M update_results :=
  match field_updates with
  | [] => ret (mkUpdateResults false (Some "No fields to update") 0 0 [] None)
  | _ =>
      match picking_ids with
      | [] => ret (mkUpdateResults false (Some "No picking IDs provided") 0 0 [] None)
      | _ =>
          try_except
            (result <- call_kw "stock.picking" "write"
                         (JList [JList (map JInt picking_ids); JDict field_updates])
                         (JDict []) ;;
             ret (if Py.is_True result
                  then mkUpdateResults true None (List.length picking_ids) 0 []
                         (Some picking_ids)
                  else mkUpdateResults false None 0 (List.length picking_ids)
                         [UpdateReturnedFalse picking_ids] (Some [])))
            (fun e => ret (mkUpdateResults false None 0 (List.length picking_ids)
                             [ErrorUpdatingPickings e] (Some [])))
      end
  end.

End UpdatePickingStatus.

(** ** [validate_picking.py] *)

Module ValidatePicking.

(** The dict that [validate_picking] returns: ["result"] on success,
    ["error"] (the exception caught) on failure. *)
Record validation : Type := mkValidation {
  success : bool;
  picking_id : Z;
  outcome : result json;
  context : pydict
}.

(** [validate_picking(client, picking_id, skip_sms=True, cancel_backorder=True)]. *)
Definition validate_picking (picking_id : Z) (skip_sms cancel_backorder : bool)
  : M validation :=
  let context_params :=
    JDict [("skip_sms", JBool skip_sms);
           ("skip_backorder", JBool cancel_backorder);
           ("cancel_backorder", JBool cancel_backorder)] in
  let reported := [("skip_sms", JBool skip_sms); ("cancel_backorder", JBool cancel_backorder)] in
  try_except
    (result <- call_kw_keywords "stock.picking" "button_validate"
                 (JList [JList [JInt picking_id]]) (JDict []) (Some context_params) ;;
     result <-
       match result with
       | JDict d =>
           if Py.eq (Py.get "type" d) (JStr "ir.actions.act_window") then
             let wizard_model := Py.get_default "res_model" d (JStr "") in
             if Py.eq wizard_model (JStr "stock.backorder.confirmation") then
               match Py.get_default "context" d (JDict []) with
               | JDict wizard_context =>
                   let pick_ids :=
                     Py.get_default "default_pick_ids" wizard_context
                                    (JList [JInt picking_id]) in
                   wizard_id <- call_kw_keywords "stock.backorder.confirmation" "create"
                                  (JList [JDict [("pick_ids",
                                                  JList [JList [JInt 6; JInt 0; pick_ids]])]])
                                  (JDict []) (Some context_params) ;;
                   call_kw_keywords "stock.backorder.confirmation" "process_cancel_backorder"
                     (JList [JList [wizard_id]]) (JDict []) (Some context_params)
               | _ => raise PyAttributeError
               end
             else
               call_kw_keywords "stock.picking" "_action_done"
                 (JList [JList [JInt picking_id]]) (JDict []) (Some context_params)
           else ret result
       | _ => ret result
       end ;;
     ret (mkValidation true picking_id (Ok result) reported))
    (fun e => ret (mkValidation false picking_id (Raise e) reported)).

End ValidatePicking.

(** ** [call_update_salla.py] *)

Module CallUpdateSalla.

(** The dict that [call_update_salla] returns: ["result"] on success,
    ["error"] (the exception caught) on failure. *)
Record call_report : Type := mkCallReport {
  success : bool;
  picking_id : Z;
  outcome : result json
}.

(** [call_update_salla(client, picking_id)]. *)
Definition call_update_salla (picking_id : Z) : M call_report :=
  try_except
    (result <- call_kw_keywords "stock.picking" "update_salla"
                 (JList [JInt picking_id]) (JDict []) None ;;
     ret (mkCallReport true picking_id (Ok result)))
    (fun e => ret (mkCallReport false picking_id (Raise e))).

End CallUpdateSalla.

(** ** [config.py] *)

Module Config.

Definition DB_NAME : string := "18_odoo".
Definition USERNAME : string := "admin".
Definition PASSWORD : string := "admin".
Definition PICKING_ID : Z := 108080.

End Config.

(** ** [fetch_data.py] *)

Module FetchData.

Definition STOCK_PICKING_WHITELIST : list string :=
  ["id"; "name"; "origin"; "move_type"; "state"; "location_id"; "location_dest_id";
   "move_ids_without_package"; "picking_type_id"; "warehouse_address_id";
   "picking_type_code"; "partner_id"; "sale_id"; "salla_order_status_id"].

Definition STOCK_MOVE_WHITELIST : list string :=
  ["id"; "product_id"; "never_product_template_attribute_value_ids";
   "description_picking"; "product_qty"; "product_uom_qty"; "product_uom";
   "product_uom_category_id"; "product_tmpl_id"].

(** One element of the comprehension over [moves]: [move['id']] and
    [move.get(...)] need a dict, the first needs the key. *)
Definition shape_move (move : json) : result json :=
  match move with
  | JDict m =>
      match Py.lookup "id" m with
      | Some id =>
          Ok (JDict [("id", id);
                     ("product_id", Py.get "product_id" m);
                     ("never_product_template_attribute_value_ids",
                      Py.get "never_product_template_attribute_value_ids" m);
                     ("description_picking", Py.get "description_picking" m);
                     ("product_qty", Py.get "product_qty" m);
                     ("product_uom_qty", Py.get "product_uom_qty" m);
                     ("product_uom", Py.get "product_uom" m);
                     ("product_uom_category_id", Py.get "product_uom_category_id" m);
                     ("product_tmpl_id", Py.get "product_tmpl_id" m)])
      | None => Raise PyKeyError
      end
  | _ => Raise PyTypeError
  end.

Fixpoint shape_moves (moves : list json) : result (list json) :=
  match moves with
  | [] => Ok []
  | move :: rest =>
      match shape_move move with
      | Ok shaped =>
          match shape_moves rest with
          | Ok others => Ok (shaped :: others)
          | Raise e => Raise e
          end
      | Raise e => Raise e
      end
  end.

(** The comprehension over whatever [moves] is: the empty list, or what
    [search_read] returned, which when it is not a list either cannot
    be iterated or yields [str] items. *)
Definition shape_all_moves (moves : json) : result (list json) :=
  match moves with
  | JList l => shape_moves l
  | _ => Raise PyTypeError
  end.

(** [fetch_stock_picking_data(picking_id)], run against a server: the
    client is created from the configuration. *)
Definition fetch_stock_picking_data (picking_id : Z) (srv : list response)
  : result json * world :=
  (_ <- authenticate ;;
   picking <- read_record "stock.picking" picking_id STOCK_PICKING_WHITELIST ;;
   match picking with
   | JDict p =>
       let move_ids := Py.get_default "move_ids_without_package" p (JList []) in
       moves <- (if Py.truthy move_ids
                 then search_read "stock.move"
                        (JList [JList [JStr "id"; JStr "in"; move_ids]])
                        STOCK_MOVE_WHITELIST
                 else ret (JList [])) ;;
       match Py.lookup "id" p with
       | Some id =>
           match shape_all_moves moves with
           | Ok shaped =>
               ret (JDict
                      [("stock_picking",
                        JDict [("id", id);
                               ("name", Py.get "name" p);
                               ("origin", Py.get "origin" p);
                               ("move_type", Py.get "move_type" p);
                               ("state", Py.get "state" p);
                               ("location_id", Py.get "location_id" p);
                               ("location_dest_id", Py.get "location_dest_id" p);
                               ("picking_type_id", Py.get "picking_type_id" p);
                               ("warehouse_address_id", Py.get "warehouse_address_id" p);
                               ("picking_type_code", Py.get "picking_type_code" p);
                               ("partner_id", Py.get "partner_id" p);
                               ("sale_id", Py.get "sale_id" p);
                               ("salla_order_status_id", Py.get "salla_order_status_id" p);
                               ("move_ids", move_ids);
                               ("moves", JList shaped)])])
           | Raise e => raise e
           end
       | None => raise PyKeyError
       end
   | _ => raise PyAttributeError
   end)
    (new_client Config.DB_NAME Config.USERNAME Config.PASSWORD srv).

End FetchData.

(** ** [fetch_status.py] *)

Module FetchStatus.

Definition SALLA_ORDER_STATUS_WHITELIST : list string :=
  ["id"; "salla_status_id"; "name"; "type"; "slug"].

(** One element of the comprehension over [all_records]. *)
Definition shape_status (record : json) : result json :=
  match record with
  | JDict r =>
      match Py.lookup "id" r with
      | Some id =>
          Ok (JDict [("id", id);
                     ("salla_status_id", Py.get "salla_status_id" r);
                     ("name", Py.get "name" r);
                     ("type", Py.get "type" r);
                     ("slug", Py.get "slug" r)])
      | None => Raise PyKeyError
      end
  | _ => Raise PyTypeError
  end.

Fixpoint shape_statuses (records : list json) : result (list json) :=
  match records with
  | [] => Ok []
  | record :: rest =>
      match shape_status record with
      | Ok shaped =>
          match shape_statuses rest with
          | Ok others => Ok (shaped :: others)
          | Raise e => Raise e
          end
      | Raise e => Raise e
      end
  end.

(** [fetch_salla_order_status()], run against a server.  What
    [search_read] returns is the empty list or a truthy value: one that
    is not a list has no [len], or has items that are [str]. *)
Definition fetch_salla_order_status (srv : list response) : result json * world :=
  (_ <- authenticate ;;
   all_records <- search_read "salla.order.status" (JList []) SALLA_ORDER_STATUS_WHITELIST ;;
   match all_records with
   | JList l =>
       match shape_statuses l with
       | Ok shaped =>
           ret (JDict [("model", JStr "salla.order.status");
                       ("total_records", JInt (Z.of_nat (List.length l)));
                       ("records", JList shaped)])
       | Raise e => raise e
       end
   | _ => raise PyTypeError
   end)
    (new_client Config.DB_NAME Config.USERNAME Config.PASSWORD srv).

End FetchStatus.

(** ** Fixtures: servers and clients used by the examples *)

Module Fixtures.

(** A client that has logged in as user 2. *)
Definition logged_in (srv : list response) : world :=
  mkWorld "18_odoo" "admin" "admin" (JInt 2) JNone srv [] [].

(** A reply envelope carrying [result]. *)
Definition reply_result (v : json) : response :=
  Reply (JDict [("jsonrpc", JStr "2.0"); ("id", JInt 1); ("result", v)]).

(** A reply envelope carrying an [error] with [message] and [data]. *)
Definition reply_error (message : string) (data : json) : response :=
  Reply (JDict [("jsonrpc", JStr "2.0"); ("id", JInt 1);
                ("error", JDict [("code", JInt 100); ("message", JStr message);
                                 ("data", data)])]).

(** The envelope Odoo answers with once the session cookie is stale. *)
Definition session_expired_reply : response :=
  reply_error "Odoo Session Expired"
    (JDict [("name", JStr "odoo.http.SessionExpiredException");
            ("message", JStr "Session expired")]).

Definition call_params (model method : string) (args kwargs : json) : json :=
  JDict [("model", JStr model); ("method", JStr method);
         ("args", args); ("kwargs", kwargs); ("context", JDict [])].

(** A text given by its code points, and the code points of a text. *)
Definition text (codes : list nat) : string :=
  string_of_list_ascii (map ascii_of_nat codes).

Definition codes (s : string) : list nat :=
  map nat_of_ascii (list_ascii_of_string s).

End Fixtures.

(** ** Vocabulary of the statements *)

(** The reply is an error envelope that the test of [_make_request]
    takes for a session expiry. *)
Definition expiry_envelope (body : pydict) : Prop :=
  exists error_data : pydict,
    Py.lookup "error" body = Some (JDict error_data)
    /\ session_expired (Py.get_default "message" error_data (JStr "Unknown error"))
                       (Py.get_default "data" error_data (JDict [])) = Some true.

(** A login reply that opens a session. *)
Definition login_envelope (body session : pydict) : Prop :=
  Py.has_key "error" body = false
  /\ Py.lookup "result" body = Some (JDict session)
  /\ Py.has_key "uid" session = true.


(** The bulk update, told in the words of its description: the entries
    that are kept, their keys in first-seen order, and for each key the
    ids that share it and the values of the first entry that has it. *)
Module BulkSpec.

Import UpdateData.

Definition entry_id (u : pydict) : json := Py.get "id" u.
Definition entry_fields (u : pydict) : pydict := Py.without "id" u.
Definition entry_key (u : pydict) : string := update_key_of (entry_fields u).

(** An entry with an id and at least one field besides. *)
Definition valid_entry (u : pydict) : bool :=
  Py.truthy (entry_id u) && match entry_fields u with [] => false | _ => true end.

(** The distinct keys of a list, each at its first occurrence. *)
Fixpoint first_seen (keys : list string) : list string :=
  match keys with
  | [] => []
  | k :: ks => k :: filter (fun k' => negb (String.eqb k' k)) (first_seen ks)
  end.

Definition has_key_of (k : string) (u : pydict) : bool := String.eqb (entry_key u) k.

Definition ids_with_key (k : string) (entries : list pydict) : list json :=
  map entry_id (filter (has_key_of k) entries).

Definition values_with_key (k : string) (entries : list pydict) : pydict :=
  match find (has_key_of k) entries with
  | Some u => entry_fields u
  | None => []
  end.

Definition group_for (entries : list pydict) (k : string) : group :=
  (k, (values_with_key k entries, ids_with_key k entries)).

Definition groups_of (entries : list pydict) : list group :=
  map (group_for entries) (first_seen (map entry_key entries)).

(** The invocation of [call_kw] that writes a group. *)
Definition write_call (model : string) (g : group) : string * string * json * json :=
  (model, "write", JList [JList (group_ids g); JDict (group_values g)], JDict []).

(** The errors of the entries that are turned away, in order. *)
Definition rejection (u : pydict) : list bulk_error :=
  if negb (Py.truthy (entry_id u)) then [MissingId u]
  else match entry_fields u with
       | [] => [NoFields (entry_id u)]
       | _ => []
       end.

Definition rejected_errors (entries : list pydict) : list bulk_error :=
  flat_map rejection entries.

(** How many records an error of a group stands for, and which. *)
Definition error_ids (e : bulk_error) : option (list json) :=
  match e with
  | ReturnedFalse ids | ErrorUpdating ids _ => Some ids
  | MissingId _ | NoFields _ => None
  end.

Definition error_weight (e : bulk_error) : nat :=
  match error_ids e with
  | Some ids => List.length ids
  | None => 1
  end.

Definition total_ids (groups : list group) : nat :=
  list_sum (map (fun g => List.length (group_ids g)) groups).

(** Three updates of two distinct values, once on a field named [qty]
    and once on the field [quantity] of the rule. *)
Definition qty_updates : list pydict :=
  [[("id", JInt 1); ("qty", JInt 5)];
   [("id", JInt 2); ("qty", JInt 5)];
   [("id", JInt 3); ("qty", JInt 9)]].

Definition quantity_updates : list pydict :=
  [[("id", JInt 1); ("quantity", JInt 5)];
   [("id", JInt 2); ("quantity", JInt 5)];
   [("id", JInt 3); ("quantity", JInt 9)]].

Definition write_of (ids : list Z) (values : pydict) : string * string * json * json :=
  ("stock.move", "write", JList [JList (map JInt ids); JDict values], JDict []).

(** All the ids that the groups carry, group after group. *)
Definition all_ids (groups : list group) : list json :=
  List.concat (map group_ids groups).

(** An answer of the server that is a result envelope with [result]
    the boolean [True]. *)
Definition answers_true (r : response) : Prop :=
  exists body : pydict,
    r = Reply (JDict body)
    /\ Py.has_key "error" body = false
    /\ Py.lookup "result" body = Some (JBool true).

End BulkSpec.

(** The comparison rules of the verification, once as the code applies
    them and once as the description words them. *)
Module VerifySpec.

Import UpdatePickingStatus.

(** [bool(actual) if actual is not None else False]. *)
Definition actual_truth (actual : json) : bool :=
  match actual with JNone => false | _ => Py.truthy actual end.

(** The rule of the code: a boolean expectation against the truth of
    the actual value; otherwise any non-empty list by its first
    element; otherwise plain equality. *)
Definition field_matches (actual expected : json) : bool :=
  match expected with
  | JBool b => Bool.eqb (actual_truth actual) b
  | _ =>
      match actual with
      | JList (first :: _) => Py.eq first expected
      | _ => Py.eq actual expected
      end
  end.

(** The value that the error of a mismatch reports as the actual one. *)
Definition reported_actual (actual expected : json) : json :=
  match expected with
  | JBool _ => JBool (actual_truth actual)
  | _ =>
      match actual with
      | JList (first :: _) => first
      | _ => actual
      end
  end.

(** The rule of the description: a boolean expectation against the
    truth of the actual value; an [[id, label]] pair by its id; every
    other value by plain equality. *)
Definition described_field_matches (actual expected : json) : bool :=
  match expected with
  | JBool b => Bool.eqb (actual_truth actual) b
  | _ =>
      match actual with
      | JList [id; label] => Py.eq id expected
      | _ => Py.eq actual expected
      end
  end.

Definition record_matches (record : json) (expected_fields : pydict) : bool :=
  forallb (fun kv => field_matches (actual_of record (fst kv)) (snd kv)) expected_fields.

(** A picking counts as verified: its record is there and matches. *)
Definition verified_id (records_map : list (json * json)) (expected_fields : pydict)
           (picking_id : Z) : bool :=
  match map_get (JInt picking_id) records_map with
  | Some record => Py.truthy record && record_matches record expected_fields
  | None => false
  end.

(** The [search_read] that the verification posts. *)
Definition verification_request (picking_ids : list Z) (expected_fields : pydict)
  : string * json :=
  ("/web/dataset/call_kw",
   JDict [("model", JStr "stock.picking"); ("method", JStr "search_read");
          ("args", JList [picking_domain picking_ids]);
          ("kwargs", JDict [("fields", JList (map JStr (Py.keys expected_fields)))]);
          ("context", JDict [])]).

End VerifySpec.

(** * Properties *)

(** ** The transport *)

Section Transport.

Variables (endpoint : string) (params : json).

(** A reply without an [error] key: its [result] is returned, and the
    request has been posted once. *)
Lemma make_request_plain (w : world) (body : pydict) (rest : list response) :
  server w = Reply (JDict body) :: rest ->
  Py.has_key "error" body = false ->
  _make_request endpoint params w
  = (Ok (Py.get_default "result" body (JDict [])),
     set_server rest (log_request endpoint params w)).
Proof.
  intros Hsrv Herr. unfold _make_request. rewrite Hsrv.
  cbn [request_on py_in]. rewrite Herr. reflexivity.
Qed.

(** [authenticate] returns [True] or raises: it never returns [False]. *)
Lemma authenticate_with_never_false (mk : string -> json -> M json) (w w' : world) :
  authenticate_with mk w <> (Ok false, w').
Proof.
  unfold authenticate_with, bind.
  destruct (mk _ _ w) as [[r | e] w1]; [| discriminate].
  destruct (Py.truthy r); [| discriminate].
  destruct r as [| b | z | s | l | d]; cbn; try discriminate.
  - destruct (Py.substring_of "uid" s); discriminate.
  - destruct (existsb _ l); discriminate.
  - destruct (Py.has_key "uid" d); discriminate.
Qed.

(** The invocations of [call_kw] are not touched by the transport. *)
Lemma authenticate_with_calls (mk : string -> json -> M json) :
  (forall ep p w, calls (snd (mk ep p w)) = calls w) ->
  forall w, calls (snd (authenticate_with mk w)) = calls w.
Proof.
  intros Hmk w. unfold authenticate_with, bind.
  specialize (Hmk "/web/session/authenticate" (auth_params w) w).
  destruct (mk _ _ w) as [[r | e] w1]; cbn in *; [| exact Hmk].
  destruct (Py.truthy r); [| exact Hmk].
  destruct r as [| b | z | s | l | d]; cbn; try exact Hmk.
  - destruct (Py.substring_of "uid" s); exact Hmk.
  - destruct (existsb _ l); exact Hmk.
  - destruct (Py.has_key "uid" d); exact Hmk.
Qed.

End Transport.

Lemma open_request_calls (ep : string) (p : json) (w : world) :
  calls (snd (open_request ep p w)) = calls w.
Proof.
  unfold open_request. cbn.
  destruct (server w) as [| [body | code |] rest]; reflexivity.
Qed.

Lemma return_result_calls (r : json) (w : world) :
  calls (snd (return_result r w)) = calls w.
Proof. destruct r; reflexivity. Qed.

Lemma retry_request_calls (ep : string) (p : json) (w : world) :
  calls (snd (retry_request ep p w)) = calls w.
Proof.
  unfold retry_request, bind.
  pose proof (open_request_calls ep p w) as Ho.
  destruct (open_request ep p w) as [[r | e] w1]; cbn in *; [| exact Ho].
  destruct (py_in "error" r) as [[|] |]; cbn; try exact Ho.
  - destruct r; try exact Ho.
    destruct (Py.get "error" _); exact Ho.
  - rewrite return_result_calls. exact Ho.
Qed.

Lemma request_on_calls (srv : list response) :
  forall ep p w, calls (snd (request_on srv ep p w)) = calls w.
Proof.
  induction srv as [| r srv' IH]; intros ep p w; [reflexivity |].
  cbn [request_on].
  destruct r as [result | code |]; try reflexivity.
  destruct (py_in "error" result) as [[|] |]; try reflexivity.
  - destruct result; try reflexivity.
    destruct (Py.get "error" _); try reflexivity.
    destruct (session_expired _ _) as [[|] |]; try reflexivity.
    pose proof (authenticate_with_calls (request_on srv') IH
                  (set_server srv' (log_request ep p w))) as Ha.
    destruct (authenticate_with _ _) as [[[|] | e] w2]; cbn in Ha |- *;
      try exact Ha.
    rewrite retry_request_calls. exact Ha.
  - rewrite return_result_calls. reflexivity.
Qed.

Lemma make_request_calls (ep : string) (p : json) (w : world) :
  calls (snd (_make_request ep p w)) = calls w.
Proof. apply request_on_calls. Qed.

(** [call_kw] records its invocation, whatever the transport does. *)
Lemma call_kw_calls (model method : string) (args kwargs : json) (w : world) :
  calls (snd (call_kw model method args kwargs w))
  = calls w ++ [(model, method, args, kwargs)].
Proof.
  unfold call_kw.
  destruct (negb (Py.truthy (uid (log_call model method args kwargs w)))); [reflexivity |].
  rewrite make_request_calls. reflexivity.
Qed.

(** Without a truthy user id [call_kw] raises before anything is sent. *)
Lemma call_kw_not_authenticated (model method : string) (args kwargs : json) (w : world) :
  Py.truthy (uid w) = false ->
  call_kw model method args kwargs w
  = (Raise NotAuthenticated, log_call model method args kwargs w).
Proof. intros H. unfold call_kw. cbn. rewrite H. reflexivity. Qed.

(** With a session and a plain reply, [call_kw] posts one request whose
    [context] is the empty dict and returns the [result] of the reply. *)
Lemma call_kw_plain (model method : string) (args kwargs : json)
      (w : world) (body : pydict) (rest : list response) :
  Py.truthy (uid w) = true ->
  server w = Reply (JDict body) :: rest ->
  Py.has_key "error" body = false ->
  call_kw model method args kwargs w
  = (Ok (Py.get_default "result" body (JDict [])),
     set_server rest
       (log_request "/web/dataset/call_kw" (Fixtures.call_params model method args kwargs)
          (log_call model method args kwargs w))).
Proof.
  intros Hu Hsrv Herr. unfold call_kw. cbn [uid log_call]. rewrite Hu. cbn [negb].
  apply make_request_plain; assumption.
Qed.

(** ** The typed operations of the client *)

(** [v is True] holds for the boolean [True] and for nothing else. *)
Lemma is_True_iff (v : json) : Py.is_True v = true <-> v = JBool true.
Proof.
  split; [| intros ->; reflexivity].
  destruct v as [| [|] | | | |]; cbn; intros H; try discriminate; reflexivity.
Qed.

(** C1.  With a session, and a reply of the server that is a result
    envelope, [write_record] posts one [write] on [[record_id], values]
    and returns [True] exactly when the [result] of the reply is the
    boolean [True]; any other result (an absent one too) gives [False]. *)
Theorem write_record_true_iff_exactly_true
        (model : string) (record_id : Z) (values : pydict)
        (w : world) (body : pydict) (rest : list response) :
  Py.truthy (uid w) = true ->
  server w = Reply (JDict body) :: rest ->
  Py.has_key "error" body = false ->
  exists (b : bool) (w' : world),
    write_record model record_id values w = (Ok b, w')
    /\ (b = true <-> Py.get_default "result" body (JDict []) = JBool true)
    /\ (b = false <-> Py.get_default "result" body (JDict []) <> JBool true)
    /\ sent w' = sent w ++
         [("/web/dataset/call_kw",
           Fixtures.call_params model "write"
             (JList [JList [JInt record_id]; JDict values]) (JDict []))]
    /\ server w' = rest.
Proof.
  intros Hu Hsrv Herr.
  exists (Py.is_True (Py.get_default "result" body (JDict []))).
  eexists. unfold write_record, bind.
  rewrite (call_kw_plain _ _ _ _ w body rest Hu Hsrv Herr).
  split; [reflexivity |].
  split; [apply is_True_iff |].
  split; [| split; reflexivity].
  rewrite <- is_True_iff.
  destruct (Py.is_True _); split; congruence.
Qed.

Lemma write_record_true_iff_exactly_true_witness :
  exists (b : bool) (w' : world),
    write_record "stock.move" 299986 [("quantity", JInt 99)]
      (Fixtures.logged_in [Fixtures.reply_result (JInt 1)]) = (Ok b, w')
    /\ (b = true <->
        Py.get_default "result"
          [("jsonrpc", JStr "2.0"); ("id", JInt 1); ("result", JInt 1)] (JDict [])
        = JBool true)
    /\ (b = false <->
        Py.get_default "result"
          [("jsonrpc", JStr "2.0"); ("id", JInt 1); ("result", JInt 1)] (JDict [])
        <> JBool true)
    /\ sent w' = sent (Fixtures.logged_in [Fixtures.reply_result (JInt 1)]) ++
         [("/web/dataset/call_kw",
           Fixtures.call_params "stock.move" "write"
             (JList [JList [JInt 299986]; JDict [("quantity", JInt 99)]]) (JDict []))]
    /\ server w' = [].
Proof.
  apply (write_record_true_iff_exactly_true "stock.move" 299986 [("quantity", JInt 99)]
           (Fixtures.logged_in [Fixtures.reply_result (JInt 1)])
           [("jsonrpc", JStr "2.0"); ("id", JInt 1); ("result", JInt 1)] []);
    reflexivity.
Defined.

(** The answers the specification singles out: [true], [1], ["true"]. *)
Example write_record_on_true :
  fst (write_record "stock.move" 1 [("quantity", JInt 5)]
         (Fixtures.logged_in [Fixtures.reply_result (JBool true)])) = Ok true.
Proof. vm_compute. reflexivity. Qed.

Example write_record_on_one :
  fst (write_record "stock.move" 1 [("quantity", JInt 5)]
         (Fixtures.logged_in [Fixtures.reply_result (JInt 1)])) = Ok false.
Proof. vm_compute. reflexivity. Qed.

Example write_record_on_string_true :
  fst (write_record "stock.move" 1 [("quantity", JInt 5)]
         (Fixtures.logged_in [Fixtures.reply_result (JStr "true")])) = Ok false.
Proof. vm_compute. reflexivity. Qed.

(** C3.  [read_record], [search_read] and [read_all_records] given an
    empty field list raise the "Fields list is required" error, an
    invalid-argument error, and leave the client as it was: nothing is
    posted, [call_kw] is not even entered. *)
Theorem empty_whitelist_rejected_before_any_request
        (model : string) (record_id : Z) (domain : json) (opt_domain : option json)
        (w : world) :
  read_record model record_id [] w = (Raise FieldsRequired, w)
  /\ search_read model domain [] w = (Raise FieldsRequired, w)
  /\ read_all_records model [] opt_domain w = (Raise FieldsRequired, w)
  /\ kind_of FieldsRequired = InvalidArgumentError.
Proof. repeat split. Qed.

(** C9.  With a session and a non-empty whitelist, [read_record] calls
    [call_kw(model, "read", [[record_id]], {"fields": fields})], the
    [fields] of the request posted being the whitelist as it was given;
    when the server answers with a list, an empty one raises the
    not-found error and any other gives its first record. *)
Theorem read_record_requests_whitelist_and_returns_first
        (model : string) (record_id : Z) (fields : list string)
        (w : world) (body : pydict) (rest : list response) (records : list json) :
  fields <> [] ->
  Py.truthy (uid w) = true ->
  server w = Reply (JDict body) :: rest ->
  Py.has_key "error" body = false ->
  Py.lookup "result" body = Some (JList records) ->
  exists w' : world,
    read_record model record_id fields w
    = (match records with
       | [] => Raise (RecordNotFound record_id model)
       | first :: _ => Ok first
       end, w')
    /\ kind_of (RecordNotFound record_id model) = NotFoundError
    /\ calls w' = calls w ++
         [(model, "read", JList [JList [JInt record_id]],
           JDict [("fields", JList (map JStr fields))])]
    /\ sent w' = sent w ++
         [("/web/dataset/call_kw",
           JDict [("model", JStr model); ("method", JStr "read");
                  ("args", JList [JList [JInt record_id]]);
                  ("kwargs", JDict [("fields", JList (map JStr fields))]);
                  ("context", JDict [])])].
Proof.
  intros Hf Hu Hsrv Herr Hres.
  eexists. unfold read_record.
  destruct fields as [| f fs]; [congruence |].
  unfold bind.
  rewrite (call_kw_plain _ _ _ _ w body rest Hu Hsrv Herr).
  unfold Py.get_default. rewrite Hres.
  split; [destruct records as [| first others]; reflexivity |].
  repeat split; reflexivity.
Qed.

Lemma read_record_requests_whitelist_and_returns_first_witness :
  exists w' : world,
    read_record "stock.picking" 108080 ["name"; "state"]
      (Fixtures.logged_in
         [Fixtures.reply_result
            (JList [JDict [("id", JInt 108080); ("name", JStr "WH/OUT/1");
                           ("state", JStr "done")]])])
    = (Ok (JDict [("id", JInt 108080); ("name", JStr "WH/OUT/1"); ("state", JStr "done")]),
       w')
    /\ kind_of (RecordNotFound 108080 "stock.picking") = NotFoundError
    /\ calls w' =
         [("stock.picking", "read", JList [JList [JInt 108080]],
           JDict [("fields", JList [JStr "name"; JStr "state"])])]
    /\ sent w' =
         [("/web/dataset/call_kw",
           JDict [("model", JStr "stock.picking"); ("method", JStr "read");
                  ("args", JList [JList [JInt 108080]]);
                  ("kwargs", JDict [("fields", JList [JStr "name"; JStr "state"])]);
                  ("context", JDict [])])].
Proof.
  apply (read_record_requests_whitelist_and_returns_first
           "stock.picking" 108080 ["name"; "state"]
           (Fixtures.logged_in
              [Fixtures.reply_result
                 (JList [JDict [("id", JInt 108080); ("name", JStr "WH/OUT/1");
                                ("state", JStr "done")]])])
           [("jsonrpc", JStr "2.0"); ("id", JInt 1);
            ("result", JList [JDict [("id", JInt 108080); ("name", JStr "WH/OUT/1");
                                     ("state", JStr "done")]])]
           []
           [JDict [("id", JInt 108080); ("name", JStr "WH/OUT/1"); ("state", JStr "done")]]);
    try reflexivity.
  discriminate.
Defined.

Example read_record_not_found :
  fst (read_record "stock.picking" 5 ["name"]
         (Fixtures.logged_in [Fixtures.reply_result (JList [])]))
  = Raise (RecordNotFound 5 "stock.picking").
Proof. vm_compute. reflexivity. Qed.

(** ** Sessions *)

(** C10.  A login answered with [{"uid": 0, ...}] makes [authenticate]
    return [True] with user id 0 stored; from then on, for as long as the
    user id stays what it is, [call_kw], [write_record] and, given a
    non-empty whitelist, [read_record] and [search_read] raise the
    not-authenticated error, because [call_kw] tests [not self.uid]. *)
Theorem uid_zero_logs_in_and_locks_out
        (w : world) (body session : pydict) (rest : list response) :
  server w = Reply (JDict body) :: rest ->
  Py.has_key "error" body = false ->
  Py.lookup "result" body = Some (JDict session) ->
  Py.lookup "uid" session = Some (JInt 0) ->
  exists w' : world,
    authenticate w = (Ok true, w')
    /\ uid w' = JInt 0
    /\ kind_of NotAuthenticated = NotAuthenticatedError
    /\ forall w2 : world, uid w2 = uid w' ->
         (forall model method args kwargs,
             call_kw model method args kwargs w2
             = (Raise NotAuthenticated, log_call model method args kwargs w2))
         /\ (forall model record_id values,
                fst (write_record model record_id values w2) = Raise NotAuthenticated)
         /\ (forall model record_id fields, fields <> [] ->
                fst (read_record model record_id fields w2) = Raise NotAuthenticated)
         /\ (forall model domain fields, fields <> [] ->
                fst (search_read model domain fields w2) = Raise NotAuthenticated)
         /\ (forall model method args kwargs,
                uid (snd (call_kw model method args kwargs w2)) = uid w2).
Proof.
  intros Hsrv Herr Hres Huid.
  assert (Hauth : authenticate w
                  = (Ok true, set_session (JInt 0) (Py.get "session_id" session)
                                (set_server rest
                                   (log_request "/web/session/authenticate" (auth_params w) w)))).
  { unfold authenticate, authenticate_with, bind.
    rewrite (make_request_plain _ _ w body rest Hsrv Herr).
    unfold Py.get_default. rewrite Hres.
    destruct session as [| kv session']; [discriminate |].
    cbn [Py.truthy]. unfold Py.has_key, Py.get, Py.get_default.
    rewrite Huid. reflexivity. }
  eexists. split; [exact Hauth |].
  split; [reflexivity |]. split; [reflexivity |].
  intros w2 Hw2. cbn [uid set_session] in Hw2.
  assert (Hfalsy : Py.truthy (uid w2) = false) by (rewrite Hw2; reflexivity).
  assert (Hcall : forall model method args kwargs,
             call_kw model method args kwargs w2
             = (Raise NotAuthenticated, log_call model method args kwargs w2))
    by (intros; apply call_kw_not_authenticated; exact Hfalsy).
  split; [exact Hcall |].
  split; [intros; unfold write_record, bind; rewrite Hcall; reflexivity |].
  split; [| split].
  - intros model record_id fields Hf. unfold read_record, bind.
    destruct fields; [congruence |]. rewrite Hcall. reflexivity.
  - intros model domain fields Hf. unfold search_read, bind.
    destruct fields; [congruence |]. rewrite Hcall. reflexivity.
  - intros. rewrite Hcall. reflexivity.
Qed.

Lemma uid_zero_logs_in_and_locks_out_witness :
  exists w' : world,
    authenticate
      (new_client "18_odoo" "admin" "admin"
         [Fixtures.reply_result (JDict [("uid", JInt 0); ("session_id", JStr "abc")])])
    = (Ok true, w')
    /\ uid w' = JInt 0
    /\ kind_of NotAuthenticated = NotAuthenticatedError
    /\ forall w2 : world, uid w2 = uid w' ->
         (forall model method args kwargs,
             call_kw model method args kwargs w2
             = (Raise NotAuthenticated, log_call model method args kwargs w2))
         /\ (forall model record_id values,
                fst (write_record model record_id values w2) = Raise NotAuthenticated)
         /\ (forall model record_id fields, fields <> [] ->
                fst (read_record model record_id fields w2) = Raise NotAuthenticated)
         /\ (forall model domain fields, fields <> [] ->
                fst (search_read model domain fields w2) = Raise NotAuthenticated)
         /\ (forall model method args kwargs,
                uid (snd (call_kw model method args kwargs w2)) = uid w2).
Proof.
  apply (uid_zero_logs_in_and_locks_out
           (new_client "18_odoo" "admin" "admin"
              [Fixtures.reply_result (JDict [("uid", JInt 0); ("session_id", JStr "abc")])])
           [("jsonrpc", JStr "2.0"); ("id", JInt 1);
            ("result", JDict [("uid", JInt 0); ("session_id", JStr "abc")])]
           [("uid", JInt 0); ("session_id", JStr "abc")] []);
    reflexivity.
Defined.

(** A login answered with a user id that is not falsy opens the session. *)
Example login_then_read :
  fst ((_ <- authenticate ;; read_record "stock.picking" 108080 ["name"])
         (new_client "18_odoo" "admin" "admin"
            [Fixtures.reply_result (JDict [("uid", JInt 2)]);
             Fixtures.reply_result (JList [JDict [("id", JInt 108080)]])]))
  = Ok (JDict [("id", JInt 108080)]).
Proof. vm_compute. reflexivity. Qed.

(** ** The [context] of a call *)

(** What holds of the claim: without a session [call_kw] raises the
    not-authenticated error, and with one the mapping posted has the five
    keys, [context] being the empty dict. *)
Lemma call_kw_posts_empty_context (model method : string) (args kwargs : json)
      (w : world) (body : pydict) (rest : list response) :
  Py.truthy (uid w) = true ->
  server w = Reply (JDict body) :: rest ->
  Py.has_key "error" body = false ->
  sent (snd (call_kw model method args kwargs w))
  = sent w ++
      [("/web/dataset/call_kw",
        JDict [("model", JStr model); ("method", JStr method);
               ("args", args); ("kwargs", kwargs); ("context", JDict [])])].
Proof.
  intros Hu Hsrv Herr. rewrite (call_kw_plain _ _ _ _ w body rest Hu Hsrv Herr).
  reflexivity.
Qed.

(** C7.  [call_kw] has no [context] parameter: a call that passes
    [context=...], as every call of [validate_picking] does, is a
    [TypeError] raised before the body runs, so that nothing reaches the
    transport and [validate_picking] reports failure whatever the server
    would have answered. *)
Theorem call_kw_rejects_caller_context
        (model method : string) (args kwargs context : json)
        (picking_id : Z) (skip_sms cancel_backorder : bool) (w : world) :
  call_kw_keywords model method args kwargs (Some context) w = (Raise PyTypeError, w)
  /\ ValidatePicking.validate_picking picking_id skip_sms cancel_backorder w
     = (Ok (ValidatePicking.mkValidation false picking_id (Raise PyTypeError)
              [("skip_sms", JBool skip_sms); ("cancel_backorder", JBool cancel_backorder)]),
        w).
Proof. split; reflexivity. Qed.

Example validate_picking_never_reaches_the_server :
  ValidatePicking.validate_picking 108080 true true
    (Fixtures.logged_in [Fixtures.reply_result (JBool true)])
  = (Ok (ValidatePicking.mkValidation false 108080 (Raise PyTypeError)
           [("skip_sms", JBool true); ("cancel_backorder", JBool true)]),
     Fixtures.logged_in [Fixtures.reply_result (JBool true)]).
Proof. reflexivity. Qed.

(** ** Session expiry *)

Section SessionExpiry.

Variables (endpoint : string) (params : json).

(** On such a reply [_make_request] runs [authenticate] on what the
    server answers next, then retries once or lets the exception of
    [authenticate] through. *)
Lemma make_request_on_expiry (w : world) (body : pydict) (rest : list response) :
  server w = Reply (JDict body) :: rest ->
  expiry_envelope body ->
  _make_request endpoint params w
  = match authenticate (set_server rest (log_request endpoint params w)) with
    | (Ok _, w2) => retry_request endpoint params w2
    | (Raise e, w2) => (Raise e, w2)
    end.
Proof.
  intros Hsrv (error_data & Herr & Hexp).
  unfold _make_request. rewrite Hsrv. cbn [request_on py_in].
  unfold Py.has_key, Py.get, Py.get_default in *. rewrite Herr.
  cbn match. rewrite Hexp.
  change (authenticate_with (request_on rest)
            (set_server rest (log_request endpoint params w)))
    with (authenticate (set_server rest (log_request endpoint params w))).
  pose proof (authenticate_with_never_false _make_request
                (set_server rest (log_request endpoint params w))) as Hnf.
  fold authenticate in Hnf.
  destruct (authenticate _) as [[[|] | e] w2]; try reflexivity.
  exfalso. exact (Hnf w2 eq_refl).
Qed.

Lemma authenticate_on_login (w : world) (body session : pydict) (rest : list response) :
  server w = Reply (JDict body) :: rest ->
  login_envelope body session ->
  authenticate w
  = (Ok true,
     set_session (Py.get "uid" session) (Py.get "session_id" session)
       (set_server rest (log_request "/web/session/authenticate" (auth_params w) w))).
Proof.
  intros Hsrv (Herr & Hres & Huid).
  unfold authenticate, authenticate_with, bind.
  rewrite (make_request_plain _ _ w body rest Hsrv Herr).
  unfold Py.get_default. rewrite Hres.
  destruct session as [| kv session']; [discriminate |].
  cbn [Py.truthy]. rewrite Huid. reflexivity.
Qed.

(** Expiry, a login that succeeds, a retry that succeeds: the result of
    the retry is returned, and three requests have been posted: the
    request, one login, the request again. *)
Lemma expiry_login_retry_succeeds
      (w : world) (expired login session retried : pydict) (rest : list response) :
  server w = Reply (JDict expired) :: Reply (JDict login) :: Reply (JDict retried) :: rest ->
  expiry_envelope expired ->
  login_envelope login session ->
  Py.has_key "error" retried = false ->
  exists w' : world,
    _make_request endpoint params w
    = (Ok (Py.get_default "result" retried (JDict [])), w')
    /\ sent w' = sent w ++ [(endpoint, params);
                            ("/web/session/authenticate", auth_params w);
                            (endpoint, params)]
    /\ server w' = rest
    /\ uid w' = Py.get "uid" session.
Proof.
  intros Hsrv Hexp Hlogin Hret.
  rewrite (make_request_on_expiry w expired _ Hsrv Hexp).
  rewrite (authenticate_on_login
             (set_server (Reply (JDict login) :: Reply (JDict retried) :: rest)
                (log_request endpoint params w))
             login session (Reply (JDict retried) :: rest) eq_refl Hlogin).
  unfold retry_request, bind, open_request. cbn [server set_session set_server log_request].
  cbn [py_in]. rewrite Hret. cbn [return_result ret].
  eexists. split; [reflexivity |].
  repeat split. cbn. rewrite <- !app_assoc. reflexivity.
Qed.

(** Expiry, a login that succeeds, a retry answered with an error
    envelope (a second expiry too): the error "after re-auth" is raised,
    with no further login and no further retry. *)
Lemma expiry_login_retry_fails
      (w : world) (expired login session retried error_data : pydict)
      (rest : list response) :
  server w = Reply (JDict expired) :: Reply (JDict login) :: Reply (JDict retried) :: rest ->
  expiry_envelope expired ->
  login_envelope login session ->
  Py.lookup "error" retried = Some (JDict error_data) ->
  exists w' : world,
    _make_request endpoint params w
    = (Raise (JsonRpcErrorAfterReauth
                (Py.get_default "message" error_data (JStr "Unknown error"))
                (Py.get_default "data" error_data (JDict []))), w')
    /\ sent w' = sent w ++ [(endpoint, params);
                            ("/web/session/authenticate", auth_params w);
                            (endpoint, params)]
    /\ server w' = rest.
Proof.
  intros Hsrv Hexp Hlogin Hret.
  rewrite (make_request_on_expiry w expired _ Hsrv Hexp).
  rewrite (authenticate_on_login
             (set_server (Reply (JDict login) :: Reply (JDict retried) :: rest)
                (log_request endpoint params w))
             login session (Reply (JDict retried) :: rest) eq_refl Hlogin).
  unfold retry_request, bind, open_request. cbn [server set_session set_server log_request].
  cbn [py_in]. unfold Py.has_key, Py.get, Py.get_default. rewrite Hret.
  eexists. split; [reflexivity |].
  repeat split. cbn. rewrite <- !app_assoc. reflexivity.
Qed.

(** The branch [raise ValueError(f"... - Failed to re-authenticate")] is
    never taken: no request ever ends with that error. *)
Lemma authenticate_with_not_reauth_error (mk : string -> json -> M json) :
  (forall ep p w m, fst (mk ep p w) <> Raise (FailedToReauthenticate m)) ->
  forall w (b : result bool) w' m,
    authenticate_with mk w = (b, w') -> b <> Raise (FailedToReauthenticate m).
Proof.
  intros Hmk w b w' m. unfold authenticate_with, bind.
  specialize (Hmk "/web/session/authenticate" (auth_params w) w m).
  destruct (mk _ _ w) as [[r | e] w1]; cbn [fst] in Hmk.
  - destruct (Py.truthy r); [| intros [= <- _]; discriminate].
    destruct r as [| x | z | s | l | d]; cbn;
      try (intros [= <- _]; discriminate).
    + destruct (Py.substring_of "uid" s); intros [= <- _]; discriminate.
    + destruct (existsb _ l); intros [= <- _]; discriminate.
    + destruct (Py.has_key "uid" d); intros [= <- _]; discriminate.
  - intros [= <- _]. intros [= He]. apply Hmk. rewrite He. reflexivity.
Qed.

Lemma retry_request_not_reauth_error (ep : string) (p : json) (w : world) (m : json) :
  fst (retry_request ep p w) <> Raise (FailedToReauthenticate m).
Proof.
  unfold retry_request, bind, open_request.
  destruct (server (log_request ep p w)) as [| [body | code |] rest];
    try discriminate.
  destruct (py_in "error" body) as [[|] |]; try discriminate.
  - destruct body; try discriminate.
    destruct (Py.get "error" _); discriminate.
  - destruct body; discriminate.
Qed.

Lemma failed_to_reauthenticate_unreachable (srv : list response) :
  forall (ep : string) (p : json) (w : world) (error_msg : json),
    fst (request_on srv ep p w) <> Raise (FailedToReauthenticate error_msg).
Proof.
  induction srv as [| r srv' IH]; intros ep p w m; [discriminate |].
  cbn [request_on].
  destruct r as [result | code |]; try discriminate.
  destruct (py_in "error" result) as [[|] |]; try discriminate.
  - destruct result; try discriminate.
    destruct (Py.get "error" _); try discriminate.
    destruct (session_expired _ _) as [[|] |]; try discriminate.
    pose proof (authenticate_with_never_false (request_on srv')
                  (set_server srv' (log_request ep p w))) as Hnf.
    pose proof (authenticate_with_not_reauth_error (request_on srv') IH
                  (set_server srv' (log_request ep p w))) as Hne.
    destruct (authenticate_with (request_on srv') _) as [[[|] | e] w2].
    + apply retry_request_not_reauth_error.
    + exfalso. exact (Hnf w2 eq_refl).
    + cbn [fst]. intros [= He]. apply (Hne _ _ m eq_refl). rewrite He. reflexivity.
  - destruct result; discriminate.
Qed.

End SessionExpiry.

(** C2.  A request answered with a session expiry, whose login is then
    refused by the server ("Access Denied") or answered without a user
    id: the request and one login are posted, there is no retry, and the
    exception that comes out is the one of the login itself, an ordinary
    remote error (the very one a refused request raises with no expiry at
    all) or the "No UID returned" error.  Neither says that a
    re-authentication failed: the error written for that case is never
    raised ([failed_to_reauthenticate_unreachable]). *)
Theorem reauthentication_failure_is_not_reported
        (model method : string) (args kwargs : json) :
  let refused := Fixtures.reply_error "Access Denied" (JDict []) in
  let no_uid := Fixtures.reply_result (JDict [("session_id", JStr "abc")]) in
  let posted :=
    [("/web/dataset/call_kw", Fixtures.call_params model method args kwargs);
     ("/web/session/authenticate",
      JDict [("db", JStr "18_odoo"); ("login", JStr "admin"); ("password", JStr "admin")])] in
  (exists w',
      call_kw model method args kwargs
        (Fixtures.logged_in [Fixtures.session_expired_reply; refused])
      = (Raise (JsonRpcError (JStr "Access Denied") (JDict [])), w')
      /\ sent w' = posted)
  /\ fst (call_kw model method args kwargs (Fixtures.logged_in [refused]))
     = Raise (JsonRpcError (JStr "Access Denied") (JDict []))
  /\ (exists w',
         call_kw model method args kwargs
           (Fixtures.logged_in [Fixtures.session_expired_reply; no_uid])
         = (Raise AuthenticationFailed, w')
         /\ sent w' = posted)
  /\ forall w error_msg,
       fst (call_kw model method args kwargs w) <> Raise (FailedToReauthenticate error_msg).
Proof.
  cbv zeta. split; [| split; [| split]].
  - eexists. split; vm_compute; reflexivity.
  - vm_compute. reflexivity.
  - eexists. split; vm_compute; reflexivity.
  - intros w m. unfold call_kw.
    destruct (negb _); [discriminate |].
    apply failed_to_reauthenticate_unreachable.
Qed.

(** What the code does keep of the claim, on concrete servers. *)
Example expiry_then_retry_succeeds :
  let w := Fixtures.logged_in
             [Fixtures.session_expired_reply;
              Fixtures.reply_result (JDict [("uid", JInt 2)]);
              Fixtures.reply_result (JBool true)] in
  fst (call_kw "stock.move" "write" (JList []) (JDict []) w) = Ok (JBool true)
  /\ map fst (sent (snd (call_kw "stock.move" "write" (JList []) (JDict []) w)))
     = ["/web/dataset/call_kw"; "/web/session/authenticate"; "/web/dataset/call_kw"].
Proof. split; vm_compute; reflexivity. Qed.

Example expiry_then_retry_expired_again :
  let w := Fixtures.logged_in
             [Fixtures.session_expired_reply;
              Fixtures.reply_result (JDict [("uid", JInt 2)]);
              Fixtures.session_expired_reply;
              Fixtures.reply_result (JDict [("uid", JInt 2)]);
              Fixtures.reply_result (JBool true)] in
  kind_of_result (fst (call_kw "stock.move" "write" (JList []) (JDict []) w))
  = Some RemoteError
  /\ map fst (sent (snd (call_kw "stock.move" "write" (JList []) (JDict []) w)))
     = ["/web/dataset/call_kw"; "/web/session/authenticate"; "/web/dataset/call_kw"].
Proof. split; vm_compute; reflexivity. Qed.

(** A login that is itself answered with a session expiry runs
    [authenticate] again from inside [authenticate]: for one request,
    [authenticate] runs three times and five logins are posted. *)
Example expiry_of_the_login_logs_in_again :
  let w := Fixtures.logged_in
             [Fixtures.session_expired_reply;
              Fixtures.session_expired_reply;
              Fixtures.session_expired_reply;
              Fixtures.reply_result (JDict [("uid", JInt 2)]);
              Fixtures.reply_result (JDict [("uid", JInt 2)]);
              Fixtures.reply_result (JDict [("uid", JInt 2)]);
              Fixtures.reply_result (JBool true)] in
  fst (call_kw "stock.move" "write" (JList []) (JDict []) w) = Ok (JBool true)
  /\ map fst (sent (snd (call_kw "stock.move" "write" (JList []) (JDict []) w)))
     = ["/web/dataset/call_kw";
        "/web/session/authenticate"; "/web/session/authenticate";
        "/web/session/authenticate"; "/web/session/authenticate";
        "/web/session/authenticate"; "/web/dataset/call_kw"].
Proof. split; vm_compute; reflexivity. Qed.

(** ** Bulk update: grouping *)

Module BulkFacts.

Import UpdateData BulkSpec.

Lemma in_first_seen (k : string) (ks : list string) :
  In k (first_seen ks) <-> In k ks.
Proof.
  induction ks as [| a ks IH]; cbn [first_seen]; [tauto |].
  split.
  - intros [-> | H]; [left; reflexivity |].
    apply filter_In in H. right. apply IH, H.
  - intros [-> | H]; [left; reflexivity |].
    destruct (String.eqb_spec k a) as [-> | Hne]; [left; reflexivity |].
    right. apply filter_In. split; [apply IH, H |].
    apply negb_true_iff, String.eqb_neq, Hne.
Qed.

Lemma NoDup_first_seen (ks : list string) : NoDup (first_seen ks).
Proof.
  induction ks as [| a ks IH]; cbn [first_seen]; constructor.
  - intros H. apply filter_In in H. destruct H as [_ H].
    rewrite String.eqb_refl in H. discriminate.
  - apply NoDup_filter, IH.
Qed.

Lemma first_seen_snoc_new (k : string) (ks : list string) :
  ~ In k ks -> first_seen (ks ++ [k]) = first_seen ks ++ [k].
Proof.
  induction ks as [| a ks IH]; intros Hn; [reflexivity |].
  cbn [app first_seen]. rewrite IH by (intros H; apply Hn; right; exact H).
  rewrite filter_app. cbn [filter].
  destruct (String.eqb_spec k a) as [-> | Hne]; [exfalso; apply Hn; left; reflexivity |].
  reflexivity.
Qed.

Lemma first_seen_snoc_old (k : string) (ks : list string) :
  In k ks -> first_seen (ks ++ [k]) = first_seen ks.
Proof.
  induction ks as [| a ks IH]; intros Hin; [destruct Hin |].
  cbn [app first_seen]. f_equal.
  destruct (in_dec string_dec k ks) as [Hk | Hk].
  - rewrite IH by exact Hk. reflexivity.
  - destruct Hin as [-> | Hin]; [| contradiction].
    rewrite first_seen_snoc_new by exact Hk.
    rewrite filter_app. cbn [filter]. rewrite String.eqb_refl. cbn [negb].
    apply app_nil_r.
Qed.

Lemma find_app_found {A : Type} (p : A -> bool) (l l' : list A) :
  (exists x, In x l /\ p x = true) -> find p (l ++ l') = find p l.
Proof.
  induction l as [| a l IH]; intros (x & Hin & Hp); [destruct Hin |].
  cbn [app find]. destruct (p a) eqn:Hpa; [reflexivity |].
  apply IH. destruct Hin as [-> | Hin]; [congruence |]. exists x. tauto.
Qed.

Lemma find_app_missing {A : Type} (p : A -> bool) (l l' : list A) :
  (forall x, In x l -> p x = false) -> find p (l ++ l') = find p l'.
Proof.
  induction l as [| a l IH]; intros H; [reflexivity |].
  cbn [app find]. rewrite (H a (or_introl eq_refl)).
  apply IH. intros x Hx. apply H. right. exact Hx.
Qed.

Lemma key_among (k : string) (entries : list pydict) :
  In k (map entry_key entries) <-> exists u, In u entries /\ has_key_of k u = true.
Proof.
  unfold has_key_of. rewrite in_map_iff. split.
  - intros (u & <- & Hin). exists u. split; [exact Hin | apply String.eqb_refl].
  - intros (u & Hin & Hk). exists u. split; [apply String.eqb_eq, Hk | exact Hin].
Qed.

Lemma key_not_among (k : string) (entries : list pydict) :
  ~ In k (map entry_key entries) -> forall u, In u entries -> has_key_of k u = false.
Proof.
  intros Hn u Hin. destruct (has_key_of k u) eqn:Hk; [| reflexivity].
  exfalso. apply Hn, key_among. exists u. tauto.
Qed.

Lemma ids_with_key_snoc (k : string) (entries : list pydict) (u : pydict) :
  ids_with_key k (entries ++ [u])
  = ids_with_key k entries ++ (if has_key_of k u then [entry_id u] else []).
Proof.
  unfold ids_with_key. rewrite filter_app, map_app. cbn [filter].
  destruct (has_key_of k u); reflexivity.
Qed.

Lemma ids_with_key_missing (k : string) (entries : list pydict) :
  ~ In k (map entry_key entries) -> ids_with_key k entries = [].
Proof.
  intros Hn. unfold ids_with_key.
  induction entries as [| a entries IH]; [reflexivity |].
  cbn [filter]. rewrite (key_not_among k _ Hn a (or_introl eq_refl)).
  apply IH. intros H. apply Hn. right. exact H.
Qed.

Lemma values_with_key_snoc_old (k : string) (entries : list pydict) (u : pydict) :
  In k (map entry_key entries) ->
  values_with_key k (entries ++ [u]) = values_with_key k entries.
Proof.
  intros Hin. unfold values_with_key.
  rewrite find_app_found by (apply key_among, Hin). reflexivity.
Qed.

Lemma values_with_key_snoc_new (entries : list pydict) (u : pydict) :
  ~ In (entry_key u) (map entry_key entries) ->
  values_with_key (entry_key u) (entries ++ [u]) = entry_fields u.
Proof.
  intros Hn. unfold values_with_key.
  rewrite find_app_missing by (apply key_not_among, Hn).
  cbn [find]. unfold has_key_of. rewrite String.eqb_refl. reflexivity.
Qed.

(** [append_id] on groups that are listed by distinct keys. *)
Lemma append_id_map (k : string) (i : json) (V : string -> pydict)
      (I : string -> list json) (ks : list string) :
  NoDup ks ->
  append_id k i (map (fun x => (x, (V x, I x))) ks)
  = map (fun x => (x, (V x, if String.eqb k x then I x ++ [i] else I x))) ks.
Proof.
  induction ks as [| a ks IH]; intros Hnd; [reflexivity |].
  inversion Hnd as [| ? ? Hna Hnd']; subst.
  cbn [map append_id group_key group_values group_ids fst snd].
  destruct (String.eqb_spec k a) as [-> | Hne].
  - f_equal. apply map_ext_in. intros x Hx.
    destruct (String.eqb_spec a x) as [-> | _]; [contradiction | reflexivity].
  - f_equal. apply IH, Hnd'.
Qed.

Lemma append_id_fresh (k : string) (i : json) (f : pydict) (l : list json)
      (groups : list group) :
  (forall g, In g groups -> group_key g <> k) ->
  append_id k i (groups ++ [(k, (f, l))]) = groups ++ [(k, (f, l ++ [i]))].
Proof.
  induction groups as [| g groups IH]; intros H.
  - cbn. rewrite String.eqb_refl. reflexivity.
  - cbn [app append_id].
    destruct (String.eqb_spec k (group_key g)) as [Heq | _].
    + exfalso. apply (H g (or_introl eq_refl)). symmetry. exact Heq.
    + f_equal. apply IH. intros g' Hg'. apply H. right. exact Hg'.
Qed.

Lemma group_keys_of (entries : list pydict) :
  map group_key (groups_of entries) = first_seen (map entry_key entries).
Proof.
  unfold groups_of. rewrite map_map. cbn. apply map_id.
Qed.

Lemma has_group_groups_of (k : string) (entries : list pydict) :
  has_group k (groups_of entries) = true <-> In k (map entry_key entries).
Proof.
  unfold has_group. rewrite existsb_exists. rewrite <- in_first_seen.
  rewrite <- group_keys_of, in_map_iff. split.
  - intros (g & Hin & Hk). exists g. apply String.eqb_eq in Hk. split; congruence.
  - intros (g & Hk & Hin). exists g. split; [exact Hin |].
    rewrite Hk. apply String.eqb_refl.
Qed.

(** The groups after one more valid entry. *)
Lemma groups_of_snoc (entries : list pydict) (u : pydict) :
  groups_of (entries ++ [u])
  = append_id (entry_key u) (entry_id u)
      (if has_group (entry_key u) (groups_of entries) then groups_of entries
       else groups_of entries ++ [(entry_key u, (entry_fields u, []))]).
Proof.
  destruct (has_group (entry_key u) (groups_of entries)) eqn:Hg.
  - apply has_group_groups_of in Hg.
    unfold groups_of at 1. rewrite map_app. cbn [map].
    rewrite (first_seen_snoc_old _ _ Hg).
    unfold groups_of, group_for.
    rewrite append_id_map by apply NoDup_first_seen.
    apply map_ext_in. intros x Hx. rewrite in_first_seen in Hx.
    rewrite (values_with_key_snoc_old _ _ _ Hx), ids_with_key_snoc.
    unfold has_key_of.
    destruct (String.eqb (entry_key u) x); [reflexivity |].
    rewrite app_nil_r. reflexivity.
  - assert (Hn : ~ In (entry_key u) (map entry_key entries)).
    { intros H. apply has_group_groups_of in H. congruence. }
    rewrite append_id_fresh.
    + unfold groups_of at 1. rewrite map_app. cbn [map].
      rewrite (first_seen_snoc_new _ _ Hn), map_app. cbn [map].
      f_equal.
      * unfold groups_of. apply map_ext_in. intros x Hx. rewrite in_first_seen in Hx.
        unfold group_for.
        rewrite (values_with_key_snoc_old _ _ _ Hx), ids_with_key_snoc.
        unfold has_key_of.
        destruct (String.eqb_spec (entry_key u) x) as [<- | _]; [contradiction |].
        rewrite app_nil_r. reflexivity.
      * unfold group_for.
        rewrite (values_with_key_snoc_new _ _ Hn), ids_with_key_snoc.
        rewrite (ids_with_key_missing _ _ Hn).
        unfold has_key_of. rewrite String.eqb_refl. reflexivity.
    + intros g Hin Hk. apply Hn. rewrite <- Hk.
      rewrite <- in_first_seen, <- group_keys_of. apply in_map, Hin.
Qed.

(** What the first loop leaves in [value_groups]. *)
Lemma group_step_groups (res : results) (groups : list group) (u : pydict) :
  snd (group_step (res, groups) u)
  = if valid_entry u
    then append_id (entry_key u) (entry_id u)
           (if has_group (entry_key u) groups then groups
            else groups ++ [(entry_key u, (entry_fields u, []))])
    else groups.
Proof.
  unfold group_step, valid_entry, entry_key, entry_id, entry_fields.
  destruct (Py.truthy (Py.get "id" u)); cbn [negb andb]; [| reflexivity].
  destruct (Py.without "id" u); reflexivity.
Qed.

Lemma group_step_results (res : results) (groups : list group) (u : pydict) :
  fst (group_step (res, groups) u)
  = match rejection u with
    | e :: _ => fail e 1 res
    | [] => res
    end.
Proof.
  unfold group_step, rejection, entry_id, entry_fields.
  destruct (Py.truthy (Py.get "id" u)); cbn [negb]; [| reflexivity].
  destruct (Py.without "id" u); reflexivity.
Qed.

Lemma first_loop_groups (l : list pydict) (res : results) :
  snd (fold_left group_step l (res, [])) = groups_of (filter valid_entry l).
Proof.
  induction l as [| u l IH] using rev_ind; [reflexivity |].
  rewrite fold_left_app. cbn [fold_left].
  destruct (fold_left group_step l (res, [])) as [r groups]. cbn [snd] in IH.
  rewrite group_step_groups, filter_app. cbn [filter].
  destruct (valid_entry u).
  - rewrite groups_of_snoc, IH. reflexivity.
  - rewrite app_nil_r. exact IH.
Qed.

(** An entry is turned away exactly when it is not valid. *)
Lemma rejection_valid (u : pydict) :
  List.length (rejection u) + (if valid_entry u then 1 else 0) = 1.
Proof.
  unfold rejection, valid_entry.
  destruct (Py.truthy (entry_id u)); cbn [negb andb]; [| reflexivity].
  destruct (entry_fields u); reflexivity.
Qed.

Lemma rejected_plus_valid (l : list pydict) :
  List.length (rejected_errors l) + List.length (filter valid_entry l) = List.length l.
Proof.
  induction l as [| u l IH]; [reflexivity |].
  unfold rejected_errors in *. cbn [flat_map filter]. rewrite length_app.
  pose proof (rejection_valid u) as Hu.
  destruct (valid_entry u); cbn [List.length]; lia.
Qed.

(** What the first loop leaves in [results]. *)
Lemma first_loop_results (l : list pydict) :
  forall (res : results) (groups : list group),
    let res' := fst (fold_left group_step l (res, groups)) in
    updated res' = updated res
    /\ failed res' = failed res + List.length (rejected_errors l)
    /\ errors_of res' = errors_of res ++ rejected_errors l
    /\ success res' = success res
    /\ message res' = message res.
Proof.
  induction l as [| u l IH]; intros res groups.
  - cbn. rewrite app_nil_r. repeat split; lia.
  - cbn [fold_left]. cbv zeta.
    pose proof (group_step_results res groups u) as Hr.
    destruct (group_step (res, groups) u) as [res1 groups1]. cbn [fst] in Hr.
    specialize (IH res1 groups1). cbv zeta in IH.
    destruct IH as (Hu & Hf & He & Hs & Hm).
    rewrite Hu, Hf, He, Hs, Hm, Hr.
    unfold rejected_errors. cbn [flat_map]. rewrite length_app.
    unfold rejection.
    destruct (negb (Py.truthy (entry_id u))).
    + cbn. rewrite <- app_assoc. repeat split; lia.
    + destruct (entry_fields u).
      * cbn. rewrite <- app_assoc. repeat split; lia.
      * cbn. repeat split; lia.
Qed.

Lemma total_ids_app (g1 g2 : list group) :
  total_ids (g1 ++ g2) = total_ids g1 + total_ids g2.
Proof. unfold total_ids. rewrite map_app, list_sum_app. reflexivity. Qed.

Lemma total_ids_cons (g : group) (groups : list group) :
  total_ids (g :: groups) = List.length (group_ids g) + total_ids groups.
Proof. reflexivity. Qed.

Lemma total_ids_append_id (k : string) (i : json) (groups : list group) :
  has_group k groups = true ->
  total_ids (append_id k i groups) = S (total_ids groups).
Proof.
  induction groups as [| g groups IH]; intros H; [discriminate |].
  unfold has_group in H. cbn [existsb] in H. cbn [append_id].
  destruct (String.eqb k (group_key g)).
  - rewrite !total_ids_cons. cbn [group_ids snd]. rewrite length_app. cbn. lia.
  - cbn [orb] in H. rewrite !total_ids_cons, (IH H). lia.
Qed.

(** Every valid entry sits in exactly one group. *)
Lemma total_ids_groups_of (entries : list pydict) :
  total_ids (groups_of entries) = List.length entries.
Proof.
  induction entries as [| u entries IH] using rev_ind; [reflexivity |].
  rewrite groups_of_snoc, length_app. cbn [List.length].
  destruct (has_group (entry_key u) (groups_of entries)) eqn:Hg.
  - rewrite (total_ids_append_id _ _ _ Hg). lia.
  - rewrite total_ids_append_id.
    + rewrite total_ids_app, total_ids_cons. cbn. lia.
    + unfold has_group. rewrite existsb_app. cbn.
      rewrite String.eqb_refl. apply orb_true_r.
Qed.

(** One turn of the second loop: the group is written, and whatever
    comes back the loop goes on. *)
Lemma write_group_spec (model : string) (res : results) (g : group) (w : world) :
  exists (res' : results) (w' : world),
    write_group model res g w = (Ok res', w')
    /\ calls w' = calls w ++ [write_call model g]
    /\ (fst (call_kw model "write" (JList [JList (group_ids g); JDict (group_values g)])
               (JDict []) w) = Ok (JBool true) ->
        res' = succeed (List.length (group_ids g)) res)
    /\ (fst (call_kw model "write" (JList [JList (group_ids g); JDict (group_values g)])
               (JDict []) w) <> Ok (JBool true) ->
        exists e, res' = fail e (List.length (group_ids g)) res
                  /\ error_ids e = Some (group_ids g)).
Proof.
  unfold write_group, try_except, bind.
  pose proof (call_kw_calls model "write"
                (JList [JList (group_ids g); JDict (group_values g)]) (JDict []) w) as Hc.
  destruct (call_kw model "write" _ _ w) as [[v | e] w1]; cbn [fst snd] in *.
  - unfold ret. do 2 eexists. split; [reflexivity |]. split; [exact Hc |].
    split.
    + intros [= ->]. reflexivity.
    + intros Hv. destruct (Py.is_True v) eqn:Ht.
      * apply is_True_iff in Ht. congruence.
      * eexists. split; reflexivity.
  - unfold ret. do 2 eexists. split; [reflexivity |]. split; [exact Hc |].
    split; [discriminate |]. intros _. eexists. split; reflexivity.
Qed.

(** The second loop as a whole. *)
Lemma write_groups_spec (model : string) (groups : list group) :
  forall (res : results) (w : world),
  exists (res' : results) (w' : world) (group_errors : list bulk_error),
    write_groups model groups res w = (Ok res', w')
    /\ calls w' = calls w ++ map (write_call model) groups
    /\ updated res' + failed res' = updated res + failed res + total_ids groups
    /\ errors_of res' = errors_of res ++ group_errors
    /\ failed res' = failed res + list_sum (map error_weight group_errors)
    /\ Forall (fun e => exists g, In g groups /\ error_ids e = Some (group_ids g))
              group_errors.
Proof.
  induction groups as [| g groups IH]; intros res w.
  - exists res, w, []. cbn. rewrite !app_nil_r. repeat split; try lia. constructor.
  - cbn [write_groups]. unfold bind.
    destruct (write_group_spec model res g w) as (res1 & w1 & Hrun & Hc1 & Hok & Hko).
    rewrite Hrun.
    destruct (IH res1 w1) as (res' & w' & errs & Hrun' & Hc' & Hsum & Herrs & Hfail & Hall).
    assert (Hcase :
              (res1 = succeed (List.length (group_ids g)) res)
              \/ (exists e, res1 = fail e (List.length (group_ids g)) res
                            /\ error_ids e = Some (group_ids g))).
    { destruct (call_kw model "write" _ _ w) as [[v | e] w0] eqn:Hcall; cbn [fst] in *.
      - destruct v as [| [|] | | | |];
          try (right; apply Hko; discriminate).
        left. apply Hok. reflexivity.
      - right. apply Hko. discriminate. }
    assert (Hforall : forall errs0,
               Forall (fun e => exists g0, In g0 groups /\ error_ids e = Some (group_ids g0)) errs0 ->
               Forall (fun e => exists g0, In g0 (g :: groups)
                                           /\ error_ids e = Some (group_ids g0)) errs0).
    { intros errs0 H. eapply Forall_impl; [| exact H].
      intros e (g0 & Hin & He). exists g0. split; [right; exact Hin | exact He]. }
    destruct Hcase as [-> | (e & -> & He)].
    + exists res', w', errs. split; [exact Hrun' |].
      split; [rewrite Hc', Hc1, <- app_assoc; reflexivity |].
      rewrite total_ids_cons.
      cbn [updated failed succeed errors_of errors] in *.
      repeat split; try lia; try assumption. apply Hforall, Hall.
    + exists res', w', (e :: errs). split; [exact Hrun' |].
      split; [rewrite Hc', Hc1, <- app_assoc; reflexivity |].
      assert (Hw : error_weight e = List.length (group_ids g))
        by (unfold error_weight; rewrite He; reflexivity).
      rewrite total_ids_cons.
      cbn [updated failed fail errors_of errors] in *.
      cbn [map]. rewrite Hw.
      change (list_sum (List.length (group_ids g) :: map error_weight errs))
        with (List.length (group_ids g) + list_sum (map error_weight errs)).
      split; [lia |].
      split; [rewrite Herrs, <- app_assoc; reflexivity |].
      split; [lia |].
      constructor; [exists g; split; [left; reflexivity | exact He] | apply Hforall, Hall].
Qed.

End BulkFacts.

(** ** Bulk update: the whole run *)

Section BulkUpdate.

Import UpdateData BulkSpec BulkFacts.

Variable model : string.

Lemma bulk_update_records_nonempty (updates : list pydict) :
  updates <> [] ->
  bulk_update_records model updates
  = let '(res, value_groups) :=
      fold_left group_step (normalize_updates updates model) (initial_results, []) in
    (res <- write_groups model value_groups res ;;
     ret (if Nat.ltb 0 (failed res)
          then mkResults false (message res) (updated res) (failed res) (errors res)
          else res)).
Proof. destruct updates; [congruence | reflexivity]. Qed.

(** [bulk_update_records] never raises; it calls [write] once for each
    group, in order, whatever the earlier calls gave, and every entry
    ends up counted once, as updated or as failed. *)
Lemma bulk_update_run (updates : list pydict) (w : world) :
  let normalized := normalize_updates updates model in
  let groups := groups_of (filter valid_entry normalized) in
  exists (res : results) (w' : world) (group_errors : list bulk_error),
    bulk_update_records model updates w = (Ok res, w')
    /\ calls w' = calls w ++ map (write_call model) groups
    /\ updated res + failed res = List.length updates
    /\ errors_of res = rejected_errors normalized ++ group_errors
    /\ failed res
       = List.length (rejected_errors normalized) + list_sum (map error_weight group_errors)
    /\ Forall (fun e => exists g, In g groups /\ error_ids e = Some (group_ids g))
              group_errors.
Proof.
  cbv zeta.
  assert (Hcase : updates = [] \/ updates <> [])
    by (destruct updates; [left; reflexivity | right; discriminate]).
  destruct Hcase as [-> | Hne].
  - exists (mkResults false (Some "No records to update") 0 0 None), w, [].
    cbn. rewrite app_nil_r. repeat split. constructor.
  - rewrite (bulk_update_records_nonempty updates Hne).
    pose proof (first_loop_groups (normalize_updates updates model) initial_results) as Hg.
    pose proof (first_loop_results (normalize_updates updates model) initial_results [])
      as Hr.
    cbv zeta in Hr.
    destruct (fold_left group_step (normalize_updates updates model) (initial_results, []))
      as [res0 groups0].
    cbn [fst snd] in Hg, Hr. subst groups0.
    destruct Hr as (Hu0 & Hf0 & He0 & _ & _).
    cbn [updated failed errors_of errors initial_results] in Hu0, Hf0, He0.
    unfold bind.
    destruct (write_groups_spec model
                (groups_of (filter valid_entry (normalize_updates updates model))) res0 w)
      as (res1 & w1 & errs & Hrun & Hc & Hsum & Herrs & Hfail & Hall).
    rewrite Hrun. unfold ret.
    pose proof (rejected_plus_valid (normalize_updates updates model)) as Hlen.
    rewrite total_ids_groups_of in Hsum.
    unfold normalize_updates in Hlen at 3. rewrite length_map in Hlen.
    exists (if Nat.ltb 0 (failed res1)
            then mkResults false (message res1) (updated res1) (failed res1) (errors res1)
            else res1), w1, errs.
    split; [reflexivity |]. split; [exact Hc |].
    assert (Hsame : forall r : results,
               (if Nat.ltb 0 (failed res1)
                then mkResults false (message res1) (updated res1) (failed res1) (errors res1)
                else res1) = r ->
               updated r = updated res1 /\ failed r = failed res1
               /\ errors_of r = errors_of res1).
    { intros r <-. destruct (Nat.ltb 0 (failed res1)); repeat split. }
    destruct (Hsame _ eq_refl) as (-> & -> & ->).
    rewrite Herrs, He0, Hfail, Hf0. cbn [app].
    repeat split; try lia. exact Hall.
Qed.

End BulkUpdate.

Section BulkUpdateClaims.

Import UpdateData BulkSpec BulkFacts.

(** C8.  In a bulk update the [write] of a group that raises, or that
    returns anything but [True], adds the size of the group to
    [failed] with an error naming its ids, and the loop goes on: every
    group is called, in order.  An entry without an id is counted as
    failed with its own error and belongs to no group; the groups, and
    so the calls, are those of the remaining entries, and every entry
    is counted exactly once. *)
Theorem bulk_update_partial_failure
        (model : string) (updates : list pydict) (w : world) :
  let normalized := normalize_updates updates model in
  let groups := groups_of (filter valid_entry normalized) in
  (forall (res0 : results) (g : group) (w0 : world),
      exists (res1 : results) (w1 : world),
        write_group model res0 g w0 = (Ok res1, w1)
        /\ calls w1 = calls w0 ++ [write_call model g]
        /\ (fst (call_kw model "write"
                   (JList [JList (group_ids g); JDict (group_values g)]) (JDict []) w0)
            <> Ok (JBool true) ->
            updated res1 = updated res0
            /\ failed res1 = failed res0 + List.length (group_ids g)
            /\ exists e, errors_of res1 = errors_of res0 ++ [e]
                         /\ error_ids e = Some (group_ids g)))
  /\ exists (res : results) (w' : world) (group_errors : list bulk_error),
       bulk_update_records model updates w = (Ok res, w')
       /\ calls w' = calls w ++ map (write_call model) groups
       /\ updated res + failed res = List.length updates
       /\ errors_of res = rejected_errors normalized ++ group_errors
       /\ failed res
          = List.length (rejected_errors normalized)
            + list_sum (map error_weight group_errors)
       /\ Forall (fun e => exists g, In g groups /\ error_ids e = Some (group_ids g))
                 group_errors
       /\ (forall u, In u normalized -> Py.truthy (entry_id u) = false ->
                     In (MissingId u) (errors_of res)
                     /\ ~ In u (filter valid_entry normalized)).
Proof.
  cbv zeta. split.
  - intros res0 g w0.
    destruct (write_group_spec model res0 g w0) as (res1 & w1 & Hrun & Hc & _ & Hko).
    exists res1, w1. split; [exact Hrun |]. split; [exact Hc |].
    intros Hne. destruct (Hko Hne) as (e & -> & He).
    cbn [updated failed fail errors_of errors].
    repeat split. exists e. split; [reflexivity | exact He].
  - destruct (bulk_update_run model updates w)
      as (res & w' & errs & Hrun & Hcalls & Hsum & Herrs & Hfail & Hall).
    exists res, w', errs. repeat split; try assumption.
    + rewrite Herrs. apply in_or_app. left.
      unfold rejected_errors. apply in_flat_map. exists u. split; [assumption |].
      unfold rejection. rewrite H0. left. reflexivity.
    + intros Hin. apply filter_In in Hin. destruct Hin as [_ Hv].
      unfold valid_entry in Hv. rewrite H0 in Hv. discriminate.
Qed.

(** Three groups: the first write raises, the second returns [False],
    the third succeeds, after an entry without an id. *)
Example bulk_update_goes_on_after_failures :
  let updates := [[("name", JStr "x")];
                  [("id", JInt 1); ("a", JInt 1)];
                  [("id", JInt 2); ("a", JInt 2)];
                  [("id", JInt 3); ("a", JInt 3)];
                  [("id", JInt 4); ("a", JInt 2)]] in
  let w := Fixtures.logged_in
             [Fixtures.reply_error "Access Denied" (JDict []);
              Fixtures.reply_result (JBool false);
              Fixtures.reply_result (JBool true)] in
  fst (bulk_update_records "res.partner" updates w)
  = Ok (mkResults false None 1 4
          (Some [MissingId [("name", JStr "x")];
                 ErrorUpdating [JInt 1] (JsonRpcError (JStr "Access Denied") (JDict []));
                 ReturnedFalse [JInt 2; JInt 4]]))
  /\ map (fun c => snd (fst c)) (calls (snd (bulk_update_records "res.partner" updates w)))
     = [JList [JList [JInt 1]; JDict [("a", JInt 1)]];
        JList [JList [JInt 2; JInt 4]; JDict [("a", JInt 2)]];
        JList [JList [JInt 3]; JDict [("a", JInt 3)]]].
Proof. split; vm_compute; reflexivity. Qed.

End BulkUpdateClaims.

(** ** Bulk update: the quantity of a stock move *)

Section QuantityMirror.

Import UpdateData BulkSpec BulkFacts.

Lemma lookup_set_same (k : string) (v : json) (d : pydict) :
  Py.lookup k (Py.set k v d) = Some v.
Proof.
  induction d as [| [k' v'] d IH]; cbn.
  - rewrite String.eqb_refl. reflexivity.
  - destruct (String.eqb k k') eqn:Hk; cbn; rewrite Hk; [reflexivity | exact IH].
Qed.

Lemma lookup_set_other (k k' : string) (v : json) (d : pydict) :
  String.eqb k' k = false ->
  Py.lookup k' (Py.set k v d) = Py.lookup k' d.
Proof.
  intros Hne. induction d as [| [k0 v0] d IH]; cbn.
  - rewrite Hne. reflexivity.
  - destruct (String.eqb_spec k k0) as [-> | Hk]; cbn.
    + rewrite Hne. reflexivity.
    + destruct (String.eqb k' k0); [reflexivity | exact IH].
Qed.

Lemma lookup_without (k key : string) (d : pydict) :
  String.eqb k key = false ->
  Py.lookup k (Py.without key d) = Py.lookup k d.
Proof.
  intros Hne. unfold Py.without.
  induction d as [| [k0 v0] d IH]; [reflexivity |].
  cbn [filter fst]. destruct (String.eqb_spec k0 key) as [-> | Hk]; cbn.
  - rewrite Hne. exact IH.
  - destruct (String.eqb k k0); [reflexivity | exact IH].
Qed.

(** [normalize_updates] on a stock move: an entry with a [quantity]
    leaves with [product_uom_qty] set to the same value, its other
    keys untouched. *)
Lemma normalize_update_mirrors (update : pydict) :
  Py.has_key "quantity" (Py.without "id" update) = true ->
  Py.lookup "product_uom_qty" (normalize_update "stock.move" update)
  = Py.lookup "quantity" update
  /\ forall k, String.eqb k "product_uom_qty" = false ->
               Py.lookup k (normalize_update "stock.move" update) = Py.lookup k update.
Proof.
  intros Hq. unfold normalize_update. cbn [String.eqb Ascii.eqb Bool.eqb andb].
  rewrite Hq. split.
  - rewrite lookup_set_same.
    unfold Py.has_key, Py.get, Py.get_default in *.
    rewrite lookup_without in * by reflexivity.
    destruct (Py.lookup "quantity" update); [reflexivity | discriminate].
  - intros k Hk. apply lookup_set_other, Hk.
Qed.

Lemma normalize_update_fields (update : pydict) :
  let u := normalize_update "stock.move" update in
  Py.has_key "quantity" (entry_fields u) = true ->
  Py.lookup "product_uom_qty" (entry_fields u) = Py.lookup "quantity" (entry_fields u).
Proof.
  cbv zeta. unfold entry_fields. intros Hq.
  rewrite !lookup_without by reflexivity.
  unfold Py.has_key in Hq. rewrite lookup_without in Hq by reflexivity.
  destruct (Py.has_key "quantity" (Py.without "id" update)) eqn:Hq0.
  - destruct (normalize_update_mirrors update Hq0) as (Hm & Ho).
    rewrite Hm. symmetry. apply Ho. reflexivity.
  - exfalso. unfold normalize_update in Hq.
    cbn [String.eqb Ascii.eqb Bool.eqb andb] in Hq. rewrite Hq0 in Hq.
    unfold Py.has_key in Hq0. rewrite lookup_without in Hq0 by reflexivity.
    destruct (Py.lookup "quantity" update); discriminate.
Qed.

(** The values of a group are the fields of one of the entries. *)
Lemma group_values_from_entry (entries : list pydict) (g : group) :
  In g (groups_of entries) ->
  exists u, In u entries /\ group_values g = entry_fields u.
Proof.
  unfold groups_of. rewrite in_map_iff. intros (k & <- & Hk).
  rewrite in_first_seen in Hk. apply key_among in Hk.
  destruct Hk as (u & Hu & Hp).
  unfold group_for, group_values, values_with_key. cbn [fst snd].
  destruct (find (has_key_of k) entries) as [u' |] eqn:Hf.
  - apply find_some in Hf. exists u'. split; [apply Hf | reflexivity].
  - rewrite (find_none _ _ Hf u Hu) in Hp. discriminate.
Qed.

(** C5.  Every [write] call of a bulk update on
    ["stock.move"] whose values have a ["quantity"] has
    ["product_uom_qty"] with the same value: the mirroring is done
    before the entries are grouped.  For the updates
    [{id:1, quantity:5}, {id:2, quantity:5}, {id:3, quantity:9}] there
    are exactly two calls, ids [1,2] with
    [{quantity:5, product_uom_qty:5}] and id [3] with
    [{quantity:9, product_uom_qty:9}]. *)
Theorem stock_move_quantity_is_mirrored (updates : list pydict) (w : world) :
  (forall update,
      Py.has_key "quantity" (Py.without "id" update) = true ->
      Py.lookup "product_uom_qty" (normalize_update "stock.move" update)
      = Py.lookup "quantity" update)
  /\ (exists (res : results) (w' : world) (groups : list group),
         bulk_update_records "stock.move" updates w = (Ok res, w')
         /\ calls w' = calls w ++ map (write_call "stock.move") groups
         /\ Forall (fun g =>
                      Py.has_key "quantity" (group_values g) = true ->
                      Py.lookup "product_uom_qty" (group_values g)
                      = Py.lookup "quantity" (group_values g)) groups)
  /\ calls (snd (bulk_update_records "stock.move" quantity_updates w))
     = calls w ++
         [write_of [1; 2] [("quantity", JInt 5); ("product_uom_qty", JInt 5)];
          write_of [3] [("quantity", JInt 9); ("product_uom_qty", JInt 9)]]%Z.
Proof.
  split; [intros update Hq; apply normalize_update_mirrors, Hq |].
  split.
  - destruct (bulk_update_run "stock.move" updates w)
      as (res & w' & errs & Hrun & Hcalls & _).
    exists res, w', (groups_of (filter valid_entry (normalize_updates updates "stock.move"))).
    split; [exact Hrun |]. split; [exact Hcalls |].
    apply Forall_forall. intros g Hg.
    destruct (group_values_from_entry _ g Hg) as (u & Hu & ->).
    apply filter_In in Hu. destruct Hu as [Hu _].
    unfold normalize_updates in Hu. apply in_map_iff in Hu.
    destruct Hu as (u0 & <- & _). apply normalize_update_fields.
  - destruct (bulk_update_run "stock.move" quantity_updates w)
      as (res & w' & errs & Hrun & Hcalls & _).
    rewrite Hrun. cbn [snd]. rewrite Hcalls. f_equal.
Qed.

(** The mirroring goes by the name of the field: an entry whose
    field is called otherwise, [qty] for one, is written as it is. *)
Example only_the_quantity_field_is_mirrored :
  let w := Fixtures.logged_in
             [Fixtures.reply_result (JBool true); Fixtures.reply_result (JBool true)] in
  calls (snd (bulk_update_records "stock.move" qty_updates w))
  = [write_of [1; 2] [("qty", JInt 5)]; write_of [3] [("qty", JInt 9)]]%Z.
Proof. vm_compute. reflexivity. Qed.

End QuantityMirror.

(** ** Verification after a write *)

Section Verification.

Import UpdatePickingStatus VerifySpec.

(** One field: the check passes exactly when the rule of the code
    holds, and a failure reports the value the rule looked at. *)
Lemma check_field_spec (picking_id : Z) (record : json) (field : string)
      (expected : json) :
  check_field picking_id record field expected
  = if field_matches (actual_of record field) expected then None
    else Some (FieldMismatch picking_id field
                 (reported_actual (actual_of record field) expected) expected).
Proof.
  unfold check_field, field_matches, reported_actual, actual_truth.
  destruct expected as [| b | z | s | l | d]; cbn [Py.is_bool Py.eq];
    destruct (actual_of record field) as [| ? | ? | ? | [| ? ?] | ?];
    match goal with |- context [negb ?c] => destruct c end; reflexivity.
Qed.

Lemma check_fields_fold (picking_id : Z) (record : json) (expected_fields : pydict) :
  forall (b : bool) (errs : list verify_error),
    fst (fold_left
           (fun (acc : bool * list verify_error) (kv : string * json) =>
              match check_field picking_id record (fst kv) (snd kv) with
              | Some e => (false, snd acc ++ [e])
              | None => acc
              end) expected_fields (b, errs))
    = b && record_matches record expected_fields.
Proof.
  induction expected_fields as [| [k v] fields IH]; intros b errs.
  - cbn. rewrite andb_true_r. reflexivity.
  - cbn [fold_left fst snd]. unfold record_matches. cbn [forallb fst snd].
    rewrite check_field_spec.
    destruct (field_matches (actual_of record k) v).
    + rewrite IH. reflexivity.
    + rewrite IH. cbn. rewrite andb_false_r. reflexivity.
Qed.

Lemma check_fields_spec (picking_id : Z) (record : json) (expected_fields : pydict) :
  fst (check_fields picking_id record expected_fields)
  = record_matches record expected_fields.
Proof. unfold check_fields. rewrite check_fields_fold. reflexivity. Qed.

(** One picking: verified when its record is there and every expected
    field matches, failed otherwise. *)
Lemma verify_one_spec (records_map : list (json * json)) (expected_fields : pydict)
      (res : verification_results) (picking_id : Z) :
  verified (verify_one records_map expected_fields res picking_id)
  = verified res + (if verified_id records_map expected_fields picking_id then 1 else 0)
  /\ failed (verify_one records_map expected_fields res picking_id)
     = failed res + (if verified_id records_map expected_fields picking_id then 0 else 1).
Proof.
  unfold verify_one, verified_id.
  destruct (map_get (JInt picking_id) records_map) as [record |]; [| cbn; lia].
  destruct (Py.truthy record); cbn [negb andb]; [| cbn; lia].
  pose proof (check_fields_spec picking_id record expected_fields) as Hc.
  destruct (check_fields picking_id record expected_fields) as [all_match errs].
  cbn [fst] in Hc. rewrite <- Hc.
  destruct all_match; cbn; lia.
Qed.

Lemma verify_loop_spec (records_map : list (json * json)) (expected_fields : pydict)
      (picking_ids : list Z) :
  forall res : verification_results,
    verified (fold_left (verify_one records_map expected_fields) picking_ids res)
    = verified res
      + List.length (filter (verified_id records_map expected_fields) picking_ids)
    /\ failed (fold_left (verify_one records_map expected_fields) picking_ids res)
       = failed res
         + List.length (filter (fun p => negb (verified_id records_map expected_fields p))
                               picking_ids).
Proof.
  induction picking_ids as [| p ids IH]; intros res; [cbn; lia |].
  cbn [fold_left filter].
  destruct (IH (verify_one records_map expected_fields res p)) as [Hv Hf].
  destruct (verify_one_spec records_map expected_fields res p) as [Hv1 Hf1].
  rewrite Hv, Hf, Hv1, Hf1.
  destruct (verified_id records_map expected_fields p); cbn; lia.
Qed.

(** The whole verification on a server that answers the one
    [search_read] with a list of records. *)
Lemma verify_run (picking_ids : list Z) (expected_fields : pydict) (w : world)
      (body : pydict) (rest : list response) (records : list json)
      (records_map : list (json * json)) :
  picking_ids <> [] ->
  expected_fields <> [] ->
  Py.truthy (uid w) = true ->
  server w = Reply (JDict body) :: rest ->
  Py.has_key "error" body = false ->
  Py.lookup "result" body = Some (JList records) ->
  build_records_map records [] = Ok records_map ->
  exists (res : verification_results) (w' : world),
    verify_picking_updates picking_ids expected_fields w = (Ok res, w')
    /\ sent w' = sent w ++ [verification_request picking_ids expected_fields]
    /\ verified res
       = List.length (filter (verified_id records_map expected_fields) picking_ids)
    /\ failed res
       = List.length (filter (fun p => negb (verified_id records_map expected_fields p))
                             picking_ids).
Proof.
  intros Hids Hexp Hu Hsrv Herr Hres Hmap.
  unfold verify_picking_updates.
  destruct picking_ids as [| p0 ids0] eqn:Hp; [congruence |]. rewrite <- Hp.
  unfold try_except, bind, search_read.
  destruct (Py.keys expected_fields) as [| f fs] eqn:Hk.
  { destruct expected_fields; [congruence | discriminate]. }
  rewrite <- Hk. unfold bind.
  rewrite (call_kw_plain _ _ _ _ w body rest Hu Hsrv Herr).
  unfold Py.get_default. rewrite Hres. unfold ret.
  assert (Hrm : records_map_of (if Py.truthy (JList records) then JList records
                                else JList []) = Ok records_map).
  { destruct records; [cbn in *; congruence | exact Hmap]. }
  rewrite Hrm.
  destruct (verify_loop_spec records_map expected_fields picking_ids
              (mkVerification 0 0 [])) as [Hv Hf].
  do 2 eexists. split; [reflexivity |].
  split; [reflexivity |]. split; [exact Hv | exact Hf].
Qed.

End Verification.

Section VerificationClaims.

Import UpdatePickingStatus VerifySpec.

(** The comparison rules as the code applies them.  A boolean
    expectation is compared with
    the truth of the actual value, a missing or null value counting as
    false; otherwise an actual value that is a non-empty list, of any
    length, is compared by its first element alone; otherwise the
    values are compared by equality.  A picking is verified when its
    record is there and every expected field matches, and failed
    otherwise.  Expected [{delivered: true}] against [delivered: null]
    fails and reports the actual value [False]; expected
    [{status_id: 2}] against [status_id: [2, "Shipped"]] is verified. *)
Theorem verification_is_type_aware :
  (forall picking_id record field expected,
      (check_field picking_id record field expected = None
       <-> field_matches (actual_of record field) expected = true)
      /\ (field_matches (actual_of record field) expected = false ->
          check_field picking_id record field expected
          = Some (FieldMismatch picking_id field
                    (reported_actual (actual_of record field) expected) expected)))
  /\ (forall picking_ids expected_fields w body rest records records_map,
         picking_ids <> [] ->
         expected_fields <> [] ->
         Py.truthy (uid w) = true ->
         server w = Reply (JDict body) :: rest ->
         Py.has_key "error" body = false ->
         Py.lookup "result" body = Some (JList records) ->
         build_records_map records [] = Ok records_map ->
         exists res w',
           verify_picking_updates picking_ids expected_fields w = (Ok res, w')
           /\ sent w' = sent w ++ [verification_request picking_ids expected_fields]
           /\ verified res
              = List.length (filter (verified_id records_map expected_fields) picking_ids)
           /\ failed res
              = List.length
                  (filter (fun p => negb (verified_id records_map expected_fields p))
                          picking_ids))
  /\ fst (verify_picking_updates [7%Z] [("delivered", JBool true)]
            (Fixtures.logged_in
               [Fixtures.reply_result
                  (JList [JDict [("id", JInt 7); ("delivered", JNone)]])]))
     = Ok (mkVerification 0 1
             [FieldMismatch 7 "delivered" (JBool false) (JBool true)])
  /\ fst (verify_picking_updates [7%Z] [("status_id", JInt 2)]
            (Fixtures.logged_in
               [Fixtures.reply_result
                  (JList [JDict [("id", JInt 7);
                                 ("status_id", JList [JInt 2; JStr "Shipped"])]])]))
     = Ok (mkVerification 1 0 []).
Proof.
  split; [| split; [| split]].
  - intros picking_id record field expected.
    rewrite check_field_spec.
    destruct (field_matches (actual_of record field) expected); split;
      try split; try reflexivity; try discriminate.
  - intros. eapply verify_run; eassumption.
  - vm_compute. reflexivity.
  - vm_compute. reflexivity.
Qed.

(** C6.  The branch commented as the one for Many2one fields,
    "returned as [id, name]", to be compared by id only, is entered for
    every non-empty list.  A field whose actual value is a list of
    three ids, equal to the list expected, is no [[id, label]] pair and
    matches by equality, as the description has it; but the code
    compares its first element with the whole expected list and reports
    the picking as failed, with the actual value 3.  The same field
    holding an empty list on both sides is compared by equality and
    verified. *)
Theorem list_of_ids_is_compared_by_its_first_element :
  let ids := JList [JInt 3; JInt 4; JInt 5] in
  Py.eq ids ids = true
  /\ described_field_matches ids ids = true
  /\ check_field 7 (JDict [("id", JInt 7); ("move_ids", ids)]) "move_ids" ids
     = Some (FieldMismatch 7 "move_ids" (JInt 3) ids)
  /\ fst (verify_picking_updates [7%Z] [("move_ids", ids)]
            (Fixtures.logged_in
               [Fixtures.reply_result (JList [JDict [("id", JInt 7); ("move_ids", ids)]])]))
     = Ok (mkVerification 0 1 [FieldMismatch 7 "move_ids" (JInt 3) ids])
  /\ fst (verify_picking_updates [7%Z] [("move_ids", JList [])]
            (Fixtures.logged_in
               [Fixtures.reply_result
                  (JList [JDict [("id", JInt 7); ("move_ids", JList [])]])]))
     = Ok (mkVerification 1 0 []).
Proof. cbv zeta. repeat split; vm_compute; reflexivity. Qed.

(** The failures of the fetch itself leave both counters at zero. *)
Example verification_without_session :
  fst (verify_picking_updates [7%Z] [("delivered", JBool true)]
         (new_client "18_odoo" "admin" "admin" []))
  = Ok (mkVerification 0 0 [VerificationError NotAuthenticated]).
Proof. vm_compute. reflexivity. Qed.

End VerificationClaims.

(** ** The canonical key *)

Example update_key_sorts_the_fields :
  UpdateData.update_key_of [("quantity", JInt 99); ("product_uom_qty", JInt 99)]
  = UpdateData.update_key_of [("product_uom_qty", JInt 99); ("quantity", JInt 99)].
Proof. vm_compute. reflexivity. Qed.

Example update_key_tells_true_from_one :
  UpdateData.update_key_of [("done", JBool true)]
  <> UpdateData.update_key_of [("done", JInt 1)].
Proof. vm_compute. discriminate. Qed.

(** ** [json.dumps], [str] and [repr] on sample values

    The right-hand sides are the code points of what Python 3 prints for
    the same values. *)

Example dumps_plain :
  Fixtures.codes (Render.dumps_sorted (JDict [("quantity", JInt 99); ("product_uom_qty", JInt 99)]))
  = [123; 34; 112; 114; 111; 100; 117; 99; 116; 95; 117; 111; 109; 95; 113; 116; 121; 34; 58; 32; 57; 57; 44; 32; 34; 113; 117; 97; 110; 116; 105; 116; 121; 34; 58; 32; 57; 57; 125].
Proof. vm_compute. reflexivity. Qed.

Example repr_plain :
  Fixtures.codes (Render.str (JDict [("quantity", JInt 99); ("product_uom_qty", JInt 99)]))
  = [123; 39; 113; 117; 97; 110; 116; 105; 116; 121; 39; 58; 32; 57; 57; 44; 32; 39; 112; 114; 111; 100; 117; 99; 116; 95; 117; 111; 109; 95; 113; 116; 121; 39; 58; 32; 57; 57; 125].
Proof. vm_compute. reflexivity. Qed.

Example dumps_nested :
  Fixtures.codes (Render.dumps_sorted (JDict [("b", JBool true); ("a", JNone); ("c", JList [JInt 1; JStr "x"; JDict [("z", JInt (-5)); ("y", JBool false)]])]))
  = [123; 34; 97; 34; 58; 32; 110; 117; 108; 108; 44; 32; 34; 98; 34; 58; 32; 116; 114; 117; 101; 44; 32; 34; 99; 34; 58; 32; 91; 49; 44; 32; 34; 120; 34; 44; 32; 123; 34; 121; 34; 58; 32; 102; 97; 108; 115; 101; 44; 32; 34; 122; 34; 58; 32; 45; 53; 125; 93; 125].
Proof. vm_compute. reflexivity. Qed.

Example repr_nested :
  Fixtures.codes (Render.str (JDict [("b", JBool true); ("a", JNone); ("c", JList [JInt 1; JStr "x"; JDict [("z", JInt (-5)); ("y", JBool false)]])]))
  = [123; 39; 98; 39; 58; 32; 84; 114; 117; 101; 44; 32; 39; 97; 39; 58; 32; 78; 111; 110; 101; 44; 32; 39; 99; 39; 58; 32; 91; 49; 44; 32; 39; 120; 39; 44; 32; 123; 39; 122; 39; 58; 32; 45; 53; 44; 32; 39; 121; 39; 58; 32; 70; 97; 108; 115; 101; 125; 93; 125].
Proof. vm_compute. reflexivity. Qed.

Example dumps_escapes :
  Fixtures.codes (Render.dumps_sorted (JDict [("s", JStr (Fixtures.text [104; 101; 32; 115; 97; 105; 100; 32; 34; 104; 105; 34; 92; 32; 10; 9; 127; 1; 233])); ((Fixtures.text [107; 34; 113]), JList []); ("e", JDict [])]))
  = [123; 34; 101; 34; 58; 32; 123; 125; 44; 32; 34; 107; 92; 34; 113; 34; 58; 32; 91; 93; 44; 32; 34; 115; 34; 58; 32; 34; 104; 101; 32; 115; 97; 105; 100; 32; 92; 34; 104; 105; 92; 34; 92; 92; 32; 92; 110; 92; 116; 92; 117; 48; 48; 55; 102; 92; 117; 48; 48; 48; 49; 92; 117; 48; 48; 101; 57; 34; 125].
Proof. vm_compute. reflexivity. Qed.

Example repr_escapes :
  Fixtures.codes (Render.str (JDict [("s", JStr (Fixtures.text [104; 101; 32; 115; 97; 105; 100; 32; 34; 104; 105; 34; 92; 32; 10; 9; 127; 1; 233])); ((Fixtures.text [107; 34; 113]), JList []); ("e", JDict [])]))
  = [123; 39; 115; 39; 58; 32; 39; 104; 101; 32; 115; 97; 105; 100; 32; 34; 104; 105; 34; 92; 92; 32; 92; 110; 92; 116; 92; 120; 55; 102; 92; 120; 48; 49; 233; 39; 44; 32; 39; 107; 34; 113; 39; 58; 32; 91; 93; 44; 32; 39; 101; 39; 58; 32; 123; 125; 125].
Proof. vm_compute. reflexivity. Qed.

Example dumps_quotes :
  Fixtures.codes (Render.dumps_sorted (JList [JStr "it's"; JStr (Fixtures.text [97; 34; 98; 39; 99]); JStr (Fixtures.text [113; 34; 117; 111; 116; 101]); JStr (Fixtures.text [120; 10; 121; 13; 127; 160; 173; 233; 92]); JInt 0; JInt (-12)]))
  = [91; 34; 105; 116; 39; 115; 34; 44; 32; 34; 97; 92; 34; 98; 39; 99; 34; 44; 32; 34; 113; 92; 34; 117; 111; 116; 101; 34; 44; 32; 34; 120; 92; 110; 121; 92; 114; 92; 117; 48; 48; 55; 102; 92; 117; 48; 48; 97; 48; 92; 117; 48; 48; 97; 100; 92; 117; 48; 48; 101; 57; 92; 92; 34; 44; 32; 48; 44; 32; 45; 49; 50; 93].
Proof. vm_compute. reflexivity. Qed.

Example repr_quotes :
  Fixtures.codes (Render.str (JList [JStr "it's"; JStr (Fixtures.text [97; 34; 98; 39; 99]); JStr (Fixtures.text [113; 34; 117; 111; 116; 101]); JStr (Fixtures.text [120; 10; 121; 13; 127; 160; 173; 233; 92]); JInt 0; JInt (-12)]))
  = [91; 34; 105; 116; 39; 115; 34; 44; 32; 39; 97; 34; 98; 92; 39; 99; 39; 44; 32; 39; 113; 34; 117; 111; 116; 101; 39; 44; 32; 39; 120; 92; 110; 121; 92; 114; 92; 120; 55; 102; 92; 120; 97; 48; 92; 120; 97; 100; 233; 92; 92; 39; 44; 32; 48; 44; 32; 45; 49; 50; 93].
Proof. vm_compute. reflexivity. Qed.

(** * Further properties *)

(** ** The transport, beyond session expiry *)

(** X1.  An error envelope that the expiry test does not match is raised
    at once as a remote error carrying its message and data: the request
    has been posted once, no login is attempted, nothing is retried, and
    the session of the client is what it was. *)
Theorem remote_error_is_raised_without_retry
        (endpoint : string) (params : json) (w : world)
        (body error_data : pydict) (rest : list response) :
  server w = Reply (JDict body) :: rest ->
  Py.lookup "error" body = Some (JDict error_data) ->
  session_expired (Py.get_default "message" error_data (JStr "Unknown error"))
                  (Py.get_default "data" error_data (JDict [])) = Some false ->
  exists w' : world,
    _make_request endpoint params w
    = (Raise (JsonRpcError (Py.get_default "message" error_data (JStr "Unknown error"))
                           (Py.get_default "data" error_data (JDict []))), w')
    /\ sent w' = sent w ++ [(endpoint, params)]
    /\ server w' = rest
    /\ uid w' = uid w
    /\ session_id w' = session_id w.
Proof.
  intros Hsrv Herr Hexp. eexists.
  unfold _make_request. rewrite Hsrv. cbn [request_on py_in].
  unfold Py.has_key, Py.get, Py.get_default in *. rewrite Herr.
  cbn match. rewrite Hexp. repeat split.
Qed.

Lemma remote_error_is_raised_without_retry_witness :
  exists w' : world,
    _make_request "/web/dataset/call_kw" (JDict [])
      (Fixtures.logged_in [Fixtures.reply_error "Access Denied" (JDict []);
                           Fixtures.reply_result (JBool true)])
    = (Raise (JsonRpcError
                (Py.get_default "message"
                   [("code", JInt 100); ("message", JStr "Access Denied"); ("data", JDict [])]
                   (JStr "Unknown error"))
                (Py.get_default "data"
                   [("code", JInt 100); ("message", JStr "Access Denied"); ("data", JDict [])]
                   (JDict []))), w')
    /\ sent w' = sent (Fixtures.logged_in [Fixtures.reply_error "Access Denied" (JDict []);
                                            Fixtures.reply_result (JBool true)])
                 ++ [("/web/dataset/call_kw", JDict [])]
    /\ server w' = [Fixtures.reply_result (JBool true)]
    /\ uid w' = uid (Fixtures.logged_in [Fixtures.reply_error "Access Denied" (JDict []);
                                          Fixtures.reply_result (JBool true)])
    /\ session_id w'
       = session_id (Fixtures.logged_in [Fixtures.reply_error "Access Denied" (JDict []);
                                          Fixtures.reply_result (JBool true)]).
Proof.
  apply (remote_error_is_raised_without_retry "/web/dataset/call_kw" (JDict [])
           (Fixtures.logged_in [Fixtures.reply_error "Access Denied" (JDict []);
                                Fixtures.reply_result (JBool true)])
           [("jsonrpc", JStr "2.0"); ("id", JInt 1);
            ("error", JDict [("code", JInt 100); ("message", JStr "Access Denied");
                             ("data", JDict [])])]
           [("code", JInt 100); ("message", JStr "Access Denied"); ("data", JDict [])]
           [Fixtures.reply_result (JBool true)]);
    reflexivity.
Defined.

(** X2.  A session expiry followed by a login that succeeds and a retry
    that succeeds: the result of the retry is returned, and exactly
    three requests have been posted, the request, one login with the
    credentials of the client, and the request again; the user id is the
    one of the new login. *)
Theorem session_expiry_is_retried_once
        (endpoint : string) (params : json) (w : world)
        (expired login session retried : pydict) (rest : list response) :
  server w = Reply (JDict expired) :: Reply (JDict login) :: Reply (JDict retried) :: rest ->
  expiry_envelope expired ->
  login_envelope login session ->
  Py.has_key "error" retried = false ->
  exists w' : world,
    _make_request endpoint params w
    = (Ok (Py.get_default "result" retried (JDict [])), w')
    /\ sent w' = sent w ++ [(endpoint, params);
                            ("/web/session/authenticate", auth_params w);
                            (endpoint, params)]
    /\ server w' = rest
    /\ uid w' = Py.get "uid" session.
Proof.
  intros Hsrv Hexp Hlogin Hret.
  rewrite (make_request_on_expiry endpoint params w expired _ Hsrv Hexp).
  rewrite (authenticate_on_login
             (set_server (Reply (JDict login) :: Reply (JDict retried) :: rest)
                (log_request endpoint params w))
             login session (Reply (JDict retried) :: rest) eq_refl Hlogin).
  unfold retry_request, bind, open_request.
  cbn [server set_session set_server log_request py_in].
  rewrite Hret. cbn [return_result ret].
  eexists. split; [reflexivity |].
  repeat split. cbn. rewrite <- !app_assoc. reflexivity.
Qed.

Lemma session_expiry_is_retried_once_witness :
  exists w' : world,
    _make_request "/web/dataset/call_kw" (JDict [])
      (Fixtures.logged_in [Fixtures.session_expired_reply;
                           Fixtures.reply_result (JDict [("uid", JInt 9)]);
                           Fixtures.reply_result (JStr "done")])
    = (Ok (Py.get_default "result"
             [("jsonrpc", JStr "2.0"); ("id", JInt 1); ("result", JStr "done")]
             (JDict [])), w')
    /\ sent w' = sent (Fixtures.logged_in [Fixtures.session_expired_reply;
                                            Fixtures.reply_result (JDict [("uid", JInt 9)]);
                                            Fixtures.reply_result (JStr "done")])
                 ++ [("/web/dataset/call_kw", JDict []);
                     ("/web/session/authenticate",
                      auth_params (Fixtures.logged_in
                                     [Fixtures.session_expired_reply;
                                      Fixtures.reply_result (JDict [("uid", JInt 9)]);
                                      Fixtures.reply_result (JStr "done")]));
                     ("/web/dataset/call_kw", JDict [])]
    /\ server w' = []
    /\ uid w' = Py.get "uid" [("uid", JInt 9)].
Proof.
  apply (session_expiry_is_retried_once "/web/dataset/call_kw" (JDict [])
           (Fixtures.logged_in [Fixtures.session_expired_reply;
                                Fixtures.reply_result (JDict [("uid", JInt 9)]);
                                Fixtures.reply_result (JStr "done")])
           [("jsonrpc", JStr "2.0"); ("id", JInt 1);
            ("error", JDict [("code", JInt 100); ("message", JStr "Odoo Session Expired");
                             ("data", JDict [("name", JStr "odoo.http.SessionExpiredException");
                                             ("message", JStr "Session expired")])])]
           [("jsonrpc", JStr "2.0"); ("id", JInt 1); ("result", JDict [("uid", JInt 9)])]
           [("uid", JInt 9)]
           [("jsonrpc", JStr "2.0"); ("id", JInt 1); ("result", JStr "done")]
           []).
  - reflexivity.
  - eexists. split; reflexivity.
  - repeat split.
  - reflexivity.
Defined.

(** X3.  A session expiry followed by a login that succeeds and a retry
    answered with an error envelope, be it another session expiry: the
    error "after re-auth" is raised with the message and data of the
    second envelope, after exactly three requests; there is no second
    login and no second retry. *)
Theorem failed_retry_is_not_retried_again
        (endpoint : string) (params : json) (w : world)
        (expired login session retried error_data : pydict) (rest : list response) :
  server w = Reply (JDict expired) :: Reply (JDict login) :: Reply (JDict retried) :: rest ->
  expiry_envelope expired ->
  login_envelope login session ->
  Py.lookup "error" retried = Some (JDict error_data) ->
  exists w' : world,
    _make_request endpoint params w
    = (Raise (JsonRpcErrorAfterReauth
                (Py.get_default "message" error_data (JStr "Unknown error"))
                (Py.get_default "data" error_data (JDict []))), w')
    /\ sent w' = sent w ++ [(endpoint, params);
                            ("/web/session/authenticate", auth_params w);
                            (endpoint, params)]
    /\ server w' = rest.
Proof.
  intros Hsrv Hexp Hlogin Hret.
  rewrite (make_request_on_expiry endpoint params w expired _ Hsrv Hexp).
  rewrite (authenticate_on_login
             (set_server (Reply (JDict login) :: Reply (JDict retried) :: rest)
                (log_request endpoint params w))
             login session (Reply (JDict retried) :: rest) eq_refl Hlogin).
  unfold retry_request, bind, open_request.
  cbn [server set_session set_server log_request py_in].
  unfold Py.has_key, Py.get, Py.get_default. rewrite Hret.
  eexists. split; [reflexivity |].
  repeat split. cbn. rewrite <- !app_assoc. reflexivity.
Qed.

Lemma failed_retry_is_not_retried_again_witness :
  exists w' : world,
    _make_request "/web/dataset/call_kw" (JDict [])
      (Fixtures.logged_in [Fixtures.session_expired_reply;
                           Fixtures.reply_result (JDict [("uid", JInt 9)]);
                           Fixtures.session_expired_reply;
                           Fixtures.reply_result (JDict [("uid", JInt 9)])])
    = (Raise (JsonRpcErrorAfterReauth
                (Py.get_default "message"
                   [("code", JInt 100); ("message", JStr "Odoo Session Expired");
                    ("data", JDict [("name", JStr "odoo.http.SessionExpiredException");
                                    ("message", JStr "Session expired")])]
                   (JStr "Unknown error"))
                (Py.get_default "data"
                   [("code", JInt 100); ("message", JStr "Odoo Session Expired");
                    ("data", JDict [("name", JStr "odoo.http.SessionExpiredException");
                                    ("message", JStr "Session expired")])]
                   (JDict []))), w')
    /\ sent w' = sent (Fixtures.logged_in [Fixtures.session_expired_reply;
                                            Fixtures.reply_result (JDict [("uid", JInt 9)]);
                                            Fixtures.session_expired_reply;
                                            Fixtures.reply_result (JDict [("uid", JInt 9)])])
                 ++ [("/web/dataset/call_kw", JDict []);
                     ("/web/session/authenticate",
                      auth_params (Fixtures.logged_in
                                     [Fixtures.session_expired_reply;
                                      Fixtures.reply_result (JDict [("uid", JInt 9)]);
                                      Fixtures.session_expired_reply;
                                      Fixtures.reply_result (JDict [("uid", JInt 9)])]));
                     ("/web/dataset/call_kw", JDict [])]
    /\ server w' = [Fixtures.reply_result (JDict [("uid", JInt 9)])].
Proof.
  apply (failed_retry_is_not_retried_again "/web/dataset/call_kw" (JDict [])
           (Fixtures.logged_in [Fixtures.session_expired_reply;
                                Fixtures.reply_result (JDict [("uid", JInt 9)]);
                                Fixtures.session_expired_reply;
                                Fixtures.reply_result (JDict [("uid", JInt 9)])])
           [("jsonrpc", JStr "2.0"); ("id", JInt 1);
            ("error", JDict [("code", JInt 100); ("message", JStr "Odoo Session Expired");
                             ("data", JDict [("name", JStr "odoo.http.SessionExpiredException");
                                             ("message", JStr "Session expired")])])]
           [("jsonrpc", JStr "2.0"); ("id", JInt 1); ("result", JDict [("uid", JInt 9)])]
           [("uid", JInt 9)]
           [("jsonrpc", JStr "2.0"); ("id", JInt 1);
            ("error", JDict [("code", JInt 100); ("message", JStr "Odoo Session Expired");
                             ("data", JDict [("name", JStr "odoo.http.SessionExpiredException");
                                             ("message", JStr "Session expired")])])]
           [("code", JInt 100); ("message", JStr "Odoo Session Expired");
            ("data", JDict [("name", JStr "odoo.http.SessionExpiredException");
                            ("message", JStr "Session expired")])]
           [Fixtures.reply_result (JDict [("uid", JInt 9)])]).
  - reflexivity.
  - eexists. split; reflexivity.
  - repeat split.
  - reflexivity.
Defined.

(** ** Logging in *)

(** X4.  [authenticate] looks for the key ['uid'] and at nothing else:
    when the result of the login is a dict with that key, whatever its
    value ([False] and [None] too), it returns [True] and stores the
    value as the user id and [result.get('session_id')] as the session
    id; when the key is absent it raises "No UID returned" and the user
    id and session id of the client stay what they were.  Either way
    one request is posted, with the database, login and password of the
    client. *)
Theorem authenticate_tests_the_uid_key_only
        (w : world) (body session : pydict) (rest : list response) :
  server w = Reply (JDict body) :: rest ->
  Py.has_key "error" body = false ->
  Py.lookup "result" body = Some (JDict session) ->
  exists w' : world,
    authenticate w
    = ((if Py.has_key "uid" session then Ok true else Raise AuthenticationFailed), w')
    /\ sent w' = sent w ++
         [("/web/session/authenticate",
           JDict [("db", JStr (db w)); ("login", JStr (username w));
                  ("password", JStr (password w))])]
    /\ server w' = rest
    /\ uid w' = (if Py.has_key "uid" session then Py.get "uid" session else uid w)
    /\ session_id w'
       = (if Py.has_key "uid" session then Py.get "session_id" session else session_id w).
Proof.
  intros Hsrv Herr Hres.
  unfold authenticate, authenticate_with, bind.
  rewrite (make_request_plain _ _ w body rest Hsrv Herr).
  unfold Py.get_default. rewrite Hres.
  destruct session as [| kv session'].
  - cbn. eexists. repeat split.
  - cbn [Py.truthy].
    destruct (Py.has_key "uid" (kv :: session')); eexists; repeat split.
Qed.

Lemma authenticate_tests_the_uid_key_only_witness :
  exists w' : world,
    authenticate
      (new_client "18_odoo" "admin" "wrong" [Fixtures.reply_result (JDict [("uid", JBool false)])])
    = ((if Py.has_key "uid" [("uid", JBool false)] then Ok true
        else Raise AuthenticationFailed), w')
    /\ sent w'
       = sent (new_client "18_odoo" "admin" "wrong"
                 [Fixtures.reply_result (JDict [("uid", JBool false)])]) ++
         [("/web/session/authenticate",
           JDict [("db", JStr (db (new_client "18_odoo" "admin" "wrong"
                                     [Fixtures.reply_result (JDict [("uid", JBool false)])])));
                  ("login", JStr (username (new_client "18_odoo" "admin" "wrong"
                                     [Fixtures.reply_result (JDict [("uid", JBool false)])])));
                  ("password", JStr (password (new_client "18_odoo" "admin" "wrong"
                                     [Fixtures.reply_result (JDict [("uid", JBool false)])])))])]
    /\ server w' = []
    /\ uid w' = (if Py.has_key "uid" [("uid", JBool false)]
                 then Py.get "uid" [("uid", JBool false)]
                 else uid (new_client "18_odoo" "admin" "wrong"
                             [Fixtures.reply_result (JDict [("uid", JBool false)])]))
    /\ session_id w'
       = (if Py.has_key "uid" [("uid", JBool false)]
          then Py.get "session_id" [("uid", JBool false)]
          else session_id (new_client "18_odoo" "admin" "wrong"
                             [Fixtures.reply_result (JDict [("uid", JBool false)])])).
Proof.
  apply (authenticate_tests_the_uid_key_only
           (new_client "18_odoo" "admin" "wrong"
              [Fixtures.reply_result (JDict [("uid", JBool false)])])
           [("jsonrpc", JStr "2.0"); ("id", JInt 1); ("result", JDict [("uid", JBool false)])]
           [("uid", JBool false)] []);
    reflexivity.
Defined.

(** ** Calls and reads *)

(** X5.  While the user id is falsy ([None] on a new client, but also
    [0], [False] or an empty string), [call_kw] raises the
    not-authenticated error before anything is posted: the requests
    sent, the answers of the server and the session are untouched, and
    [get_fields] and [write_record] fail the same way. *)
Theorem call_kw_requires_a_session
        (model method : string) (args kwargs : json) (w : world) :
  Py.truthy (uid w) = false ->
  exists w' : world,
    call_kw model method args kwargs w = (Raise NotAuthenticated, w')
    /\ sent w' = sent w
    /\ server w' = server w
    /\ uid w' = uid w
    /\ fst (get_fields model w) = Raise NotAuthenticated
    /\ sent (snd (get_fields model w)) = sent w
    /\ (forall record_id values,
           fst (write_record model record_id values w) = Raise NotAuthenticated
           /\ sent (snd (write_record model record_id values w)) = sent w).
Proof.
  intros Hu. eexists.
  rewrite (call_kw_not_authenticated model method args kwargs w Hu).
  split; [reflexivity |]. repeat split.
  - unfold get_fields. rewrite (call_kw_not_authenticated _ _ _ _ w Hu). reflexivity.
  - unfold get_fields. rewrite (call_kw_not_authenticated _ _ _ _ w Hu). reflexivity.
  - unfold write_record, bind. rewrite (call_kw_not_authenticated _ _ _ _ w Hu). reflexivity.
  - unfold write_record, bind. rewrite (call_kw_not_authenticated _ _ _ _ w Hu). reflexivity.
Qed.

Lemma call_kw_requires_a_session_witness :
  exists w' : world,
    call_kw "stock.picking" "read" (JList []) (JDict [])
      (new_client "18_odoo" "admin" "admin" [Fixtures.reply_result (JBool true)])
    = (Raise NotAuthenticated, w')
    /\ sent w' = sent (new_client "18_odoo" "admin" "admin" [Fixtures.reply_result (JBool true)])
    /\ server w'
       = server (new_client "18_odoo" "admin" "admin" [Fixtures.reply_result (JBool true)])
    /\ uid w' = uid (new_client "18_odoo" "admin" "admin" [Fixtures.reply_result (JBool true)])
    /\ fst (get_fields "stock.picking"
              (new_client "18_odoo" "admin" "admin" [Fixtures.reply_result (JBool true)]))
       = Raise NotAuthenticated
    /\ sent (snd (get_fields "stock.picking"
                    (new_client "18_odoo" "admin" "admin" [Fixtures.reply_result (JBool true)])))
       = sent (new_client "18_odoo" "admin" "admin" [Fixtures.reply_result (JBool true)])
    /\ (forall record_id values,
           fst (write_record "stock.picking" record_id values
                  (new_client "18_odoo" "admin" "admin" [Fixtures.reply_result (JBool true)]))
           = Raise NotAuthenticated
           /\ sent (snd (write_record "stock.picking" record_id values
                           (new_client "18_odoo" "admin" "admin"
                              [Fixtures.reply_result (JBool true)])))
              = sent (new_client "18_odoo" "admin" "admin"
                        [Fixtures.reply_result (JBool true)])).
Proof.
  apply (call_kw_requires_a_session "stock.picking" "read" (JList []) (JDict [])
           (new_client "18_odoo" "admin" "admin" [Fixtures.reply_result (JBool true)])).
  reflexivity.
Defined.

(** X6.  With a session, a call answered with a result envelope posts
    exactly one request to [/web/dataset/call_kw], whose parameters are
    the model, method, args and kwargs given and an empty context, and
    returns the [result] of the envelope, the empty dict when the
    envelope has none; the session is left as it was. *)
Theorem call_kw_posts_one_request
        (model method : string) (args kwargs : json)
        (w : world) (body : pydict) (rest : list response) :
  Py.truthy (uid w) = true ->
  server w = Reply (JDict body) :: rest ->
  Py.has_key "error" body = false ->
  exists w' : world,
    call_kw model method args kwargs w
    = (Ok (match Py.lookup "result" body with Some v => v | None => JDict [] end), w')
    /\ sent w' = sent w ++
         [("/web/dataset/call_kw",
           JDict [("model", JStr model); ("method", JStr method);
                  ("args", args); ("kwargs", kwargs); ("context", JDict [])])]
    /\ server w' = rest
    /\ uid w' = uid w
    /\ session_id w' = session_id w.
Proof.
  intros Hu Hsrv Herr. eexists.
  rewrite (call_kw_plain _ _ _ _ w body rest Hu Hsrv Herr).
  repeat split.
Qed.

Lemma call_kw_posts_one_request_witness :
  exists w' : world,
    call_kw "stock.picking" "update_salla" (JList [JInt 108080]) (JDict [])
      (Fixtures.logged_in [Reply (JDict [("jsonrpc", JStr "2.0"); ("id", JInt 1)])])
    = (Ok (match Py.lookup "result" [("jsonrpc", JStr "2.0"); ("id", JInt 1)] with
           | Some v => v
           | None => JDict []
           end), w')
    /\ sent w'
       = sent (Fixtures.logged_in [Reply (JDict [("jsonrpc", JStr "2.0"); ("id", JInt 1)])]) ++
         [("/web/dataset/call_kw",
           JDict [("model", JStr "stock.picking"); ("method", JStr "update_salla");
                  ("args", JList [JInt 108080]); ("kwargs", JDict []);
                  ("context", JDict [])])]
    /\ server w' = []
    /\ uid w'
       = uid (Fixtures.logged_in [Reply (JDict [("jsonrpc", JStr "2.0"); ("id", JInt 1)])])
    /\ session_id w'
       = session_id (Fixtures.logged_in
                       [Reply (JDict [("jsonrpc", JStr "2.0"); ("id", JInt 1)])]).
Proof.
  apply (call_kw_posts_one_request "stock.picking" "update_salla" (JList [JInt 108080])
           (JDict [])
           (Fixtures.logged_in [Reply (JDict [("jsonrpc", JStr "2.0"); ("id", JInt 1)])])
           [("jsonrpc", JStr "2.0"); ("id", JInt 1)] []);
    reflexivity.
Defined.

(** X7.  With a session and a non-empty whitelist, [search_read] posts
    one [search_read] call with args [[domain]] and the whitelist as
    [fields], and hands back the result of the server when it is truthy;
    any falsy result ([False], [None], [0], an empty list or dict, an
    envelope without result) comes back as the empty list. *)
Theorem search_read_turns_falsy_results_into_empty_list
        (model : string) (domain : json) (fields : list string)
        (w : world) (body : pydict) (rest : list response) :
  fields <> [] ->
  Py.truthy (uid w) = true ->
  server w = Reply (JDict body) :: rest ->
  Py.has_key "error" body = false ->
  exists w' : world,
    search_read model domain fields w
    = (Ok (if Py.truthy (Py.get_default "result" body (JDict []))
           then Py.get_default "result" body (JDict [])
           else JList []), w')
    /\ sent w' = sent w ++
         [("/web/dataset/call_kw",
           JDict [("model", JStr model); ("method", JStr "search_read");
                  ("args", JList [domain]);
                  ("kwargs", JDict [("fields", JList (map JStr fields))]);
                  ("context", JDict [])])]
    /\ server w' = rest.
Proof.
  intros Hf Hu Hsrv Herr. eexists. unfold search_read.
  destruct fields as [| f fs]; [congruence |].
  unfold bind. rewrite (call_kw_plain _ _ _ _ w body rest Hu Hsrv Herr).
  repeat split.
Qed.

Lemma search_read_turns_falsy_results_into_empty_list_witness :
  exists w' : world,
    search_read "salla.order.status" (JList []) ["id"; "name"]
      (Fixtures.logged_in [Fixtures.reply_result (JBool false)])
    = (Ok (if Py.truthy
                (Py.get_default "result"
                   [("jsonrpc", JStr "2.0"); ("id", JInt 1); ("result", JBool false)]
                   (JDict []))
           then Py.get_default "result"
                  [("jsonrpc", JStr "2.0"); ("id", JInt 1); ("result", JBool false)]
                  (JDict [])
           else JList []), w')
    /\ sent w' = sent (Fixtures.logged_in [Fixtures.reply_result (JBool false)]) ++
         [("/web/dataset/call_kw",
           JDict [("model", JStr "salla.order.status"); ("method", JStr "search_read");
                  ("args", JList [JList []]);
                  ("kwargs", JDict [("fields", JList (map JStr ["id"; "name"]))]);
                  ("context", JDict [])])]
    /\ server w' = [].
Proof.
  apply (search_read_turns_falsy_results_into_empty_list
           "salla.order.status" (JList []) ["id"; "name"]
           (Fixtures.logged_in [Fixtures.reply_result (JBool false)])
           [("jsonrpc", JStr "2.0"); ("id", JInt 1); ("result", JBool false)] []);
    try reflexivity.
  discriminate.
Defined.

(** X8.  [read_all_records] is [search_read] with the domain defaulting
    to the empty list: on every client and server the two give the same
    outcome, exceptions included, and leave the same state. *)
Theorem read_all_records_is_search_read
        (model : string) (fields : list string) (domain : json) (w : world) :
  read_all_records model fields (Some domain) w = search_read model domain fields w
  /\ read_all_records model fields None w = search_read model (JList []) fields w.
Proof. destruct fields; split; reflexivity. Qed.

(** X9.  With a session and a non-empty whitelist, [read_record] raises
    the not-found error for every falsy result of the server, not only
    for the empty list: [False], [None], [0] and a reply without result
    are reported as a missing record, after one [read] call. *)
Theorem read_record_reports_falsy_results_as_not_found
        (model : string) (record_id : Z) (fields : list string)
        (w : world) (body : pydict) (rest : list response) :
  fields <> [] ->
  Py.truthy (uid w) = true ->
  server w = Reply (JDict body) :: rest ->
  Py.has_key "error" body = false ->
  Py.truthy (Py.get_default "result" body (JDict [])) = false ->
  exists w' : world,
    read_record model record_id fields w = (Raise (RecordNotFound record_id model), w')
    /\ List.length (sent w') = S (List.length (sent w))
    /\ server w' = rest.
Proof.
  intros Hf Hu Hsrv Herr Hfalsy. eexists. unfold read_record.
  destruct fields as [| f fs]; [congruence |].
  unfold bind. rewrite (call_kw_plain _ _ _ _ w body rest Hu Hsrv Herr).
  rewrite Hfalsy. split; [reflexivity |].
  split; [| reflexivity]. cbn. rewrite length_app. cbn. lia.
Qed.

Lemma read_record_reports_falsy_results_as_not_found_witness :
  exists w' : world,
    read_record "stock.picking" 5 ["name"]
      (Fixtures.logged_in [Reply (JDict [("jsonrpc", JStr "2.0"); ("id", JInt 1)])])
    = (Raise (RecordNotFound 5 "stock.picking"), w')
    /\ List.length (sent w')
       = S (List.length
              (sent (Fixtures.logged_in
                       [Reply (JDict [("jsonrpc", JStr "2.0"); ("id", JInt 1)])])))
    /\ server w' = [].
Proof.
  apply (read_record_reports_falsy_results_as_not_found "stock.picking" 5 ["name"]
           (Fixtures.logged_in [Reply (JDict [("jsonrpc", JStr "2.0"); ("id", JInt 1)])])
           [("jsonrpc", JStr "2.0"); ("id", JInt 1)] []);
    try reflexivity.
  discriminate.
Defined.

(** X10.  [read_record_all_fields] first asks the model for its field
    definitions and then reads the record with the names of all of them,
    in the order of the definitions: two requests, [fields_get] with no
    arguments and [read] on [[record_id]]; for a list result the first
    record is returned and an empty list is the not-found error. *)
Theorem read_record_all_fields_reads_every_defined_field
        (model : string) (record_id : Z) (w : world)
        (defs_body read_body definitions : pydict) (records : list json)
        (rest : list response) :
  Py.truthy (uid w) = true ->
  server w = Reply (JDict defs_body) :: Reply (JDict read_body) :: rest ->
  Py.has_key "error" defs_body = false ->
  Py.lookup "result" defs_body = Some (JDict definitions) ->
  definitions <> [] ->
  Py.has_key "error" read_body = false ->
  Py.lookup "result" read_body = Some (JList records) ->
  exists w' : world,
    read_record_all_fields model record_id w
    = (match records with
       | [] => Raise (RecordNotFound record_id model)
       | first :: _ => Ok first
       end, w')
    /\ sent w' = sent w ++
         [("/web/dataset/call_kw",
           JDict [("model", JStr model); ("method", JStr "fields_get");
                  ("args", JList []); ("kwargs", JDict []); ("context", JDict [])]);
          ("/web/dataset/call_kw",
           JDict [("model", JStr model); ("method", JStr "read");
                  ("args", JList [JList [JInt record_id]]);
                  ("kwargs", JDict [("fields", JList (map JStr (map fst definitions)))]);
                  ("context", JDict [])])]
    /\ server w' = rest.
Proof.
  intros Hu Hsrv Herr1 Hdefs Hne Herr2 Hrecs.
  unfold read_record_all_fields, get_fields, bind.
  rewrite (call_kw_plain _ _ _ _ w defs_body _ Hu Hsrv Herr1).
  unfold Py.get_default at 1. rewrite Hdefs. cbn [field_names].
  unfold read_record, Py.keys.
  destruct (map fst definitions) as [| f fs] eqn:Hk.
  { destruct definitions; [congruence | discriminate]. }
  unfold bind.
  match goal with
  | |- context [call_kw ?m ?me ?a ?k ?w1] =>
      rewrite (call_kw_plain m me a k w1 read_body rest Hu eq_refl Herr2)
  end.
  unfold Py.get_default. rewrite Hrecs.
  eexists. split; [destruct records; reflexivity |].
  split; [| reflexivity]. cbn. rewrite <- app_assoc. reflexivity.
Qed.

Lemma read_record_all_fields_reads_every_defined_field_witness :
  exists w' : world,
    read_record_all_fields "stock.picking" 7
      (Fixtures.logged_in
         [Fixtures.reply_result (JDict [("id", JDict []); ("name", JDict [])]);
          Fixtures.reply_result (JList [JDict [("id", JInt 7); ("name", JStr "P7")]])])
    = (match [JDict [("id", JInt 7); ("name", JStr "P7")]] with
       | [] => Raise (RecordNotFound 7 "stock.picking")
       | first :: _ => Ok first
       end, w')
    /\ sent w'
       = sent (Fixtures.logged_in
                 [Fixtures.reply_result (JDict [("id", JDict []); ("name", JDict [])]);
                  Fixtures.reply_result (JList [JDict [("id", JInt 7); ("name", JStr "P7")]])])
         ++
         [("/web/dataset/call_kw",
           JDict [("model", JStr "stock.picking"); ("method", JStr "fields_get");
                  ("args", JList []); ("kwargs", JDict []); ("context", JDict [])]);
          ("/web/dataset/call_kw",
           JDict [("model", JStr "stock.picking"); ("method", JStr "read");
                  ("args", JList [JList [JInt 7]]);
                  ("kwargs",
                   JDict [("fields",
                           JList (map JStr (map fst [("id", JDict []); ("name", JDict [])])))]);
                  ("context", JDict [])])]
    /\ server w' = [].
Proof.
  apply (read_record_all_fields_reads_every_defined_field "stock.picking" 7
           (Fixtures.logged_in
              [Fixtures.reply_result (JDict [("id", JDict []); ("name", JDict [])]);
               Fixtures.reply_result (JList [JDict [("id", JInt 7); ("name", JStr "P7")]])])
           [("jsonrpc", JStr "2.0"); ("id", JInt 1);
            ("result", JDict [("id", JDict []); ("name", JDict [])])]
           [("jsonrpc", JStr "2.0"); ("id", JInt 1);
            ("result", JList [JDict [("id", JInt 7); ("name", JStr "P7")]])]
           [("id", JDict []); ("name", JDict [])]
           [JDict [("id", JInt 7); ("name", JStr "P7")]]
           []);
    try reflexivity.
  discriminate.
Defined.

(** X11.  When the model reports no field at all (an empty dict of
    definitions, or a reply without result), the two "all fields"
    helpers stop at the whitelist check of the operation they wrap: the
    fields-required error is raised after the single [fields_get]
    request, and no read is posted. *)
Theorem all_fields_helpers_need_a_defined_field
        (model : string) (record_id : Z) (domain : json)
        (w : world) (body : pydict) (rest : list response) :
  Py.truthy (uid w) = true ->
  server w = Reply (JDict body) :: rest ->
  Py.has_key "error" body = false ->
  Py.get_default "result" body (JDict []) = JDict [] ->
  exists w' : world,
    read_record_all_fields model record_id w = (Raise FieldsRequired, w')
    /\ search_read_all_fields model domain w = (Raise FieldsRequired, w')
    /\ sent w' = sent w ++
         [("/web/dataset/call_kw",
           JDict [("model", JStr model); ("method", JStr "fields_get");
                  ("args", JList []); ("kwargs", JDict []); ("context", JDict [])])]
    /\ server w' = rest.
Proof.
  intros Hu Hsrv Herr Hres. eexists.
  unfold read_record_all_fields, search_read_all_fields, get_fields, bind.
  rewrite (call_kw_plain _ _ _ _ w body rest Hu Hsrv Herr).
  rewrite Hres. repeat split.
Qed.

Lemma all_fields_helpers_need_a_defined_field_witness :
  exists w' : world,
    read_record_all_fields "stock.picking" 7
      (Fixtures.logged_in [Reply (JDict [("jsonrpc", JStr "2.0")]);
                           Fixtures.reply_result (JList [])])
    = (Raise FieldsRequired, w')
    /\ search_read_all_fields "stock.picking" (JList [])
         (Fixtures.logged_in [Reply (JDict [("jsonrpc", JStr "2.0")]);
                              Fixtures.reply_result (JList [])])
       = (Raise FieldsRequired, w')
    /\ sent w'
       = sent (Fixtures.logged_in [Reply (JDict [("jsonrpc", JStr "2.0")]);
                                   Fixtures.reply_result (JList [])]) ++
         [("/web/dataset/call_kw",
           JDict [("model", JStr "stock.picking"); ("method", JStr "fields_get");
                  ("args", JList []); ("kwargs", JDict []); ("context", JDict [])])]
    /\ server w' = [Fixtures.reply_result (JList [])].
Proof.
  apply (all_fields_helpers_need_a_defined_field "stock.picking" 7 (JList [])
           (Fixtures.logged_in [Reply (JDict [("jsonrpc", JStr "2.0")]);
                                Fixtures.reply_result (JList [])])
           [("jsonrpc", JStr "2.0")] [Fixtures.reply_result (JList [])]);
    reflexivity.
Defined.

(** ** Normalization of the updates *)

Section Normalization.

Import UpdateData BulkSpec BulkFacts.

Lemma set_twice (k : string) (v : json) (d : pydict) :
  Py.set k v (Py.set k v d) = Py.set k v d.
Proof.
  induction d as [| [k' v'] d IH]; cbn.
  - rewrite String.eqb_refl. reflexivity.
  - destruct (String.eqb k k') eqn:Hk; cbn; rewrite Hk; [reflexivity |].
    rewrite IH. reflexivity.
Qed.

Lemma normalize_update_twice (model : string) (update : pydict) :
  normalize_update model (normalize_update model update) = normalize_update model update.
Proof.
  unfold normalize_update at 2.
  destruct (String.eqb model "stock.move") eqn:Hm; cbn [andb].
  - destruct (Py.has_key "quantity" (Py.without "id" update)) eqn:Hq.
    + unfold normalize_update. rewrite Hm. cbn [andb].
      assert (Hl : Py.lookup "quantity"
                     (Py.without "id"
                        (Py.set "product_uom_qty"
                           (Py.get "quantity" (Py.without "id" update)) update))
                   = Py.lookup "quantity" (Py.without "id" update)).
      { rewrite !lookup_without by reflexivity.
        apply lookup_set_other. reflexivity. }
      unfold Py.has_key, Py.get, Py.get_default in *. rewrite Hl.
      destruct (Py.lookup "quantity" (Py.without "id" update)); [| discriminate].
      apply set_twice.
    + unfold normalize_update. rewrite Hm, Hq. reflexivity.
  - unfold normalize_update. rewrite Hm. reflexivity.
Qed.

Lemma normalize_update_keeps_id (model : string) (update : pydict) :
  Py.get "id" (normalize_update model update) = Py.get "id" update.
Proof.
  unfold normalize_update.
  destruct (String.eqb model "stock.move" && Py.has_key "quantity" (Py.without "id" update));
    [| reflexivity].
  unfold Py.get, Py.get_default. rewrite lookup_set_other by reflexivity. reflexivity.
Qed.

(** X12.  [normalize_updates] can be applied again without effect, and
    it keeps the number of entries, their order and the id of each
    one. *)
Theorem normalize_updates_is_idempotent (model : string) (updates : list pydict) :
  normalize_updates (normalize_updates updates model) model = normalize_updates updates model
  /\ List.length (normalize_updates updates model) = List.length updates
  /\ map (Py.get "id") (normalize_updates updates model) = map (Py.get "id") updates.
Proof.
  unfold normalize_updates. split; [| split].
  - rewrite map_map. apply map_ext. intros u. apply normalize_update_twice.
  - apply length_map.
  - rewrite map_map. apply map_ext. intros u. apply normalize_update_keeps_id.
Qed.

(** X13.  On a model other than ["stock.move"], and on entries that
    have no ["quantity"] among their fields, [normalize_updates] gives
    back the updates untouched. *)
Theorem normalize_updates_touches_stock_move_quantities_only
        (model : string) (updates : list pydict) :
  model <> "stock.move"
  \/ Forall (fun u => Py.has_key "quantity" (Py.without "id" u) = false) updates ->
  normalize_updates updates model = updates.
Proof.
  intros H. unfold normalize_updates.
  rewrite <- (map_id updates) at 2. apply map_ext_in. intros u Hu.
  unfold normalize_update. destruct H as [Hm | Hq].
  - apply String.eqb_neq in Hm. rewrite Hm. reflexivity.
  - rewrite Forall_forall in Hq. rewrite (Hq u Hu), andb_false_r. reflexivity.
Qed.

Lemma normalize_updates_touches_stock_move_quantities_only_witness :
  normalize_updates [[("id", JInt 1); ("quantity", JInt 5)]] "stock.picking"
  = [[("id", JInt 1); ("quantity", JInt 5)]].
Proof.
  apply (normalize_updates_touches_stock_move_quantities_only "stock.picking"
           [[("id", JInt 1); ("quantity", JInt 5)]]).
  left. discriminate.
Defined.

End Normalization.

(** ** The groups of a bulk update *)

Section Groups.

Import UpdateData BulkSpec BulkFacts.

Lemma all_ids_cons (g : group) (groups : list group) :
  all_ids (g :: groups) = group_ids g ++ all_ids groups.
Proof. reflexivity. Qed.

Lemma all_ids_app (g1 g2 : list group) :
  all_ids (g1 ++ g2) = all_ids g1 ++ all_ids g2.
Proof. unfold all_ids. rewrite map_app, concat_app. reflexivity. Qed.

Lemma all_ids_append_id (k : string) (i : json) (groups : list group) :
  has_group k groups = true ->
  Permutation (all_ids (append_id k i groups)) (i :: all_ids groups).
Proof.
  induction groups as [| g groups IH]; intros H; [discriminate |].
  unfold has_group in H. cbn [existsb] in H. cbn [append_id].
  destruct (String.eqb k (group_key g)).
  - rewrite !all_ids_cons. cbn [group_ids snd].
    rewrite <- app_assoc. cbn [app].
    symmetry. apply Permutation_middle.
  - cbn [orb] in H. rewrite !all_ids_cons.
    rewrite (Permutation_app_head (group_ids g) (IH H)).
    symmetry. apply Permutation_middle.
Qed.

Lemma all_ids_groups_of (entries : list pydict) :
  Permutation (all_ids (groups_of entries)) (map entry_id entries).
Proof.
  induction entries as [| u entries IH] using rev_ind; [constructor |].
  rewrite groups_of_snoc, map_app. cbn [map].
  rewrite <- Permutation_cons_append.
  destruct (has_group (entry_key u) (groups_of entries)) eqn:Hg.
  - rewrite (all_ids_append_id _ _ _ Hg). constructor. exact IH.
  - rewrite all_ids_append_id.
    + constructor. rewrite all_ids_app. cbn. rewrite app_nil_r. exact IH.
    + unfold has_group. rewrite existsb_app. cbn.
      rewrite String.eqb_refl. apply orb_true_r.
Qed.

(** X14.  The grouping of a bulk update loses no id and repeats none:
    the ids carried by the [write] calls, taken together, are the ids
    of the entries that have an id and a field to write, each as many
    times as it is given. *)
Theorem bulk_update_writes_each_valid_id_once
        (model : string) (updates : list pydict) (w : world) :
  exists (res : results) (w' : world) (groups : list group),
    bulk_update_records model updates w = (Ok res, w')
    /\ calls w' = calls w ++ map (write_call model) groups
    /\ Permutation (all_ids groups)
                   (map (Py.get "id")
                        (filter valid_entry (normalize_updates updates model))).
Proof.
  destruct (bulk_update_run model updates w) as (res & w' & errs & Hrun & Hcalls & _).
  exists res, w', (groups_of (filter valid_entry (normalize_updates updates model))).
  split; [exact Hrun |]. split; [exact Hcalls |]. apply all_ids_groups_of.
Qed.

(** X15.  A bulk update never posts an empty [write]: every call
    carries at least one id and at least one field. *)
Theorem bulk_update_never_writes_an_empty_group
        (model : string) (updates : list pydict) (w : world) :
  exists (res : results) (w' : world) (groups : list group),
    bulk_update_records model updates w = (Ok res, w')
    /\ calls w' = calls w ++ map (write_call model) groups
    /\ Forall (fun g => group_ids g <> [] /\ group_values g <> []) groups.
Proof.
  destruct (bulk_update_run model updates w) as (res & w' & errs & Hrun & Hcalls & _).
  exists res, w', (groups_of (filter valid_entry (normalize_updates updates model))).
  split; [exact Hrun |]. split; [exact Hcalls |].
  apply Forall_forall. intros g Hg. split.
  - unfold groups_of in Hg. apply in_map_iff in Hg. destruct Hg as (k & <- & Hk).
    rewrite in_first_seen in Hk. apply key_among in Hk. destruct Hk as (u & Hu & Hp).
    unfold group_for, group_ids, ids_with_key. cbn [snd].
    intros Hnil. apply map_eq_nil in Hnil.
    assert (Hin : In u (filter (has_key_of k)
                          (filter valid_entry (normalize_updates updates model))))
      by (apply filter_In; split; assumption).
    rewrite Hnil in Hin. destruct Hin.
  - destruct (group_values_from_entry _ g Hg) as (u & Hu & ->).
    apply filter_In in Hu. destruct Hu as [_ Hv].
    unfold valid_entry in Hv. apply andb_true_iff in Hv. destruct Hv as [_ Hv].
    destruct (entry_fields u); [discriminate | discriminate].
Qed.

End Groups.

(** ** The outcome of a bulk update *)

Section BulkOutcome.

Import UpdateData BulkSpec BulkFacts.

Variable model : string.

(** The two loops of [bulk_update_records] on a non-empty batch. *)
Lemma bulk_update_two_loops (updates : list pydict) (w : world) :
  updates <> [] ->
  exists res0 : results,
    updated res0 = 0
    /\ failed res0 = List.length (rejected_errors (normalize_updates updates model))
    /\ errors_of res0 = rejected_errors (normalize_updates updates model)
    /\ success res0 = true
    /\ bulk_update_records model updates w
       = match write_groups model
                 (groups_of (filter valid_entry (normalize_updates updates model))) res0 w with
         | (Ok res, w') =>
             (Ok (if Nat.ltb 0 (failed res)
                  then mkResults false (message res) (updated res) (failed res) (errors res)
                  else res), w')
         | (Raise e, w') => (Raise e, w')
         end.
Proof.
  intros Hne. rewrite (bulk_update_records_nonempty model updates Hne).
  pose proof (first_loop_groups (normalize_updates updates model) initial_results) as Hg.
  pose proof (first_loop_results (normalize_updates updates model) initial_results [])
    as Hr.
  cbv zeta in Hr.
  destruct (fold_left group_step (normalize_updates updates model) (initial_results, []))
    as [res0 groups0].
  cbn [fst snd] in Hg, Hr. subst groups0.
  destruct Hr as (Hu0 & Hf0 & He0 & Hs0 & _).
  exists res0. repeat split; try assumption.
Qed.

(** A turn of the second loop keeps [success] as it is. *)
Lemma write_groups_keeps_success (groups : list group) :
  forall (res res' : results) (w w' : world),
    write_groups model groups res w = (Ok res', w') -> success res' = success res.
Proof.
  induction groups as [| g groups IH]; intros res res' w w' Hrun.
  - cbn in Hrun. injection Hrun as <- _. reflexivity.
  - cbn [write_groups] in Hrun. unfold bind in Hrun.
    destruct (write_group_spec model res g w) as (res1 & w1 & Hg & _ & Hok & Hko).
    rewrite Hg in Hrun. rewrite (IH _ _ _ _ Hrun).
    destruct (call_kw model "write" _ _ w) as [[v | e] w0]; cbn [fst] in *.
    + destruct v as [| [|] | | | |];
        try (destruct Hko as (e & -> & _); [discriminate | reflexivity]).
      rewrite Hok by reflexivity. reflexivity.
    + destruct Hko as (e' & -> & _); [discriminate | reflexivity].
Qed.

(** X16.  A non-empty bulk update reports [success] exactly when no
    entry failed; an empty one reports failure with the message
    "No records to update", makes no call and leaves the client as it
    was. *)
Theorem bulk_update_success_means_no_failure (updates : list pydict) (w : world) :
  exists (res : results) (w' : world),
    bulk_update_records model updates w = (Ok res, w')
    /\ success res = (match updates with
                      | [] => false
                      | _ => Nat.eqb (failed res) 0
                      end)
    /\ (updates = [] ->
        w' = w /\ message res = Some "No records to update"
        /\ updated res = 0 /\ failed res = 0).
Proof.
  assert (Hcase : updates = [] \/ updates <> [])
    by (destruct updates; [left; reflexivity | right; discriminate]).
  destruct Hcase as [-> | Hne].
  - do 2 eexists. split; [reflexivity |]. repeat split.
  - destruct (bulk_update_two_loops updates w Hne) as (res0 & _ & _ & _ & Hs0 & Hrun).
    destruct (write_groups_spec model
                (groups_of (filter valid_entry (normalize_updates updates model))) res0 w)
      as (res1 & w1 & errs & Hloop & _).
    rewrite Hloop in Hrun.
    pose proof (write_groups_keeps_success _ _ _ _ _ Hloop) as Hs1.
    do 2 eexists. split; [exact Hrun |].
    split; [| intros ->; congruence].
    destruct updates as [| u0 us]; [congruence |].
    destruct (failed res1) as [| n] eqn:Hf; cbn.
    + rewrite Hf, Hs1, Hs0. reflexivity.
    + reflexivity.
Qed.

(** Without a session every write of the second loop fails without a
    request. *)
Lemma write_groups_without_session (groups : list group) :
  forall (res : results) (w : world),
    Py.truthy (uid w) = false ->
    exists (res' : results) (w' : world),
      write_groups model groups res w = (Ok res', w')
      /\ sent w' = sent w /\ server w' = server w /\ uid w' = uid w
      /\ updated res' = updated res
      /\ failed res' = failed res + total_ids groups
      /\ errors_of res'
         = errors_of res
           ++ map (fun g => ErrorUpdating (group_ids g) NotAuthenticated) groups.
Proof.
  induction groups as [| g groups IH]; intros res w Hu.
  - exists res, w. cbn. rewrite app_nil_r. repeat split. unfold total_ids. cbn. lia.
  - cbn [write_groups]. unfold bind, write_group, try_except, bind.
    rewrite (call_kw_not_authenticated _ _ _ _ w Hu). unfold ret.
    destruct (IH (fail (ErrorUpdating (group_ids g) NotAuthenticated)
                       (List.length (group_ids g)) res)
                 (log_call model "write"
                    (JList [JList (group_ids g); JDict (group_values g)]) (JDict []) w) Hu)
      as (res' & w' & Hrun & Hsent & Hsrv & Huid & Hupd & Hfail & Herrs).
    exists res', w'. split; [exact Hrun |].
    cbn [sent server uid log_call updated failed fail errors_of errors] in *.
    rewrite total_ids_cons. cbn [map].
    repeat split; try assumption; try lia.
    rewrite Herrs, <- app_assoc. reflexivity.
Qed.

(** X17.  A bulk update run without a session (the client never logged
    in, or the login stored a falsy user id) posts nothing at all: every
    group fails with the not-authenticated error, nothing is counted as
    updated, every entry is counted as failed and the batch is reported
    as failed. *)
Theorem bulk_update_without_session_posts_nothing (updates : list pydict) (w : world) :
  Py.truthy (uid w) = false ->
  updates <> [] ->
  exists (res : results) (w' : world),
    bulk_update_records model updates w = (Ok res, w')
    /\ sent w' = sent w
    /\ server w' = server w
    /\ success res = false
    /\ updated res = 0
    /\ failed res = List.length updates
    /\ errors_of res
       = rejected_errors (normalize_updates updates model)
         ++ map (fun g => ErrorUpdating (group_ids g) NotAuthenticated)
                (groups_of (filter valid_entry (normalize_updates updates model))).
Proof.
  intros Hu Hne.
  destruct (bulk_update_two_loops updates w Hne) as (res0 & Hu0 & Hf0 & He0 & Hs0 & Hrun).
  destruct (write_groups_without_session
              (groups_of (filter valid_entry (normalize_updates updates model))) res0 w Hu)
    as (res1 & w1 & Hloop & Hsent & Hsrv & _ & Hupd & Hfail & Herrs).
  rewrite Hloop in Hrun.
  pose proof (rejected_plus_valid (normalize_updates updates model)) as Hlen.
  unfold normalize_updates in Hlen at 3. rewrite length_map in Hlen.
  rewrite total_ids_groups_of in Hfail.
  assert (Hpos : failed res1 = List.length updates) by lia.
  assert (Hlt : Nat.ltb 0 (failed res1) = true).
  { apply Nat.ltb_lt. rewrite Hpos. destruct updates; [congruence | cbn; lia]. }
  rewrite Hlt in Hrun.
  do 2 eexists. split; [exact Hrun |].
  change (errors_of (mkResults false (message res1) (updated res1) (failed res1)
                       (errors res1)))
    with (errors_of res1).
  cbn [success updated failed].
  repeat split; try assumption; try lia.
  rewrite Herrs, He0. reflexivity.
Qed.

End BulkOutcome.

Section BulkOutcomeWitness.

Import UpdateData BulkSpec.

Lemma bulk_update_without_session_posts_nothing_witness :
  exists (res : results) (w' : world),
    bulk_update_records "stock.move" [[("id", JInt 1); ("quantity", JInt 5)]]
      (new_client "18_odoo" "admin" "admin" [Fixtures.reply_result (JBool true)])
    = (Ok res, w')
    /\ sent w' = sent (new_client "18_odoo" "admin" "admin" [Fixtures.reply_result (JBool true)])
    /\ server w'
       = server (new_client "18_odoo" "admin" "admin" [Fixtures.reply_result (JBool true)])
    /\ success res = false
    /\ updated res = 0
    /\ failed res = List.length [[("id", JInt 1); ("quantity", JInt 5)]]
    /\ errors_of res
       = rejected_errors (normalize_updates [[("id", JInt 1); ("quantity", JInt 5)]] "stock.move")
         ++ map (fun g => ErrorUpdating (group_ids g) NotAuthenticated)
                (groups_of (filter valid_entry
                              (normalize_updates [[("id", JInt 1); ("quantity", JInt 5)]]
                                                 "stock.move"))).
Proof.
  apply (bulk_update_without_session_posts_nothing "stock.move"
           [[("id", JInt 1); ("quantity", JInt 5)]]
           (new_client "18_odoo" "admin" "admin" [Fixtures.reply_result (JBool true)])).
  - reflexivity.
  - discriminate.
Defined.

End BulkOutcomeWitness.

Section BulkAllWritten.

Import UpdateData BulkSpec BulkFacts.

(** With a session and a server that answers [True] to each write, the
    second loop counts every id as updated and records no error. *)
Lemma write_groups_all_true (model : string) (groups : list group) :
  forall (replies rest : list response) (res : results) (w : world),
    Py.truthy (uid w) = true ->
    server w = replies ++ rest ->
    List.length replies = List.length groups ->
    Forall answers_true replies ->
    exists (res' : results) (w' : world),
      write_groups model groups res w = (Ok res', w')
      /\ server w' = rest
      /\ List.length (sent w') = List.length (sent w) + List.length groups
      /\ updated res' = updated res + total_ids groups
      /\ failed res' = failed res
      /\ errors_of res' = errors_of res.
Proof.
  induction groups as [| g groups IH]; intros replies rest res w Hu Hsrv Hlen Hall.
  - destruct replies; [| discriminate].
    exists res, w. cbn in *. unfold total_ids. cbn. repeat split; try lia. exact Hsrv.
  - destruct replies as [| r replies]; [discriminate |].
    inversion Hall as [| ? ? (body & -> & Herr & Hres) Hall']; subst.
    cbn [write_groups]. unfold bind, write_group, try_except, bind.
    rewrite (call_kw_plain _ _ _ _ w body (replies ++ rest) Hu Hsrv Herr).
    unfold Py.get_default. rewrite Hres. cbn [Py.is_True]. unfold ret.
    match goal with
    | |- context [write_groups model groups ?r ?w1] =>
        destruct (IH replies rest r w1 Hu eq_refl (eq_add_S _ _ Hlen) Hall')
          as (res' & w' & Hrun & Hs & Hn & Hupd & Hfail & Herrs)
    end.
    exists res', w'. split; [exact Hrun |].
    rewrite total_ids_cons.
    cbn [sent log_request log_call set_server updated failed succeed errors_of errors] in *.
    rewrite length_app in Hn. cbn [List.length] in *.
    repeat split; try assumption; lia.
Qed.

(** X18.  With a session, and a server that answers [True] to each of
    the writes, a non-empty bulk update posts one request per group,
    counts as updated every entry that has an id and a field to write,
    counts as failed the entries turned away and no other, and reports
    success exactly when no entry was turned away. *)
Theorem bulk_update_counts_when_every_write_succeeds
        (model : string) (updates : list pydict) (w : world)
        (replies rest : list response) :
  updates <> [] ->
  Py.truthy (uid w) = true ->
  server w = replies ++ rest ->
  List.length replies
  = List.length (groups_of (filter valid_entry (normalize_updates updates model))) ->
  Forall answers_true replies ->
  exists (res : results) (w' : world),
    bulk_update_records model updates w = (Ok res, w')
    /\ server w' = rest
    /\ List.length (sent w') = List.length (sent w) + List.length replies
    /\ updated res = List.length (filter valid_entry (normalize_updates updates model))
    /\ failed res = List.length (rejected_errors (normalize_updates updates model))
    /\ errors_of res = rejected_errors (normalize_updates updates model)
    /\ success res
       = Nat.eqb (List.length (rejected_errors (normalize_updates updates model))) 0.
Proof.
  intros Hne Hu Hsrv Hlen Hall.
  destruct (bulk_update_two_loops model updates w Hne)
    as (res0 & Hu0 & Hf0 & He0 & Hs0 & Hrun).
  destruct (write_groups_all_true model _ replies rest res0 w Hu Hsrv Hlen Hall)
    as (res1 & w1 & Hloop & Hs & Hn & Hupd & Hfail & Herrs).
  rewrite Hloop in Hrun.
  pose proof (write_groups_keeps_success model _ _ _ _ _ Hloop) as Hs1.
  rewrite total_ids_groups_of in Hupd.
  do 2 eexists. split; [exact Hrun |].
  split; [exact Hs |]. split; [lia |].
  destruct (failed res1) as [| n] eqn:Hf1.
  - cbn [Nat.ltb Nat.leb]. rewrite Hs1, Hs0, Herrs, <- Hf0, <- Hfail.
    repeat split; try lia; try assumption.
  - change (Nat.ltb 0 (S n)) with true. cbv iota.
    change (errors_of (mkResults false (message res1) (updated res1) (S n) (errors res1)))
      with (errors_of res1).
    cbn [success updated failed]. rewrite Herrs, <- Hf0, <- Hfail.
    repeat split; try lia; try assumption.
Qed.

Lemma bulk_update_counts_when_every_write_succeeds_witness :
  exists (res : results) (w' : world),
    bulk_update_records "stock.move" quantity_updates
      (Fixtures.logged_in [Fixtures.reply_result (JBool true);
                           Fixtures.reply_result (JBool true)])
    = (Ok res, w')
    /\ server w' = []
    /\ List.length (sent w')
       = List.length (sent (Fixtures.logged_in [Fixtures.reply_result (JBool true);
                                                Fixtures.reply_result (JBool true)]))
         + List.length [Fixtures.reply_result (JBool true); Fixtures.reply_result (JBool true)]
    /\ updated res
       = List.length (filter valid_entry (normalize_updates quantity_updates "stock.move"))
    /\ failed res
       = List.length (rejected_errors (normalize_updates quantity_updates "stock.move"))
    /\ errors_of res = rejected_errors (normalize_updates quantity_updates "stock.move")
    /\ success res
       = Nat.eqb (List.length
                    (rejected_errors (normalize_updates quantity_updates "stock.move"))) 0.
Proof.
  apply (bulk_update_counts_when_every_write_succeeds "stock.move" quantity_updates
           (Fixtures.logged_in [Fixtures.reply_result (JBool true);
                                Fixtures.reply_result (JBool true)])
           [Fixtures.reply_result (JBool true); Fixtures.reply_result (JBool true)] []).
  - discriminate.
  - reflexivity.
  - reflexivity.
  - reflexivity.
  - repeat constructor; eexists; repeat split.
Defined.

End BulkAllWritten.

(** ** Updating pickings with one write *)

Section PickingUpdates.

Import UpdateData.

(** X19.  [update_stock_pickings] never raises and is all or nothing.
    With no field or no id it returns a failure at once, the client
    untouched.  Otherwise it makes exactly one [write] call on all the
    ids at once: when that call returns the boolean [True] every id is
    counted as updated and the result is a success, and when it returns
    anything else or raises, every id is counted as failed. *)
Theorem update_stock_pickings_is_all_or_nothing
        (field_updates : pydict) (picking_ids : list Z) (w : world) :
  exists (res : pickings_results) (w' : world),
    update_stock_pickings field_updates picking_ids w = (Ok res, w')
    /\ (field_updates = [] \/ picking_ids = [] ->
        w' = w /\ p_success res = false /\ p_updated res = 0 /\ p_failed res = 0
        /\ p_errors res = None)
    /\ (field_updates <> [] -> picking_ids <> [] ->
        calls w' = calls w ++
          [("stock.picking", "write",
            JList [JList (map JInt picking_ids); JDict field_updates], JDict [])]
        /\ (fst (call_kw "stock.picking" "write"
                   (JList [JList (map JInt picking_ids); JDict field_updates]) (JDict []) w)
            = Ok (JBool true) ->
            p_success res = true /\ p_updated res = List.length picking_ids
            /\ p_failed res = 0 /\ p_errors res = Some [])
        /\ (fst (call_kw "stock.picking" "write"
                   (JList [JList (map JInt picking_ids); JDict field_updates]) (JDict []) w)
            <> Ok (JBool true) ->
            p_success res = false /\ p_updated res = 0
            /\ p_failed res = List.length picking_ids
            /\ exists e, p_errors res = Some [e])).
Proof.
  unfold update_stock_pickings.
  destruct field_updates as [| kv fields].
  { do 2 eexists. split; [reflexivity |]. split; [repeat split | congruence]. }
  destruct picking_ids as [| p ids].
  { do 2 eexists. split; [reflexivity |]. split; [repeat split | congruence]. }
  unfold try_except, bind.
  pose proof (call_kw_calls "stock.picking" "write"
                (JList [JList (map JInt (p :: ids)); JDict (kv :: fields)]) (JDict []) w)
    as Hc.
  destruct (call_kw "stock.picking" "write" _ _ w) as [[v | e] w1]; cbn [fst snd] in *.
  - unfold ret. do 2 eexists. split; [reflexivity |].
    split; [intros [H | H]; discriminate |]. intros _ _. split; [exact Hc |].
    split.
    + intros [= ->]. repeat split.
    + intros Hv. destruct (Py.is_True v) eqn:Ht.
      * apply is_True_iff in Ht. congruence.
      * repeat split. eexists. reflexivity.
  - unfold ret. do 2 eexists. split; [reflexivity |].
    split; [intros [H | H]; discriminate |]. intros _ _. split; [exact Hc |].
    split; [discriminate |]. intros _. repeat split. eexists. reflexivity.
Qed.

End PickingUpdates.

Section PickingStatusUpdates.

Import UpdatePickingStatus.

(** X20.  [update_stock_picking_status] never raises, makes no call
    when it is given no field or no id, and otherwise makes exactly one
    [write] call on all the ids.  The ids it reports as updated are all
    the ids it was given when that call returns the boolean [True], and
    none in every other case, so that the counters add up to the
    number of ids and a success always comes with at least one id. *)
Theorem update_stock_picking_status_reports_the_ids_written
        (field_updates : pydict) (picking_ids : list Z) (w : world) :
  exists (res : update_results) (w' : world),
    update_stock_picking_status field_updates picking_ids w = (Ok res, w')
    /\ (field_updates = [] \/ picking_ids = [] ->
        w' = w /\ u_success res = false /\ u_updated res = 0 /\ u_failed res = 0
        /\ u_picking_ids res = None)
    /\ (field_updates <> [] -> picking_ids <> [] ->
        calls w' = calls w ++
          [("stock.picking", "write",
            JList [JList (map JInt picking_ids); JDict field_updates], JDict [])]
        /\ u_updated res + u_failed res = List.length picking_ids
        /\ (u_success res = true ->
            u_picking_ids res = Some picking_ids
            /\ u_updated res = List.length picking_ids /\ 0 < u_updated res
            /\ u_errors res = [])
        /\ (u_success res = false ->
            u_picking_ids res = Some [] /\ u_updated res = 0
            /\ exists e, u_errors res = [e])
        /\ (u_success res = true <->
            fst (call_kw "stock.picking" "write"
                   (JList [JList (map JInt picking_ids); JDict field_updates]) (JDict []) w)
            = Ok (JBool true))).
Proof.
  unfold update_stock_picking_status.
  destruct field_updates as [| kv fields].
  { do 2 eexists. split; [reflexivity |]. split; [repeat split | congruence]. }
  destruct picking_ids as [| p ids].
  { do 2 eexists. split; [reflexivity |]. split; [repeat split | congruence]. }
  unfold try_except, bind.
  pose proof (call_kw_calls "stock.picking" "write"
                (JList [JList (map JInt (p :: ids)); JDict (kv :: fields)]) (JDict []) w)
    as Hc.
  destruct (call_kw "stock.picking" "write" _ _ w) as [[v | e] w1]; cbn [fst snd] in *.
  - unfold ret. do 2 eexists. split; [reflexivity |].
    split; [intros [H | H]; discriminate |]. intros _ _. split; [exact Hc |].
    destruct (Py.is_True v) eqn:Ht.
    + apply is_True_iff in Ht. subst v. cbn.
      repeat split; try lia; try discriminate.
    + cbn. repeat split; try lia; try discriminate.
      * eexists. reflexivity.
      * intros [= ->]. discriminate.
  - unfold ret. do 2 eexists. split; [reflexivity |].
    split; [intros [H | H]; discriminate |]. intros _ _. split; [exact Hc |].
    cbn. repeat split; try lia; try discriminate. eexists. reflexivity.
Qed.

End PickingStatusUpdates.

(** ** Calling a model method *)

(** X21.  [call_update_salla] never raises: it reports success with the
    value returned when [call_kw] returns, and failure with the
    exception caught when it raises; the call is
    [update_salla] on the model ["stock.picking"] with the picking id as
    its single positional argument, not wrapped in a list of ids. *)
Theorem call_update_salla_reports_the_outcome_of_the_call (picking_id : Z) (w : world) :
  exists (report : CallUpdateSalla.call_report) (w' : world),
    CallUpdateSalla.call_update_salla picking_id w = (Ok report, w')
    /\ (call_kw "stock.picking" "update_salla" (JList [JInt picking_id]) (JDict []) w
        = (CallUpdateSalla.outcome report, w'))
    /\ CallUpdateSalla.picking_id report = picking_id
    /\ CallUpdateSalla.success report
       = (match CallUpdateSalla.outcome report with Ok _ => true | Raise _ => false end)
    /\ calls w' = calls w ++
         [("stock.picking", "update_salla", JList [JInt picking_id], JDict [])].
Proof.
  unfold CallUpdateSalla.call_update_salla, try_except, bind, call_kw_keywords.
  pose proof (call_kw_calls "stock.picking" "update_salla" (JList [JInt picking_id])
                (JDict []) w) as Hc.
  destruct (call_kw "stock.picking" "update_salla" _ _ w) as [[v | e] w1];
    cbn [snd] in Hc; do 2 eexists; repeat split; exact Hc.
Qed.

(** ** Verification: counters and failures of the fetch *)

Section VerificationOutcome.

Import UpdatePickingStatus VerifySpec.

Lemma filter_partition_length {A : Type} (p : A -> bool) (l : list A) :
  List.length (filter p l) + List.length (filter (fun x => negb (p x)) l) = List.length l.
Proof.
  induction l as [| a l IH]; [reflexivity |].
  cbn [filter]. destruct (p a); cbn [negb List.length]; lia.
Qed.

(** X22.  [verify_picking_updates] never raises.  Either the fetch went
    through and every picking id is counted exactly once, as verified
    or as failed, or the fetch (or the indexing of its records by id)
    raised, and then both counters are zero and the only error is the
    verification error carrying the exception. *)
Theorem verification_counts_every_picking_or_none
        (picking_ids : list Z) (expected_fields : pydict) (w : world) :
  exists (res : verification_results) (w' : world),
    verify_picking_updates picking_ids expected_fields w = (Ok res, w')
    /\ (verified res + failed res = List.length picking_ids
        \/ (verified res = 0 /\ failed res = 0
            /\ exists e, errors res = [VerificationError e])).
Proof.
  unfold verify_picking_updates.
  destruct picking_ids as [| p ids] eqn:Hp.
  { do 2 eexists. split; [reflexivity |]. left. reflexivity. }
  rewrite <- Hp. unfold try_except, bind.
  destruct (search_read "stock.picking" (picking_domain picking_ids)
              (Py.keys expected_fields) w) as [[records | e] w1].
  - destruct (records_map_of records) as [records_map | e].
    + unfold ret. do 2 eexists. split; [reflexivity |]. left.
      destruct (verify_loop_spec records_map expected_fields picking_ids
                  (mkVerification 0 0 [])) as [Hv Hf].
      rewrite Hv, Hf. cbn [verified failed].
      pose proof (filter_partition_length (verified_id records_map expected_fields)
                    picking_ids).
      lia.
    + unfold raise, ret. do 2 eexists. split; [reflexivity |]. right.
      repeat split. eexists. reflexivity.
  - unfold ret. do 2 eexists. split; [reflexivity |]. right.
    repeat split. eexists. reflexivity.
Qed.

(** X23.  A verification asked with picking ids but no expected field
    contacts nobody: the fetch stops at the whitelist check, nothing is
    verified, nothing is counted as failed, and the one error reported
    is the fields-required error. *)
Theorem verification_without_expected_fields_posts_nothing
        (picking_ids : list Z) (w : world) :
  picking_ids <> [] ->
  verify_picking_updates picking_ids [] w
  = (Ok (mkVerification 0 0 [VerificationError FieldsRequired]), w).
Proof.
  intros Hne. unfold verify_picking_updates.
  destruct picking_ids; [congruence | reflexivity].
Qed.

Lemma verification_without_expected_fields_posts_nothing_witness :
  verify_picking_updates [108080%Z] []
    (Fixtures.logged_in [Fixtures.reply_result (JList [])])
  = (Ok (mkVerification 0 0 [VerificationError FieldsRequired]),
     Fixtures.logged_in [Fixtures.reply_result (JList [])]).
Proof.
  apply (verification_without_expected_fields_posts_nothing [108080%Z]
           (Fixtures.logged_in [Fixtures.reply_result (JList [])])).
  discriminate.
Defined.

Lemma verify_loop_nothing_fetched (expected_fields : pydict) (picking_ids : list Z) :
  forall res : verification_results,
    fold_left (verify_one [] expected_fields) picking_ids res
    = mkVerification (verified res) (failed res + List.length picking_ids)
                     (errors res ++ map PickingNotFound picking_ids).
Proof.
  induction picking_ids as [| p ids IH]; intros res.
  - cbn. rewrite Nat.add_0_r, app_nil_r. destruct res; reflexivity.
  - cbn [fold_left]. rewrite IH. cbn [verify_one map_get verified failed errors map].
    rewrite <- app_assoc. cbn [List.length app]. f_equal. lia.
Qed.

(** X24.  When the server finds none of the pickings (it answers the
    search with an empty list, or with any falsy result), every picking
    id is counted as failed and reported as not found, in the order
    given, and none is verified. *)
Theorem verification_reports_unfetched_pickings_as_not_found
        (picking_ids : list Z) (expected_fields : pydict) (w : world)
        (body : pydict) (rest : list response) :
  picking_ids <> [] ->
  expected_fields <> [] ->
  Py.truthy (uid w) = true ->
  server w = Reply (JDict body) :: rest ->
  Py.has_key "error" body = false ->
  Py.truthy (Py.get_default "result" body (JDict [])) = false ->
  exists w' : world,
    verify_picking_updates picking_ids expected_fields w
    = (Ok (mkVerification 0 (List.length picking_ids) (map PickingNotFound picking_ids)), w')
    /\ sent w' = sent w ++ [verification_request picking_ids expected_fields].
Proof.
  intros Hids Hexp Hu Hsrv Herr Hfalsy.
  unfold verify_picking_updates.
  destruct picking_ids as [| p0 ids0] eqn:Hp; [congruence |]. rewrite <- Hp.
  unfold try_except, bind, search_read.
  destruct (Py.keys expected_fields) as [| f fs] eqn:Hk.
  { destruct expected_fields; [congruence | discriminate]. }
  rewrite <- Hk. unfold bind.
  rewrite (call_kw_plain _ _ _ _ w body rest Hu Hsrv Herr).
  rewrite Hfalsy. unfold ret. cbn [records_map_of build_records_map].
  rewrite verify_loop_nothing_fetched. cbn [verified failed errors app].
  eexists. split; reflexivity.
Qed.

Lemma verification_reports_unfetched_pickings_as_not_found_witness :
  exists w' : world,
    verify_picking_updates [7%Z; 8%Z] [("delivered", JBool true)]
      (Fixtures.logged_in [Fixtures.reply_result (JList [])])
    = (Ok (mkVerification 0 (List.length [7%Z; 8%Z]) (map PickingNotFound [7%Z; 8%Z])), w')
    /\ sent w' = sent (Fixtures.logged_in [Fixtures.reply_result (JList [])]) ++
         [verification_request [7%Z; 8%Z] [("delivered", JBool true)]].
Proof.
  apply (verification_reports_unfetched_pickings_as_not_found
           [7%Z; 8%Z] [("delivered", JBool true)]
           (Fixtures.logged_in [Fixtures.reply_result (JList [])])
           [("jsonrpc", JStr "2.0"); ("id", JInt 1); ("result", JList [])] []);
    try reflexivity; discriminate.
Defined.

End VerificationOutcome.

(** ** The grouping key does not depend on the order of the fields *)

Section KeyOrder.

Import UpdateData.

Lemma string_compare_trans_le (x : string) :
  forall y z : string,
    String.compare x y <> Gt -> String.compare y z <> Gt -> String.compare x z <> Gt.
Proof.
  induction x as [| a x IH]; intros y z Hxy Hyz.
  - destruct z; discriminate.
  - destruct y as [| b y]; [cbn in Hxy; congruence |].
    destruct z as [| c z]; [cbn in Hyz; congruence |].
    cbn [String.compare] in *.
    destruct (Ascii.compare a b) eqn:Hab; [| | congruence];
      destruct (Ascii.compare b c) eqn:Hbc; try congruence.
    + apply Ascii.compare_eq_iff in Hab, Hbc. subst.
      unfold Ascii.compare. rewrite N.compare_refl. eapply IH; eassumption.
    + apply Ascii.compare_eq_iff in Hab. subst. rewrite Hbc. discriminate.
    + apply Ascii.compare_eq_iff in Hbc. subst. rewrite Hab. discriminate.
    + unfold Ascii.compare in *.
      rewrite N.compare_lt_iff in Hab, Hbc.
      assert (H : (N_of_ascii a ?= N_of_ascii c)%N = Lt)
        by (apply N.compare_lt_iff; lia).
      rewrite H. discriminate.
Qed.

Lemma string_leb_trans (x y z : string) :
  String.leb x y = true -> String.leb y z = true -> String.leb x z = true.
Proof.
  unfold String.leb. intros Hxy Hyz.
  pose proof (string_compare_trans_le x y z) as H.
  destruct (String.compare x y); destruct (String.compare y z);
    destruct (String.compare x z); try reflexivity; try discriminate;
    exfalso; apply H; congruence.
Qed.

(** Of two distinct keys exactly one comes first. *)
Lemma string_leb_flip (x y : string) :
  x <> y -> String.leb y x = negb (String.leb x y).
Proof.
  intros Hne.
  destruct (String.leb x y) eqn:Hxy, (String.leb y x) eqn:Hyx; try reflexivity.
  - exfalso. apply Hne. apply String.leb_antisym; assumption.
  - destruct (String.leb_total x y); congruence.
Qed.

Lemma insert_sorted_swap {V : Type} (a b : string * V) (l : list (string * V)) :
  fst a <> fst b ->
  Render.insert_sorted a (Render.insert_sorted b l)
  = Render.insert_sorted b (Render.insert_sorted a l).
Proof.
  intros Hne. induction l as [| y l IH].
  - cbn. rewrite (string_leb_flip (fst b) (fst a)) by congruence.
    destruct (String.leb (fst b) (fst a)); reflexivity.
  - cbn [Render.insert_sorted].
    destruct (String.leb (fst a) (fst y)) eqn:Hay, (String.leb (fst b) (fst y)) eqn:Hby;
      cbn [Render.insert_sorted]; rewrite ?Hay, ?Hby.
    + rewrite (string_leb_flip (fst b) (fst a)) by congruence.
      destruct (String.leb (fst b) (fst a)); reflexivity.
    + destruct (String.leb (fst b) (fst a)) eqn:Hba; [| reflexivity].
      rewrite (string_leb_trans _ _ _ Hba Hay) in Hby. discriminate.
    + destruct (String.leb (fst a) (fst b)) eqn:Hab; [| reflexivity].
      rewrite (string_leb_trans _ _ _ Hab Hby) in Hay. discriminate.
    + rewrite IH. reflexivity.
Qed.

Lemma sort_items_permutation {V : Type} (l l' : list (string * V)) :
  Permutation l l' -> NoDup (map fst l) ->
  Render.sort_items l = Render.sort_items l'.
Proof.
  unfold Render.sort_items.
  induction 1 as [| x l l' Hp IH | x y l | l l' l'' Hp1 IH1 Hp2 IH2]; intros Hnd.
  - reflexivity.
  - cbn. inversion Hnd; subst. rewrite IH by assumption. reflexivity.
  - cbn. apply insert_sorted_swap.
    cbn in Hnd. inversion Hnd as [| ? ? Hn _]; subst.
    intros Heq. apply Hn. left. symmetry. exact Heq.
  - rewrite IH1 by assumption. apply IH2.
    eapply Permutation_NoDup; [| exact Hnd]. apply Permutation_map, Hp1.
Qed.

(** X25.  The key under which a bulk update groups an entry does not
    depend on the order in which its fields are written: two field
    mappings with the same entries in a different order (each field
    named once) have the same key, so that such entries are written by
    the same call. *)
Theorem update_key_ignores_field_order (fields fields' : pydict) :
  Permutation fields fields' ->
  NoDup (Py.keys fields) ->
  update_key_of fields = update_key_of fields'.
Proof.
  intros Hp Hnd. unfold update_key_of. cbn [Render.dumps_sorted].
  rewrite (sort_items_permutation
             (map (fun kv => (fst kv, Render.dumps_sorted (snd kv))) fields)
             (map (fun kv => (fst kv, Render.dumps_sorted (snd kv))) fields')).
  - reflexivity.
  - apply Permutation_map, Hp.
  - rewrite map_map. exact Hnd.
Qed.

Lemma update_key_ignores_field_order_witness :
  update_key_of [("quantity", JInt 5); ("product_uom_qty", JInt 5); ("name", JStr "x")]
  = update_key_of [("name", JStr "x"); ("quantity", JInt 5); ("product_uom_qty", JInt 5)].
Proof.
  apply (update_key_ignores_field_order
           [("quantity", JInt 5); ("product_uom_qty", JInt 5); ("name", JStr "x")]
           [("name", JStr "x"); ("quantity", JInt 5); ("product_uom_qty", JInt 5)]).
  - apply (perm_trans (l' := [("quantity", JInt 5); ("name", JStr "x");
                              ("product_uom_qty", JInt 5)])).
    + apply perm_skip. apply perm_swap.
    + apply perm_swap.
  - repeat constructor; cbn; intuition discriminate.
Defined.

End KeyOrder.

(** ** The grouping of a bulk update and its key *)

Section GroupingKey.

Import UpdateData BulkSpec BulkFacts.






End GroupingKey.

(** ** Fetching a picking and the order statuses *)

Section Fetching.

Import FetchData FetchStatus.

Lemma shape_move_keys (move shaped : json) :
  shape_move move = Ok shaped ->
  exists fields, shaped = JDict fields /\ Py.keys fields = STOCK_MOVE_WHITELIST.
Proof.
  unfold shape_move. destruct move as [| | | | | m]; try discriminate.
  destruct (Py.lookup "id" m); [| discriminate].
  intros [= <-]. eexists. split; reflexivity.
Qed.

Lemma shape_moves_spec (moves : list json) :
  forall shaped : list json,
    shape_moves moves = Ok shaped ->
    List.length shaped = List.length moves
    /\ Forall (fun s => exists fields,
                   s = JDict fields /\ Py.keys fields = STOCK_MOVE_WHITELIST) shaped.
Proof.
  induction moves as [| move rest IH]; intros shaped H.
  - injection H as <-. split; [reflexivity | constructor].
  - cbn [shape_moves] in H.
    destruct (shape_move move) as [s | e] eqn:Hs; [| discriminate].
    destruct (shape_moves rest) as [others | e]; [| discriminate].
    injection H as <-. destruct (IH others eq_refl) as [Hl Hf].
    split; [cbn; congruence |]. constructor; [| exact Hf].
    apply (shape_move_keys move s Hs).
Qed.

(** X26.  Whatever the server sends, a picking that
    [fetch_stock_picking_data] returns has the fixed shape and nothing
    else: one key ["stock_picking"] holding the thirteen scalar fields,
    [move_ids] and [moves], in that order, each move holding the nine
    fields of the move whitelist.  A field the server adds does not
    reach the output, a field it leaves out is there with [None]. *)
Theorem fetched_picking_has_the_fixed_shape
        (picking_id : Z) (srv : list response) (out : json) (w' : world) :
  fetch_stock_picking_data picking_id srv = (Ok out, w') ->
  exists (fields : pydict) (moves : list json),
    out = JDict [("stock_picking", JDict fields)]
    /\ Py.keys fields
       = ["id"; "name"; "origin"; "move_type"; "state"; "location_id"; "location_dest_id";
          "picking_type_id"; "warehouse_address_id"; "picking_type_code"; "partner_id";
          "sale_id"; "salla_order_status_id"; "move_ids"; "moves"]
    /\ Py.lookup "moves" fields = Some (JList moves)
    /\ Forall (fun m => exists move_fields,
                   m = JDict move_fields /\ Py.keys move_fields = STOCK_MOVE_WHITELIST)
              moves.
Proof.
  unfold fetch_stock_picking_data, bind.
  destruct (authenticate _) as [[b | e] w1]; [| discriminate].
  destruct (read_record "stock.picking" picking_id STOCK_PICKING_WHITELIST w1)
    as [[picking | e] w2]; [| discriminate].
  destruct picking as [| | | | | p]; try discriminate.
  match goal with
  | |- context [(if ?c then ?a else ?b) w2] => destruct ((if c then a else b) w2)
                                                 as [[moves | e] w3]
  end; [| discriminate].
  destruct (Py.lookup "id" p) as [id |]; [| discriminate].
  destruct (shape_all_moves moves) as [shaped | e] eqn:Hs; [| discriminate].
  intros [= <- _].
  do 2 eexists. split; [reflexivity |]. split; [reflexivity |]. split; [reflexivity |].
  unfold shape_all_moves in Hs. destruct moves; try discriminate.
  apply (shape_moves_spec _ _ Hs).
Qed.

Lemma fetched_picking_has_the_fixed_shape_witness :
  exists (fields : pydict) (moves : list json),
    JDict [("stock_picking",
            JDict [("id", JInt 7); ("name", JStr "P7"); ("origin", JNone);
                   ("move_type", JNone); ("state", JNone); ("location_id", JNone);
                   ("location_dest_id", JNone); ("picking_type_id", JNone);
                   ("warehouse_address_id", JNone); ("picking_type_code", JNone);
                   ("partner_id", JNone); ("sale_id", JNone);
                   ("salla_order_status_id", JNone); ("move_ids", JList []);
                   ("moves", JList [])])]
    = JDict [("stock_picking", JDict fields)]
    /\ Py.keys fields
       = ["id"; "name"; "origin"; "move_type"; "state"; "location_id"; "location_dest_id";
          "picking_type_id"; "warehouse_address_id"; "picking_type_code"; "partner_id";
          "sale_id"; "salla_order_status_id"; "move_ids"; "moves"]
    /\ Py.lookup "moves" fields = Some (JList moves)
    /\ Forall (fun m => exists move_fields,
                   m = JDict move_fields /\ Py.keys move_fields = STOCK_MOVE_WHITELIST)
              moves.
Proof.
  apply (fetched_picking_has_the_fixed_shape 7
           [Fixtures.reply_result (JDict [("uid", JInt 2)]);
            Fixtures.reply_result
              (JList [JDict [("id", JInt 7); ("name", JStr "P7"); ("secret", JStr "s")]])]
           _
           (snd (fetch_stock_picking_data 7
                   [Fixtures.reply_result (JDict [("uid", JInt 2)]);
                    Fixtures.reply_result
                      (JList [JDict [("id", JInt 7); ("name", JStr "P7");
                                     ("secret", JStr "s")]])]))).
  vm_compute. reflexivity.
Defined.

(** X27.  On a server that accepts the login and answers the read with
    a picking that lists moves, [fetch_stock_picking_data] posts three
    requests and no more: the login with the configured credentials,
    the read of the picking with the picking whitelist, and one
    [search_read] on ["stock.move"] whose domain is
    [[("id", "in", move_ids)]] for the move ids of the picking and
    whose fields are the move whitelist.  One move comes out for each
    record the server returns. *)
Theorem fetch_reads_the_moves_of_the_picking
        (picking_id : Z) (login session read_body search_body p : pydict)
        (id move_ids : json) (others moves shaped : list json) (rest : list response) :
  login_envelope login session ->
  Py.truthy (Py.get "uid" session) = true ->
  Py.has_key "error" read_body = false ->
  Py.lookup "result" read_body = Some (JList (JDict p :: others)) ->
  Py.lookup "id" p = Some id ->
  Py.lookup "move_ids_without_package" p = Some move_ids ->
  Py.truthy move_ids = true ->
  Py.has_key "error" search_body = false ->
  Py.lookup "result" search_body = Some (JList moves) ->
  shape_moves moves = Ok shaped ->
  exists (out : json) (w' : world) (fields : pydict),
    fetch_stock_picking_data picking_id
      (Reply (JDict login) :: Reply (JDict read_body) :: Reply (JDict search_body) :: rest)
    = (Ok out, w')
    /\ sent w'
       = [("/web/session/authenticate",
           JDict [("db", JStr Config.DB_NAME); ("login", JStr Config.USERNAME);
                  ("password", JStr Config.PASSWORD)]);
          ("/web/dataset/call_kw",
           JDict [("model", JStr "stock.picking"); ("method", JStr "read");
                  ("args", JList [JList [JInt picking_id]]);
                  ("kwargs", JDict [("fields", JList (map JStr STOCK_PICKING_WHITELIST))]);
                  ("context", JDict [])]);
          ("/web/dataset/call_kw",
           JDict [("model", JStr "stock.move"); ("method", JStr "search_read");
                  ("args", JList [JList [JList [JStr "id"; JStr "in"; move_ids]]]);
                  ("kwargs", JDict [("fields", JList (map JStr STOCK_MOVE_WHITELIST))]);
                  ("context", JDict [])])]
    /\ server w' = rest
    /\ out = JDict [("stock_picking", JDict fields)]
    /\ Py.lookup "id" fields = Some id
    /\ Py.lookup "move_ids" fields = Some move_ids
    /\ Py.lookup "moves" fields = Some (JList shaped)
    /\ List.length shaped = List.length moves.
Proof.
  intros Hlogin Huid Herr1 Hres1 Hid Hmoves Htruthy Herr2 Hres2 Hshape.
  assert (Hg1 : Py.get_default "result" read_body (JDict []) = JList (JDict p :: others))
    by (unfold Py.get_default; rewrite Hres1; reflexivity).
  assert (Hg2 : Py.get_default "move_ids_without_package" p (JList []) = move_ids)
    by (unfold Py.get_default; rewrite Hmoves; reflexivity).
  assert (Hg3 : Py.get_default "result" search_body (JDict []) = JList moves)
    by (unfold Py.get_default; rewrite Hres2; reflexivity).
  unfold fetch_stock_picking_data, bind.
  rewrite (authenticate_on_login
             (new_client Config.DB_NAME Config.USERNAME Config.PASSWORD
                (Reply (JDict login) :: Reply (JDict read_body)
                   :: Reply (JDict search_body) :: rest))
             login session _ eq_refl Hlogin).
  unfold read_record, STOCK_PICKING_WHITELIST at 1, bind.
  match goal with
  | |- context [call_kw ?m ?me ?a ?k ?w1] =>
      rewrite (call_kw_plain m me a k w1 read_body (Reply (JDict search_body) :: rest)
                 Huid eq_refl Herr1)
  end.
  rewrite !Hg1. cbn [Py.truthy ret]. rewrite !Hg2, Htruthy.
  unfold search_read, STOCK_MOVE_WHITELIST at 1, bind.
  match goal with
  | |- context [call_kw ?m ?me ?a ?k ?w1] =>
      rewrite (call_kw_plain m me a k w1 search_body rest Huid eq_refl Herr2)
  end.
  rewrite !Hg3. unfold ret. rewrite Hid.
  assert (Hall : shape_all_moves (if Py.truthy (JList moves) then JList moves else JList [])
                 = Ok shaped).
  { destruct moves; [exact Hshape | exact Hshape]. }
  rewrite Hall.
  do 3 eexists. split; [reflexivity |].
  split; [reflexivity |]. split; [reflexivity |]. split; [reflexivity |].
  split; [reflexivity |]. split; [reflexivity |]. split; [reflexivity |].
  apply (shape_moves_spec _ _ Hshape).
Qed.

Lemma fetch_reads_the_moves_of_the_picking_witness :
  exists (out : json) (w' : world) (fields : pydict),
    fetch_stock_picking_data 7
      (Reply (JDict [("jsonrpc", JStr "2.0"); ("id", JInt 1); ("result", JDict [("uid", JInt 2)])])
       :: Reply (JDict [("jsonrpc", JStr "2.0"); ("id", JInt 1); ("result", JList [JDict [("id", JInt 7); ("name", JStr "P7"); ("move_ids_without_package", JList [JInt 11])]])])
       :: Reply (JDict [("jsonrpc", JStr "2.0"); ("id", JInt 1); ("result", JList [JDict [("id", JInt 11); ("product_qty", JInt 3)]])]) :: [])
    = (Ok out, w')
    /\ sent w'
       = [("/web/session/authenticate",
           JDict [("db", JStr Config.DB_NAME); ("login", JStr Config.USERNAME);
                  ("password", JStr Config.PASSWORD)]);
          ("/web/dataset/call_kw",
           JDict [("model", JStr "stock.picking"); ("method", JStr "read");
                  ("args", JList [JList [JInt 7]]);
                  ("kwargs", JDict [("fields", JList (map JStr STOCK_PICKING_WHITELIST))]);
                  ("context", JDict [])]);
          ("/web/dataset/call_kw",
           JDict [("model", JStr "stock.move"); ("method", JStr "search_read");
                  ("args", JList [JList [JList [JStr "id"; JStr "in"; JList [JInt 11]]]]);
                  ("kwargs", JDict [("fields", JList (map JStr STOCK_MOVE_WHITELIST))]);
                  ("context", JDict [])])]
    /\ server w' = []
    /\ out = JDict [("stock_picking", JDict fields)]
    /\ Py.lookup "id" fields = Some (JInt 7)
    /\ Py.lookup "move_ids" fields = Some (JList [JInt 11])
    /\ Py.lookup "moves" fields
       = Some (JList [JDict [("id", JInt 11); ("product_id", JNone);
                 ("never_product_template_attribute_value_ids", JNone);
                 ("description_picking", JNone); ("product_qty", JInt 3);
                 ("product_uom_qty", JNone); ("product_uom", JNone);
                 ("product_uom_category_id", JNone); ("product_tmpl_id", JNone)]])
    /\ List.length [JDict [("id", JInt 11); ("product_id", JNone);
                 ("never_product_template_attribute_value_ids", JNone);
                 ("description_picking", JNone); ("product_qty", JInt 3);
                 ("product_uom_qty", JNone); ("product_uom", JNone);
                 ("product_uom_category_id", JNone); ("product_tmpl_id", JNone)]]
       = List.length [JDict [("id", JInt 11); ("product_qty", JInt 3)]].
Proof.
  apply (fetch_reads_the_moves_of_the_picking 7
           [("jsonrpc", JStr "2.0"); ("id", JInt 1); ("result", JDict [("uid", JInt 2)])]
           [("uid", JInt 2)]
           [("jsonrpc", JStr "2.0"); ("id", JInt 1); ("result", JList [JDict [("id", JInt 7); ("name", JStr "P7"); ("move_ids_without_package", JList [JInt 11])]])]
           [("jsonrpc", JStr "2.0"); ("id", JInt 1); ("result", JList [JDict [("id", JInt 11); ("product_qty", JInt 3)]])]
           [("id", JInt 7); ("name", JStr "P7"); ("move_ids_without_package", JList [JInt 11])]
           (JInt 7) (JList [JInt 11]) [] [JDict [("id", JInt 11); ("product_qty", JInt 3)]]
           [JDict [("id", JInt 11); ("product_id", JNone);
                 ("never_product_template_attribute_value_ids", JNone);
                 ("description_picking", JNone); ("product_qty", JInt 3);
                 ("product_uom_qty", JNone); ("product_uom", JNone);
                 ("product_uom_category_id", JNone); ("product_tmpl_id", JNone)]]
           []); try reflexivity.
  repeat split.
Defined.

(** X28.  When the picking lists no move (the field is absent, or
    empty), [fetch_stock_picking_data] posts the login and the read and
    nothing else, and the picking comes out with an empty list of
    moves. *)
Theorem fetch_without_moves_posts_two_requests
        (picking_id : Z) (login session read_body p : pydict)
        (id : json) (others : list json) (rest : list response) :
  login_envelope login session ->
  Py.truthy (Py.get "uid" session) = true ->
  Py.has_key "error" read_body = false ->
  Py.lookup "result" read_body = Some (JList (JDict p :: others)) ->
  Py.lookup "id" p = Some id ->
  Py.truthy (Py.get_default "move_ids_without_package" p (JList [])) = false ->
  exists (out : json) (w' : world) (fields : pydict),
    fetch_stock_picking_data picking_id (Reply (JDict login) :: Reply (JDict read_body) :: rest)
    = (Ok out, w')
    /\ sent w'
       = [("/web/session/authenticate",
           JDict [("db", JStr Config.DB_NAME); ("login", JStr Config.USERNAME);
                  ("password", JStr Config.PASSWORD)]);
          ("/web/dataset/call_kw",
           JDict [("model", JStr "stock.picking"); ("method", JStr "read");
                  ("args", JList [JList [JInt picking_id]]);
                  ("kwargs", JDict [("fields", JList (map JStr STOCK_PICKING_WHITELIST))]);
                  ("context", JDict [])])]
    /\ server w' = rest
    /\ out = JDict [("stock_picking", JDict fields)]
    /\ Py.lookup "id" fields = Some id
    /\ Py.lookup "moves" fields = Some (JList []).
Proof.
  intros Hlogin Huid Herr1 Hres1 Hid Hfalsy.
  assert (Hg1 : Py.get_default "result" read_body (JDict []) = JList (JDict p :: others))
    by (unfold Py.get_default; rewrite Hres1; reflexivity).
  unfold fetch_stock_picking_data, bind.
  rewrite (authenticate_on_login
             (new_client Config.DB_NAME Config.USERNAME Config.PASSWORD
                (Reply (JDict login) :: Reply (JDict read_body) :: rest))
             login session _ eq_refl Hlogin).
  unfold read_record, STOCK_PICKING_WHITELIST at 1, bind.
  match goal with
  | |- context [call_kw ?m ?me ?a ?k ?w1] =>
      rewrite (call_kw_plain m me a k w1 read_body rest Huid eq_refl Herr1)
  end.
  rewrite !Hg1. cbn [Py.truthy ret]. rewrite Hfalsy. unfold ret. rewrite Hid.
  cbn [shape_all_moves shape_moves].
  do 3 eexists. repeat split.
Qed.

Lemma fetch_without_moves_posts_two_requests_witness :
  exists (out : json) (w' : world) (fields : pydict),
    fetch_stock_picking_data 7
      (Reply (JDict [("jsonrpc", JStr "2.0"); ("id", JInt 1); ("result", JDict [("uid", JInt 2)])])
       :: Reply (JDict [("jsonrpc", JStr "2.0"); ("id", JInt 1);
                        ("result", JList [JDict [("id", JInt 7)]])]) :: [])
    = (Ok out, w')
    /\ sent w'
       = [("/web/session/authenticate",
           JDict [("db", JStr Config.DB_NAME); ("login", JStr Config.USERNAME);
                  ("password", JStr Config.PASSWORD)]);
          ("/web/dataset/call_kw",
           JDict [("model", JStr "stock.picking"); ("method", JStr "read");
                  ("args", JList [JList [JInt 7]]);
                  ("kwargs", JDict [("fields", JList (map JStr STOCK_PICKING_WHITELIST))]);
                  ("context", JDict [])])]
    /\ server w' = []
    /\ out = JDict [("stock_picking", JDict fields)]
    /\ Py.lookup "id" fields = Some (JInt 7)
    /\ Py.lookup "moves" fields = Some (JList []).
Proof.
  apply (fetch_without_moves_posts_two_requests 7
           [("jsonrpc", JStr "2.0"); ("id", JInt 1); ("result", JDict [("uid", JInt 2)])]
           [("uid", JInt 2)]
           [("jsonrpc", JStr "2.0"); ("id", JInt 1); ("result", JList [JDict [("id", JInt 7)]])]
           [("id", JInt 7)] (JInt 7) [] []); try reflexivity.
  repeat split.
Defined.

Lemma shape_status_keys (record shaped : json) :
  shape_status record = Ok shaped ->
  exists fields, shaped = JDict fields /\ Py.keys fields = SALLA_ORDER_STATUS_WHITELIST.
Proof.
  unfold shape_status. destruct record as [| | | | | r]; try discriminate.
  destruct (Py.lookup "id" r); [| discriminate].
  intros [= <-]. eexists. split; reflexivity.
Qed.

Lemma shape_statuses_spec (records : list json) :
  forall shaped : list json,
    shape_statuses records = Ok shaped ->
    List.length shaped = List.length records
    /\ Forall (fun s => exists fields,
                   s = JDict fields /\ Py.keys fields = SALLA_ORDER_STATUS_WHITELIST) shaped.
Proof.
  induction records as [| record rest IH]; intros shaped H.
  - injection H as <-. split; [reflexivity | constructor].
  - cbn [shape_statuses] in H.
    destruct (shape_status record) as [s | e] eqn:Hs; [| discriminate].
    destruct (shape_statuses rest) as [others | e]; [| discriminate].
    injection H as <-. destruct (IH others eq_refl) as [Hl Hf].
    split; [cbn; congruence |]. constructor; [| exact Hf].
    apply (shape_status_keys record s Hs).
Qed.

(** X29.  What [fetch_salla_order_status] returns has three keys,
    ["model"], ["total_records"] and ["records"]; [total_records] is the
    number of records in the output, and each record holds the five
    fields of the status whitelist and nothing else. *)
Theorem fetched_statuses_are_counted_and_shaped
        (srv : list response) (out : json) (w' : world) :
  fetch_salla_order_status srv = (Ok out, w') ->
  exists shaped : list json,
    out = JDict [("model", JStr "salla.order.status");
                 ("total_records", JInt (Z.of_nat (List.length shaped)));
                 ("records", JList shaped)]
    /\ Forall (fun s => exists fields,
                   s = JDict fields /\ Py.keys fields = SALLA_ORDER_STATUS_WHITELIST) shaped.
Proof.
  unfold fetch_salla_order_status, bind.
  destruct (authenticate _) as [[b | e] w1]; [| discriminate].
  destruct (search_read "salla.order.status" (JList []) SALLA_ORDER_STATUS_WHITELIST w1)
    as [[all_records | e] w2]; [| discriminate].
  destruct all_records as [| | | | l |]; try discriminate.
  destruct (shape_statuses l) as [shaped | e] eqn:Hs; [| discriminate].
  intros [= <- _]. destruct (shape_statuses_spec l shaped Hs) as [Hl Hf].
  exists shaped. rewrite Hl. split; [reflexivity | exact Hf].
Qed.

Lemma fetched_statuses_are_counted_and_shaped_witness :
  exists shaped : list json,
    JDict [("model", JStr "salla.order.status");
           ("total_records", JInt 1);
           ("records", JList [JDict [("id", JInt 3); ("salla_status_id", JNone);
                                     ("name", JStr "Shipped"); ("type", JNone);
                                     ("slug", JNone)]])]
    = JDict [("model", JStr "salla.order.status");
             ("total_records", JInt (Z.of_nat (List.length shaped)));
             ("records", JList shaped)]
    /\ Forall (fun s => exists fields,
                   s = JDict fields /\ Py.keys fields = SALLA_ORDER_STATUS_WHITELIST) shaped.
Proof.
  apply (fetched_statuses_are_counted_and_shaped
           [Fixtures.reply_result (JDict [("uid", JInt 2)]);
            Fixtures.reply_result
              (JList [JDict [("id", JInt 3); ("name", JStr "Shipped"); ("color", JInt 4)]])]
           _
           (snd (fetch_salla_order_status
                   [Fixtures.reply_result (JDict [("uid", JInt 2)]);
                    Fixtures.reply_result
                      (JList [JDict [("id", JInt 3); ("name", JStr "Shipped");
                                     ("color", JInt 4)]])]))).
  vm_compute. reflexivity.
Defined.

(** X30.  The two fetch functions read nothing before the login has
    succeeded: when [authenticate] raises on the new client, each of
    them raises the same exception and leaves the same state, with no
    request posted after the login. *)
Theorem fetch_stops_when_the_login_fails
        (picking_id : Z) (srv : list response) (e : exn) (w' : world) :
  authenticate (new_client Config.DB_NAME Config.USERNAME Config.PASSWORD srv)
  = (Raise e, w') ->
  fetch_stock_picking_data picking_id srv = (Raise e, w')
  /\ fetch_salla_order_status srv = (Raise e, w').
Proof.
  intros H. unfold fetch_stock_picking_data, fetch_salla_order_status, bind.
  rewrite H. split; reflexivity.
Qed.

Lemma fetch_stops_when_the_login_fails_witness :
  fetch_stock_picking_data 7
    [Fixtures.reply_error "Access Denied" (JDict []); Fixtures.reply_result (JList [])]
  = (Raise (JsonRpcError (JStr "Access Denied") (JDict [])),
     snd (authenticate
            (new_client Config.DB_NAME Config.USERNAME Config.PASSWORD
               [Fixtures.reply_error "Access Denied" (JDict []);
                Fixtures.reply_result (JList [])])))
  /\ fetch_salla_order_status
       [Fixtures.reply_error "Access Denied" (JDict []); Fixtures.reply_result (JList [])]
     = (Raise (JsonRpcError (JStr "Access Denied") (JDict [])),
        snd (authenticate
               (new_client Config.DB_NAME Config.USERNAME Config.PASSWORD
                  [Fixtures.reply_error "Access Denied" (JDict []);
                   Fixtures.reply_result (JList [])]))).
Proof.
  apply (fetch_stops_when_the_login_fails 7
           [Fixtures.reply_error "Access Denied" (JDict []); Fixtures.reply_result (JList [])]).
  vm_compute. reflexivity.
Defined.

End Fetching.
